(** * Verification of the Octopus charging scanner core.

    Shallow embedding of [src/modules/analyzer.py] (opportunity scoring and
    window selection), [forecast_tracker.py], [forecast_evolution.py] and
    [threshold_tuner.py].

    Conventions:
    - Python floats are modelled as rationals [Q] (exact arithmetic);
    - timestamps are minutes as [Z], calendar dates are day numbers as [Z];
    - Python exceptions are the constructors of [exn], carried by [result]. *)

From Stdlib Require Import ZArith QArith Qabs Qround Lqa Lia List String Bool Sorted Permutation.
Import ListNotations.
Open Scope string_scope.
Open Scope list_scope.
Open Scope Q_scope.

(** ** Python runtime fragments *)

Inductive exn : Type :=
| ValueError (msg : string)
| ZeroDivisionError
| StatisticsError (msg : string).

Inductive result (A : Type) : Type :=
| Ok (a : A)
| Err (e : exn).
Arguments Ok {A} a.
Arguments Err {A} e.

Definition bind {A B} (m : result A) (f : A -> result B) : result B :=
  match m with Ok a => f a | Err e => Err e end.

Notation "x <- m ;; k" := (bind m (fun x => k))
  (at level 61, m at next level, right associativity).

Definition Qlt_bool (x y : Q) : bool := negb (Qle_bool y x).

(** [a / b] on Python numbers. *)
Definition py_div (a b : Q) : result Q :=
  if Qeq_bool b 0 then Err ZeroDivisionError else Ok (a / b).

(** [int(x)]: truncation toward zero. *)
Definition py_int (x : Q) : Z := Z.quot (Qnum x) (Zpos (Qden x)).

(** [round(x)]: nearest integer, ties to even. *)
Definition py_round (x : Q) : Z :=
  let f := Qfloor x in
  let r := x - inject_Z f in
  if Qlt_bool r (1 # 2) then f
  else if Qlt_bool (1 # 2) r then (f + 1)%Z
  else if Z.even f then f else (f + 1)%Z.

(** [round(x, nd)] for a positive number of decimals. *)
Definition py_round_nd (x : Q) (nd : nat) : Q :=
  let s := inject_Z (10 ^ Z.of_nat nd)%Z in
  inject_Z (py_round (x * s)) / s.

Definition Qmax (a b : Q) : Q := if Qlt_bool a b then b else a.

Definition len_Q {A} (l : list A) : Q := inject_Z (Z.of_nat (List.length l)).

Definition sum_Q (l : list Q) : Q := fold_right Qplus 0 l.

(** [range(n)]. *)
Definition py_range (n : Z) : list Z := map Z.of_nat (seq 0 (Z.to_nat n)).

(** [l[a:b]] with Python's normalisation of negative and oversized bounds. *)
Definition py_slice {A} (l : list A) (a b : Z) : list A :=
  let n := Z.of_nat (List.length l) in
  let norm x := if (x <? 0)%Z then Z.max 0 (n + x) else Z.min x n in
  let a' := norm a in
  let b' := norm b in
  firstn (Z.to_nat (b' - a')) (skipn (Z.to_nat a') l).

(** [sorted(l, key=key)]: stable insertion sort, ascending. *)
Fixpoint insert_key {A} (key : A -> Z) (x : A) (l : list A) : list A :=
  match l with
  | [] => [x]
  | y :: r => if (key x <=? key y)%Z then x :: y :: r else y :: insert_key key x r
  end.

Fixpoint sort_key {A} (key : A -> Z) (l : list A) : list A :=
  match l with
  | [] => []
  | x :: r => insert_key key x (sort_key key r)
  end.

(** [sorted(l, key=key, reverse=True)]: stable, descending. *)
Fixpoint insert_key_desc {A} (key : A -> Z) (x : A) (l : list A) : list A :=
  match l with
  | [] => [x]
  | y :: r => if (key y <=? key x)%Z then x :: y :: r else y :: insert_key_desc key x r
  end.

Fixpoint sort_key_desc {A} (key : A -> Z) (l : list A) : list A :=
  match l with
  | [] => []
  | x :: r => insert_key_desc key x (sort_key_desc key r)
  end.

(** [sorted(l)] on numbers. *)
Fixpoint insert_Q (x : Q) (l : list Q) : list Q :=
  match l with
  | [] => [x]
  | y :: r => if Qle_bool x y then x :: y :: r else y :: insert_Q x r
  end.

Fixpoint sort_Q (l : list Q) : list Q :=
  match l with [] => [] | x :: r => insert_Q x (sort_Q r) end.

(** ** analyzer.py *)
Module Analyzer.

Inductive OpportunityRating := EXCELLENT | GOOD | AVERAGE | POOR.

Record PriceSlot := { ps_time : Z; ps_price : Q; ps_source : string }.
Record CarbonSlot := { cs_time : Z; cs_intensity : Z }.

(** An element of [aligned_data]: the dict [{"time", "price", "carbon"}]. *)
Record AlignedSlot := { al_time : Z; al_price : Q; al_carbon : Z }.

Record ChargingWindow := {
  start : Z;
  end_ : Z;
  avg_price : Q;
  avg_carbon : Z;
  total_cost : Q;
  total_carbon : Z;
  opportunity_score : Q;
  rating : OpportunityRating;
  reason : string;
  savings_vs_baseline : Q
}.

Definition has_negative_pricing (w : ChargingWindow) : bool :=
  Qlt_bool (avg_price w) 0.

Definition get_earnings_estimate (w : ChargingWindow) (kwh : Q) : option Q :=
  if negb (has_negative_pricing w) then None
  else Some (Qabs (avg_price w * kwh / 100)).

Record Analyzer := {
  price_weight : Q;
  carbon_weight : Q;
  price_excellent : Q;
  price_good : Q;
  price_average : Q;
  carbon_excellent : Z;
  carbon_good : Z;
  carbon_average : Z
}.

(** [Analyzer.__init__]: rejects weights that do not sum to 1.0 +- 0.01. *)
Definition make_analyzer (pw cw pe pg pa : Q) (ce cg ca : Z) : result Analyzer :=
  if Qlt_bool (1 # 100) (Qabs (pw + cw - 1))
  then Err (ValueError "Weights must sum to 1.0")
  else Ok {| price_weight := pw; carbon_weight := cw;
             price_excellent := pe; price_good := pg; price_average := pa;
             carbon_excellent := ce; carbon_good := cg; carbon_average := ca |}.

Definition default_analyzer : result Analyzer :=
  make_analyzer (6 # 10) (4 # 10) 10 15 20 100 150 200.

Section Scoring.
Variable a : Analyzer.

Definition calculate_price_score (price : Q) : Q :=
  if Qle_bool price (price_excellent a) then 100
  else if Qle_bool price (price_good a) then 75
  else if Qle_bool price (price_average a) then 50
  else 25.

Definition calculate_carbon_score (carbon : Q) : Q :=
  if Qle_bool carbon (inject_Z (carbon_excellent a)) then 100
  else if Qle_bool carbon (inject_Z (carbon_good a)) then 75
  else if Qle_bool carbon (inject_Z (carbon_average a)) then 50
  else 25.

Definition calculate_opportunity_score (price carbon : Q) : Q :=
  price_weight a * calculate_price_score price
  + carbon_weight a * calculate_carbon_score carbon.

Definition classify_opportunity (score : Q) : OpportunityRating :=
  if Qle_bool 90 score then EXCELLENT
  else if Qle_bool 70 score then GOOD
  else if Qle_bool 50 score then AVERAGE
  else POOR.

Definition determine_reason (price : Q) (carbon : Z) : string :=
  let is_cheap := Qle_bool price (price_good a) in
  let is_clean := (carbon <=? carbon_good a)%Z in
  if is_cheap && is_clean then "both"
  else if is_cheap then "cheap"
  else if is_clean then "clean"
  else "neither".

End Scoring.

Section Window.
Variable a : Analyzer.

(** [carbon_lookup = {slot.time: slot.intensity ...}] then [.get(t)]:
    the last slot with a given time wins. *)
Fixpoint carbon_lookup (t : Z) (cs : list CarbonSlot) : option Z :=
  match cs with
  | [] => None
  | c :: r =>
      match carbon_lookup t r with
      | Some v => Some v
      | None => if (cs_time c =? t)%Z then Some (cs_intensity c) else None
      end
  end.

(** [_align_data]: inner join on exact timestamps, then a stable sort by time. *)
Definition align_data (price_slots : list PriceSlot) (carbon_slots : list CarbonSlot)
  : list AlignedSlot :=
  sort_key al_time
    (flat_map (fun p =>
       match carbon_lookup (ps_time p) carbon_slots with
       | Some c => [{| al_time := ps_time p; al_price := ps_price p; al_carbon := c |}]
       | None => []
       end) price_slots).

Definition prices_of (ws : list AlignedSlot) : list Q := map al_price ws.
Definition carbons_of (ws : list AlignedSlot) : list Q :=
  map (fun s => inject_Z (al_carbon s)) ws.

(** The two means computed in the body of the search loop. *)
Definition window_means (ws : list AlignedSlot) : result (Q * Q) :=
  ap <- py_div (sum_Q (prices_of ws)) (len_Q ws) ;;
  ac <- py_div (sum_Q (carbons_of ws)) (len_Q ws) ;;
  Ok (ap, ac).

(** Loop state: [(best_score, best_window)]. *)
Definition search_state := (Q * option (list AlignedSlot))%type.

(** One iteration of [for i in range(len(aligned_data) - slots_needed + 1)]. *)
Definition search_step (aligned_data : list AlignedSlot) (slots_needed : Z)
  (st : result search_state) (i : Z) : result search_state :=
  bind st (fun '(best_score, best_window) =>
    let window_slots := py_slice aligned_data i (i + slots_needed) in
    bind (window_means window_slots) (fun '(avg_price, avg_carbon) =>
      let score := calculate_opportunity_score a avg_price avg_carbon in
      if Qlt_bool best_score score then Ok (score, Some window_slots)
      else Ok (best_score, best_window))).

Definition search (aligned_data : list AlignedSlot) (slots_needed : Z) : result search_state :=
  fold_left (search_step aligned_data slots_needed)
    (py_range (Z.of_nat (List.length aligned_data) - slots_needed + 1))
    (Ok (-1, None)).

Fixpoint first_index_at_or_after (t : Z) (l : list AlignedSlot) (i : Z) : option Z :=
  match l with
  | [] => None
  | s :: r => if (t <=? al_time s)%Z then Some i else first_index_at_or_after t r (i + 1)
  end.

(** [_calculate_baseline_cost]. *)
Definition calculate_baseline_cost (aligned_data : list AlignedSlot) (baseline_time : Z)
  (slots_needed : Z) (kwh_charged : Q) : result Q :=
  let baseline_slots :=
    match first_index_at_or_after baseline_time aligned_data 0 with
    | Some i => py_slice aligned_data i (i + slots_needed)
    | None => []
    end in
  match baseline_slots with
  | [] => Ok 5
  | _ =>
      if (Z.of_nat (List.length baseline_slots) <? slots_needed)%Z then Ok 5
      else
        avg <- py_div (sum_Q (prices_of baseline_slots)) (len_Q baseline_slots) ;;
        Ok (avg * kwh_charged / 100)
  end.

(** [find_optimal_window]. *)
Definition find_optimal_window (price_slots : list PriceSlot) (carbon_slots : list CarbonSlot)
  (charge_duration_hours : Q) (baseline_time : option Z) : result ChargingWindow :=
  match price_slots, carbon_slots with
  | [], _ | _, [] => Err (ValueError "Price and carbon data required")
  | _, _ =>
    let aligned_data := align_data price_slots carbon_slots in
    match aligned_data with
    | [] => Err (ValueError "No overlapping price and carbon data found")
    | _ =>
      let slots_needed := py_int (charge_duration_hours * 2) in
      st <- search aligned_data slots_needed ;;
      match snd st with
      | None | Some [] => Err (ValueError "No valid charging window found")
      | Some ((b0 :: _) as best_window) =>
        let best_score := fst st in
        let start_time := al_time b0 in
        let end_time := (al_time (last best_window b0) + 30)%Z in
        avg_price <- py_div (sum_Q (prices_of best_window)) (len_Q best_window) ;;
        avg_carbon_f <- py_div (sum_Q (carbons_of best_window)) (len_Q best_window) ;;
        let avg_carbon := py_int avg_carbon_f in
        let kwh_charged := charge_duration_hours * (74 # 10) in
        let total_cost := avg_price * kwh_charged / 100 in
        let total_carbon := py_int (inject_Z avg_carbon * kwh_charged) in
        baseline_cost <-
          match baseline_time with
          | Some bt => calculate_baseline_cost aligned_data bt slots_needed kwh_charged
          | None => Ok (total_cost * (3 # 2))
          end ;;
        let savings := baseline_cost - total_cost in
        Ok {| start := start_time;
              end_ := end_time;
              avg_price := avg_price;
              avg_carbon := avg_carbon;
              total_cost := total_cost;
              total_carbon := total_carbon;
              opportunity_score := best_score;
              rating := classify_opportunity best_score;
              reason := determine_reason a avg_price avg_carbon;
              savings_vs_baseline := savings |}
      end
    end
  end.

(** Score of the candidate window starting at [i], as computed in the loop
    body when the window is non-empty. *)
Definition window_score (aligned_data : list AlignedSlot) (slots_needed i : Z) : Q :=
  let ws := py_slice aligned_data i (i + slots_needed) in
  calculate_opportunity_score a (sum_Q (prices_of ws) / len_Q ws)
    (sum_Q (carbons_of ws) / len_Q ws).

End Window.

(** [Analyzer(...)] succeeded on the analyzer's own fields. *)
Definition constructed (a : Analyzer) : Prop :=
  make_analyzer (price_weight a) (carbon_weight a) (price_excellent a) (price_good a)
    (price_average a) (carbon_excellent a) (carbon_good a) (carbon_average a) = Ok a.

(** [WindowStatus]. *)
Inductive WindowStatus := UPCOMING | ACTIVE | PASSED.

(** [ChargingWindow.get_status(current_time)], the time given explicitly. *)
Definition get_status (w : ChargingWindow) (current_time : Z) : WindowStatus :=
  if (current_time <? start w)%Z then UPCOMING
  else if (end_ w <? current_time)%Z then PASSED
  else ACTIVE.

(** The ratings from worst to best, as their thresholds order them. *)
Definition rating_rank (r : OpportunityRating) : Z :=
  match r with POOR => 0 | AVERAGE => 1 | GOOD => 2 | EXCELLENT => 3 end%Z.

(** [time_until_start] and [time_until_end], in minutes. *)
Definition time_until_start (w : ChargingWindow) (current_time : Z) : Z :=
  (start w - current_time)%Z.

Definition time_until_end (w : ChargingWindow) (current_time : Z) : Z :=
  (end_ w - current_time)%Z.

End Analyzer.

(** ** threshold_tuner.py, with the parts of Python's [statistics] it calls *)
Module ThresholdTuner.

(** [statistics.median]. *)
Definition median (data0 : list Q) : result Q :=
  let data := sort_Q data0 in
  let n := List.length data in
  match n with
  | O => Err (StatisticsError "no median for empty data")
  | _ =>
      if Nat.odd n then Ok (nth (n / 2) data 0)
      else let i := (n / 2)%nat in Ok ((nth (i - 1) data 0 + nth i data 0) / 2)
  end.

(** [statistics.quantiles(data, n=n)], default method ["exclusive"]. *)
Definition quantiles (data0 : list Q) (n : Z) : result (list Q) :=
  if (n <? 1)%Z then Err (StatisticsError "n must be at least 1") else
  let data := sort_Q data0 in
  let ld := Z.of_nat (List.length data) in
  if (ld <? 2)%Z then
    (if (ld =? 1)%Z then Ok (List.concat (repeat data (Z.to_nat (n - 1))))
     else Err (StatisticsError "must have at least one data point"))
  else
    let m := (ld + 1)%Z in
    Ok (map (fun i =>
          let j0 := (i * m / n)%Z in
          let j := if (j0 <? 1)%Z then 1%Z else if (ld - 1 <? j0)%Z then (ld - 1)%Z else j0 in
          let delta := (i * m - j * n)%Z in
          (nth (Z.to_nat (j - 1)) data 0 * inject_Z (n - delta)
           + nth (Z.to_nat j) data 0 * inject_Z delta) / inject_Z n)
        (map (fun i => Z.of_nat i + 1)%Z (seq 0 (Z.to_nat (n - 1))))).

(** [ThresholdTuner.calculate_optimal_thresholds]. *)
Definition calculate_optimal_thresholds (historical_prices : list Q) : result (Q * Q) :=
  if (List.length historical_prices <? 7)%nat then Ok (10, 15)
  else
    qs <- quantiles historical_prices 4 ;;
    let excellent := nth 0 qs 0 in
    good <- median historical_prices ;;
    Ok (py_round_nd excellent 1, py_round_nd good 1).

(** The prices [5.0, 6.0, ..., 15.0] of the tuner's test suite. *)
Definition five_to_fifteen : list Q := map (fun i => inject_Z (Z.of_nat i + 5)) (seq 0 11).

End ThresholdTuner.

(** ** forecast_evolution.py *)
Module ForecastEvolution.

(** [_calculate_confidence]. *)
Definition time_score (days_until_target : Z) : Z :=
  if (days_until_target <=? 1)%Z then 100
  else if (days_until_target =? 2)%Z then 85
  else if (days_until_target <=? 4)%Z then 60
  else Z.max 30 (100 - days_until_target * 10).

Definition source_score (price_source : string) : Z :=
  if String.eqb price_source "octopus_actual" then 100 else 50.

Definition accuracy_score (historical_mae : option Q) : Q :=
  match historical_mae with
  | None => 40
  | Some mae =>
      if Qlt_bool 5 mae then 40
      else if Qlt_bool mae 2 then 100
      else Qmax 40 (100 - mae * 12)
  end.

Definition calculate_confidence (days_until_target : Z) (price_source : string)
  (historical_mae : option Q) : Z :=
  py_int ((40 # 100) * inject_Z (time_score days_until_target)
          + (35 # 100) * inject_Z (source_score price_source)
          + (25 # 100) * accuracy_score historical_mae).

(** The confidence score as the spec words it: settled or forecast data,
    the same three component scores, and [round] of the weighted blend. *)
Definition spec_time_score (days_out : Z) : Q :=
  if (days_out <=? 1)%Z then 100
  else if (days_out =? 2)%Z then 85
  else if (days_out <=? 4)%Z then 60
  else inject_Z (Z.max 30 (100 - 10 * days_out)).

Definition spec_source_score (settled : bool) : Q := if settled then 100 else 50.

Definition spec_accuracy_score (mae : option Q) : Q :=
  match mae with
  | Some m => if Qlt_bool m 2 then 100 else if Qlt_bool 5 m then 40 else Qmax 40 (100 - 12 * m)
  | None => 40
  end.

Definition spec_blend (days_out : Z) (settled : bool) (mae : option Q) : Q :=
  (40 # 100) * spec_time_score days_out + (35 # 100) * spec_source_score settled
  + (25 # 100) * spec_accuracy_score mae.

Definition spec_confidence (days_out : Z) (settled : bool) (mae : option Q) : Z :=
  py_round (spec_blend days_out settled mae).

(** The attributes of [day_comparison] read by [record_snapshot]. *)
Record DayComparison := {
  dc_price_source : string;
  dc_avg_price : Q;
  dc_cost : Q;
  dc_savings_vs_today : Q;
  dc_rating : string
}.

(** A snapshot; [snapshot_date] is the day number of [today.isoformat()]
    (ISO dates order as their day numbers). *)
Record Snapshot := {
  snapshot_date : Z;
  days_until_target : Z;
  price_source : string;
  predicted_avg_price : Q;
  predicted_cost : Q;
  predicted_savings_pct : Q;
  snap_rating : string;
  confidence_score : Z
}.

(** [_calculate_evolution_summary] (the price volatility, a square root, is not modelled). *)
Record Summary := {
  initial_savings_pct : Q;
  current_savings_pct : Q;
  savings_drift : Q;
  savings_drift_direction : string;
  num_snapshots : nat;
  first_snapshot : Z
}.

Definition calculate_evolution_summary (snapshots : list Snapshot) : option Summary :=
  match snapshots with
  | [] => None
  | initial :: _ =>
      let current := last snapshots initial in
      let drift := predicted_savings_pct current - predicted_savings_pct initial in
      Some {| initial_savings_pct := predicted_savings_pct initial;
              current_savings_pct := predicted_savings_pct current;
              savings_drift := py_round_nd drift 2;
              savings_drift_direction :=
                if Qlt_bool 0 drift then "improved"
                else if Qlt_bool drift 0 then "worsened" else "unchanged";
              num_snapshots := List.length snapshots;
              first_snapshot := snapshot_date initial |}
  end.

Record TargetRecord := {
  target_date : string;
  snapshots : list Snapshot;
  evolution_summary : option Summary;
  actual_result : option (Q * Q)
}.

(** [evolution_data["target_forecasts"]]: a Python dict, insertion-ordered. *)
Definition Store := list (string * TargetRecord).

Fixpoint dict_get (k : string) (d : Store) : option TargetRecord :=
  match d with
  | [] => None
  | (k', v) :: r => if String.eqb k k' then Some v else dict_get k r
  end.

Fixpoint dict_set (k : string) (v : TargetRecord) (d : Store) : Store :=
  match d with
  | [] => [(k, v)]
  | (k', v') :: r => if String.eqb k k' then (k', v) :: r else (k', v') :: dict_set k v r
  end.

(** The snapshot built by [record_snapshot] ("Build snapshot"). *)
Definition make_snapshot (today target : Z) (dc : DayComparison) (historical_mae : option Q)
  : Snapshot :=
  let days := (target - today)%Z in
  let today_cost := dc_cost dc + dc_savings_vs_today dc in
  let savings_pct :=
    if Qlt_bool 0 today_cost then dc_savings_vs_today dc / today_cost * 100 else 0 in
  {| snapshot_date := today;
     days_until_target := days;
     price_source := dc_price_source dc;
     predicted_avg_price := dc_avg_price dc;
     predicted_cost := dc_cost dc;
     predicted_savings_pct := py_round_nd savings_pct 2;
     snap_rating := dc_rating dc;
     confidence_score := calculate_confidence days (dc_price_source dc) historical_mae |}.

(** [record_snapshot]: [today] is the current day, [target_date] the key and
    [target] its parsed day. *)
Definition record_snapshot (today : Z) (target_date_key : string) (target : Z)
  (dc : DayComparison) (historical_mae : option Q) (store : Store) : Store :=
  if (target <? today)%Z then store
  else
    let snapshot := make_snapshot today target dc historical_mae in
    let target_data :=
      match dict_get target_date_key store with
      | Some t => t
      | None => {| target_date := target_date_key; snapshots := [];
                   evolution_summary := None; actual_result := None |}
      end in
    let kept := filter (fun s => negb (snapshot_date s =? today)%Z) (snapshots target_data) in
    let snaps := sort_key snapshot_date (kept ++ [snapshot]) in
    dict_set target_date_key
      {| target_date := target_date target_data;
         snapshots := snaps;
         evolution_summary := calculate_evolution_summary snaps;
         actual_result := actual_result target_data |} store.

(** The arguments of one [record_snapshot] call. *)
Record SnapshotCall := {
  call_today : Z;
  call_key : string;
  call_target : Z;
  call_dc : DayComparison;
  call_mae : option Q
}.

Definition run_snapshots (calls : list SnapshotCall) (store : Store) : Store :=
  fold_left (fun st c => record_snapshot (call_today c) (call_key c) (call_target c)
                           (call_dc c) (call_mae c) st) calls store.

(** [get_evolution]. *)
Definition get_evolution (target_date_key : string) (store : Store) : option TargetRecord :=
  dict_get target_date_key store.

(** [get_latest_snapshot]: [snapshots[-1]] when the list is non-empty. *)
Definition get_latest_snapshot (target_date_key : string) (store : Store) : option Snapshot :=
  match get_evolution target_date_key store with
  | Some ev =>
      match snapshots ev with
      | [] => None
      | s :: _ => Some (last (snapshots ev) s)
      end
  | None => None
  end.

(** [get_all_tracked_dates]: the keys in insertion order. *)
Definition get_all_tracked_dates (store : Store) : list string := map fst store.

Definition SIGNIFICANT_CHANGE_THRESHOLD : Q := 10.

(** The dict returned by [detect_significant_change]. *)
Record Change := {
  ch_target_date : string;
  ch_previous_savings_pct : Q;
  ch_current_savings_pct : Q;
  ch_savings_drift : Q;
  ch_drift_direction : string;
  ch_previous_snapshot_date : Z;
  ch_current_snapshot_date : Z;
  ch_confidence_score : Z;
  ch_price_source : string
}.

(** [detect_significant_change]: the last two snapshots, [snapshots[-1]] and
    [snapshots[-2]]. *)
Definition detect_significant_change (target_date_key : string) (store : Store)
  : option Change :=
  match get_evolution target_date_key store with
  | None => None
  | Some ev =>
      if (List.length (snapshots ev) <? 2)%nat then None
      else
        match rev (snapshots ev) with
        | latest :: previous :: _ =>
            let current_savings := predicted_savings_pct latest in
            let previous_savings := predicted_savings_pct previous in
            let drift := current_savings - previous_savings in
            if Qle_bool SIGNIFICANT_CHANGE_THRESHOLD (Qabs drift) then
              Some {| ch_target_date := target_date_key;
                      ch_previous_savings_pct := previous_savings;
                      ch_current_savings_pct := current_savings;
                      ch_savings_drift := drift;
                      ch_drift_direction := if Qlt_bool 0 drift then "improved" else "worsened";
                      ch_previous_snapshot_date := snapshot_date previous;
                      ch_current_snapshot_date := snapshot_date latest;
                      ch_confidence_score := confidence_score latest;
                      ch_price_source := price_source latest |}
            else None
        | _ => None
        end
  end.

(** An element of the list returned by [get_forecasts_with_drift]. *)
Record DriftEntry := {
  dr_target_date : string;
  dr_initial_savings_pct : Q;
  dr_current_savings_pct : Q;
  dr_savings_drift : Q;
  dr_num_snapshots : nat
}.

(** [sorted(l, key=key, reverse=True)] with a numeric key: stable, descending. *)
Fixpoint insert_keyQ_desc {A} (key : A -> Q) (x : A) (l : list A) : list A :=
  match l with
  | [] => [x]
  | y :: r => if Qle_bool (key y) (key x) then x :: y :: r else y :: insert_keyQ_desc key x r
  end.

Fixpoint sort_keyQ_desc {A} (key : A -> Q) (l : list A) : list A :=
  match l with
  | [] => []
  | x :: r => insert_keyQ_desc key x (sort_keyQ_desc key r)
  end.

(** [get_forecasts_with_drift(min_drift)]. *)
Definition get_forecasts_with_drift (min_drift : Q) (store : Store) : list DriftEntry :=
  sort_keyQ_desc (fun e => Qabs (dr_savings_drift e))
    (flat_map (fun '(target_date_key, data) =>
       match evolution_summary data with
       | Some summary =>
           if Qle_bool min_drift (Qabs (savings_drift summary)) then
             [{| dr_target_date := target_date_key;
                 dr_initial_savings_pct := initial_savings_pct summary;
                 dr_current_savings_pct := current_savings_pct summary;
                 dr_savings_drift := savings_drift summary;
                 dr_num_snapshots := List.length (snapshots data) |}]
           else []
       | None => []
       end) store).

(** [record_actual_result] ([recorded_at] not modelled): a target that is not
    tracked is left alone. *)
Definition record_actual_result (target_date_key : string) (actual_cost actual_avg_price : Q)
  (store : Store) : Store :=
  match dict_get target_date_key store with
  | None => store
  | Some t =>
      dict_set target_date_key
        {| target_date := target_date t; snapshots := snapshots t;
           evolution_summary := evolution_summary t;
           actual_result := Some (actual_cost, actual_avg_price) |} store
  end.

Section Cleanup.
(** [datetime.strptime(target_date, "%Y-%m-%d").date()] as a day number. *)
Variable target_day : string -> Z.

(** [cleanup_old_data] with [cutoff = today - RETENTION_DAYS]: the number of
    entries removed and the store kept. *)
Definition cleanup_old_data (cutoff : Z) (store : Store) : nat * Store :=
  let kept := filter (fun '(k, _) => (cutoff <=? target_day k)%Z) store in
  (List.length store - List.length kept, kept)%nat.

End Cleanup.

(** The choices made by [format_evolution_alert] (the text of the numbers and
    of the date is not modelled): the direction in the title, the priority, the
    sound and the advice line, if any. *)
Record Alert := {
  alert_direction : string;
  alert_priority : Z;
  alert_sound : string;
  alert_advice : option string
}.

Definition format_evolution_alert (change : Change) : Alert :=
  let drift := ch_savings_drift change in
  let '(direction, priority, sound) :=
    if Qlt_bool 0 drift then ("improved", 0%Z, "cosmic") else ("worsened", 1%Z, "falling") in
  {| alert_direction := direction;
     alert_priority := priority;
     alert_sound := sound;
     alert_advice :=
       if Qlt_bool drift (-10) then Some "Charging earlier may be better"
       else if Qlt_bool 10 drift then Some "Waiting is now more attractive"
       else None |}.

End ForecastEvolution.

(** ** forecast_tracker.py *)
Module ForecastTracker.

(** [max(l)] and [min(l)] on a list of numbers (the first extremum is kept). *)
Definition py_max (l : list Q) : result Q :=
  match l with
  | [] => Err (ValueError "max() arg is an empty sequence")
  | x :: r => Ok (fold_left (fun m y => if Qlt_bool m y then y else m) r x)
  end.

Definition py_min (l : list Q) : result Q :=
  match l with
  | [] => Err (ValueError "min() arg is an empty sequence")
  | x :: r => Ok (fold_left (fun m y => if Qlt_bool y m then y else m) r x)
  end.

Definition py_any_negative (l : list Q) : bool := existsb (fun p => Qlt_bool p 0) l.

(** The metrics dict of one comparison; [cmp_date] is the day number of the
    ISO [date]; [mean_squared_error] is the value whose square root the source
    stores as [rmse]. *)
Record Comparison := {
  cmp_date : Z;
  forecast_source : string;
  num_hours : nat;
  mean_absolute_error : Q;
  mean_error : Q;
  max_error : Q;
  min_error : Q;
  forecast_avg : Q;
  actual_avg : Q;
  mean_squared_error : Q;
  forecast_predicted : bool;
  actually_occurred : bool;
  correct_prediction : bool
}.

(** The metrics computed by [record_comparison]. *)
Definition comparison_metrics (comparison_date : Z) (forecast_prices actual_prices : list Q)
  (source : string) : result Comparison :=
  if negb (List.length forecast_prices =? List.length actual_prices)%nat
  then Err (ValueError "Price lists must be same length")
  else
    let errors := map (fun '(actual, forecast) => actual - forecast)
                    (combine actual_prices forecast_prices) in
    let abs_errors := map Qabs errors in
    mae <- py_div (sum_Q abs_errors) (len_Q abs_errors) ;;
    me <- py_div (sum_Q errors) (len_Q errors) ;;
    mx <- py_max abs_errors ;;
    mn <- py_min abs_errors ;;
    favg <- py_div (sum_Q forecast_prices) (len_Q forecast_prices) ;;
    aavg <- py_div (sum_Q actual_prices) (len_Q actual_prices) ;;
    mse <- py_div (sum_Q (map (fun e => e * e) errors)) (len_Q errors) ;;
    let fneg := py_any_negative forecast_prices in
    let aneg := py_any_negative actual_prices in
    Ok {| cmp_date := comparison_date;
          forecast_source := source;
          num_hours := List.length forecast_prices;
          mean_absolute_error := mae;
          mean_error := me;
          max_error := mx;
          min_error := mn;
          forecast_avg := favg;
          actual_avg := aavg;
          mean_squared_error := mse;
          forecast_predicted := fneg;
          actually_occurred := aneg;
          correct_prediction := Bool.eqb fneg aneg |}.

(** [_save_comparison]: same-date replacement, newest first, 90 kept. *)
Definition save_comparison (metrics : Comparison) (comparisons : list Comparison)
  : list Comparison :=
  let kept := filter (fun c => negb (cmp_date c =? cmp_date metrics)%Z) comparisons in
  py_slice (sort_key_desc cmp_date (kept ++ [metrics])) 0 90.

(** [record_comparison]: the metrics returned and the stored list afterwards. *)
Definition record_comparison (comparison_date : Z) (forecast_prices actual_prices : list Q)
  (source : string) (stored : list Comparison) : result (Comparison * list Comparison) :=
  m <- comparison_metrics comparison_date forecast_prices actual_prices source ;;
  Ok (m, save_comparison m stored).

(** The fields of the dict returned by [get_recent_accuracy] that the trend
    concerns. *)
Record AccuracyStats := {
  num_comparisons : nat;
  recent_mae : option Q;
  systematic_bias : option Q;
  trend : string
}.

(** The three-way comparison of the two means. *)
Definition classify_trend (recent_avg older_avg : Q) : string :=
  if Qlt_bool recent_avg (older_avg - (1 # 2)) then "improving"
  else if Qlt_bool (older_avg + (1 # 2)) recent_avg then "degrading"
  else "stable".

(** [get_recent_accuracy(days)] over the stored comparisons. *)
Definition get_recent_accuracy (comparisons : list Comparison) (days : Z)
  : result AccuracyStats :=
  match comparisons with
  | [] => Ok {| num_comparisons := 0; recent_mae := None; systematic_bias := None;
                trend := "insufficient_data" |}
  | _ =>
    let recent := py_slice (sort_key_desc cmp_date comparisons) 0 days in
    match recent with
    | [] => Ok {| num_comparisons := 0; recent_mae := None; systematic_bias := None;
                  trend := "no_recent_data" |}
    | _ =>
      let mae_values := map mean_absolute_error recent in
      let bias_values := map mean_error recent in
      tr <-
        (if (7 <=? List.length recent)%nat then
           let recent_7 := py_slice mae_values 0 7 in
           let older_7 :=
             if (14 <=? List.length mae_values)%nat then py_slice mae_values 7 14
             else py_slice mae_values 7 (Z.of_nat (List.length mae_values)) in
           match older_7 with
           | [] => Ok "insufficient_data"
           | _ =>
               recent_avg <- py_div (sum_Q recent_7) (len_Q recent_7) ;;
               older_avg <- py_div (sum_Q older_7) (len_Q older_7) ;;
               Ok (classify_trend recent_avg older_avg)
           end
         else Ok "insufficient_data") ;;
      mae <- py_div (sum_Q mae_values) (len_Q mae_values) ;;
      bias <- py_div (sum_Q bias_values) (len_Q bias_values) ;;
      Ok {| num_comparisons := List.length recent; recent_mae := Some mae;
            systematic_bias := Some bias; trend := tr |}
    end
  end.

(** A stored comparison with the given day and MAE (other fields fixed). *)
Definition comparison_with (day : Z) (mae : Q) : Comparison :=
  {| cmp_date := day; forecast_source := "guy_lipman"; num_hours := 24;
     mean_absolute_error := mae; mean_error := 0; max_error := mae; min_error := mae;
     forecast_avg := 10; actual_avg := 10; mean_squared_error := mae * mae;
     forecast_predicted := false; actually_occurred := false; correct_prediction := true |}.

(** Eight stored days: day 1 with MAE 5, days 2..8 with MAE 1. *)
Definition eight_days : list Comparison :=
  comparison_with 1 5 :: map (fun i => comparison_with (Z.of_nat i + 2) 1) (seq 0 7).

(** [get_reliability_grade(days)]. *)
Definition get_reliability_grade (comparisons : list Comparison) (days : Z) : result string :=
  stats <- get_recent_accuracy comparisons days ;;
  if (num_comparisons stats <? 3)%nat then Ok "UNKNOWN"
  else
    match recent_mae stats with
    | None => Ok "UNKNOWN"
    | Some mae =>
        if Qlt_bool mae 2 then Ok "EXCELLENT"
        else if Qlt_bool mae 3 then Ok "GOOD"
        else if Qlt_bool mae 5 then Ok "FAIR"
        else Ok "POOR"
    end.

(** [should_trust_forecast(days)]. *)
Definition should_trust_forecast (comparisons : list Comparison) (days : Z) : result bool :=
  stats <- get_recent_accuracy comparisons days ;;
  if (num_comparisons stats <? 3)%nat then Ok true
  else
    match recent_mae stats with
    | None => Ok false
    | Some mae => Ok (Qlt_bool mae 4)
    end.

End ForecastTracker.

(** ** threshold_tuner.py: [get_recommended_thresholds] *)
Module TunerRecommendations.
Import ThresholdTuner ForecastTracker.

(** A stored recommendation: the date of its [timestamp] as a day number and
    its [avg_price] and [avg_carbon] keys, when present. *)
Record Recommendation := {
  rec_day : Z;
  rec_avg_price : option Q;
  rec_avg_carbon : option Q
}.

(** The dict of thresholds returned ([last_updated] not modelled). *)
Record Thresholds := {
  th_price_excellent : Q;
  th_price_good : Q;
  th_carbon_excellent : Q;
  th_carbon_good : Q;
  th_days_analyzed : nat;
  th_price_min : Q;
  th_price_max : Q;
  th_price_mean : Q;
  th_using_defaults : bool
}.

(** [_default_thresholds]. *)
Definition default_thresholds : Thresholds :=
  {| th_price_excellent := 10; th_price_good := 15;
     th_carbon_excellent := 100; th_carbon_good := 150;
     th_days_analyzed := 0; th_price_min := 0; th_price_max := 0; th_price_mean := 0;
     th_using_defaults := true |}.

(** [statistics.mean]. *)
Definition statistics_mean (data : list Q) : result Q :=
  match data with
  | [] => Err (StatisticsError "mean requires at least one data point")
  | _ => Ok (sum_Q data / len_Q data)
  end.

(** [get_recommended_thresholds]: [None] when the file is missing or cannot be
    read; [cutoff_day] is the date of [now - days]. *)
Definition get_recommended_thresholds (recommendations : option (list Recommendation))
  (cutoff_day : Z) : result Thresholds :=
  match recommendations with
  | None => Ok default_thresholds
  | Some [] => Ok default_thresholds
  | Some recs =>
    let recent := filter (fun r => (cutoff_day <=? rec_day r)%Z) recs in
    if (List.length recent <? 7)%nat then Ok default_thresholds
    else
      let min_prices :=
        flat_map (fun r => match rec_avg_price r with Some p => [p] | None => [] end) recent in
      match min_prices with
      | [] => Ok default_thresholds
      | _ =>
        th <- calculate_optimal_thresholds min_prices ;;
        let '(excellent, good) := th in
        let carbon_values :=
          flat_map (fun r => match rec_avg_carbon r with Some c => [c] | None => [] end) recent in
        cth <-
          (if (7 <=? List.length carbon_values)%nat then
             qs <- quantiles carbon_values 4 ;;
             m <- median carbon_values ;;
             Ok (py_round_nd (nth 0 qs 0) 0, py_round_nd m 0)
           else Ok (100, 150)) ;;
        let '(carbon_excellent, carbon_good) := cth in
        mn <- py_min min_prices ;;
        mx <- py_max min_prices ;;
        mean <- statistics_mean min_prices ;;
        Ok {| th_price_excellent := excellent; th_price_good := good;
              th_carbon_excellent := carbon_excellent; th_carbon_good := carbon_good;
              th_days_analyzed := List.length recent;
              th_price_min := mn; th_price_max := mx; th_price_mean := mean;
              th_using_defaults := false |}
      end
  end.

End TunerRecommendations.

(** ** Concrete inputs used by the examples below *)
Module Fixtures.
Import Analyzer.

(** [Analyzer()] with its default thresholds and weights. *)
Definition analyzer_default : Analyzer :=
  {| price_weight := 6 # 10; carbon_weight := 4 # 10;
     price_excellent := 10; price_good := 15; price_average := 20;
     carbon_excellent := 100; carbon_good := 150; carbon_average := 200 |}.

(** [Analyzer(price_weight=0.6, carbon_weight=0.405)]: inside the 0.01 tolerance. *)
Definition analyzer_loose : Analyzer :=
  {| price_weight := 6 # 10; carbon_weight := 405 # 1000;
     price_excellent := 10; price_good := 15; price_average := 20;
     carbon_excellent := 100; carbon_good := 150; carbon_average := 200 |}.

(** [n] half-hourly slots starting at minute 0. *)
Definition half_hour_prices (n : nat) (f : nat -> Q) : list PriceSlot :=
  map (fun i => {| ps_time := (30 * Z.of_nat i)%Z; ps_price := f i; ps_source := "octopus" |})
    (seq 0 n).

Definition half_hour_carbon (n : nat) (f : nat -> Z) : list CarbonSlot :=
  map (fun i => {| cs_time := (30 * Z.of_nat i)%Z; cs_intensity := f i |}) (seq 0 n).

Definition in_stretch (i : nat) : bool := (4 <=? i)%nat && (i <? 12)%nat.

(** 48 slots; [4,12) at 5p / 50g, every other slot at 6p / 60g. *)
Definition stretch_prices : list PriceSlot :=
  half_hour_prices 48 (fun i => if in_stretch i then 5 else 6).
Definition stretch_carbon : list CarbonSlot :=
  half_hour_carbon 48 (fun i => if in_stretch i then 50%Z else 60%Z).

(** 48 slots; [0,12) at 8p / 90g, [12,48) at 18p / 180g. *)
Definition cheap_morning_prices : list PriceSlot :=
  half_hour_prices 48 (fun i => if (i <? 12)%nat then 8 else 18).
Definition cheap_morning_carbon : list CarbonSlot :=
  half_hour_carbon 48 (fun i => if (i <? 12)%nat then 90%Z else 180%Z).

(** Two slots at minutes 0 and 60 (a one-hour gap). *)
Definition gapped_prices : list PriceSlot :=
  [ {| ps_time := 0; ps_price := 8; ps_source := "octopus" |};
    {| ps_time := 60; ps_price := 8; ps_source := "octopus" |} ].
Definition gapped_carbon : list CarbonSlot :=
  [ {| cs_time := 0; cs_intensity := 90 |}; {| cs_time := 60; cs_intensity := 90 |} ].

(** Three slots at -2p (the grid pays). *)
Definition negative_prices : list PriceSlot := half_hour_prices 3 (fun _ => -2).
Definition flat_carbon : list CarbonSlot := half_hour_carbon 3 (fun _ => 120%Z).

(** Two day comparisons of the evolution tracker. *)
Definition dc_forecast : ForecastEvolution.DayComparison :=
  {| ForecastEvolution.dc_price_source := "forecast"; ForecastEvolution.dc_avg_price := 12;
     ForecastEvolution.dc_cost := 4; ForecastEvolution.dc_savings_vs_today := 1;
     ForecastEvolution.dc_rating := "GOOD" |}.
Definition dc_actual : ForecastEvolution.DayComparison :=
  {| ForecastEvolution.dc_price_source := "octopus_actual"; ForecastEvolution.dc_avg_price := 9;
     ForecastEvolution.dc_cost := 3; ForecastEvolution.dc_savings_vs_today := 2;
     ForecastEvolution.dc_rating := "EXCELLENT" |}.

(** Snapshots for the target "2025-01-10" (day 110): two on day 104, one on
    day 102, one on day 107, one for a past target (ignored) and one for another
    target. *)
Definition evolution_calls : list ForecastEvolution.SnapshotCall :=
  map (fun '(t, k, g, dc, m) =>
         {| ForecastEvolution.call_today := t; ForecastEvolution.call_key := k;
            ForecastEvolution.call_target := g; ForecastEvolution.call_dc := dc;
            ForecastEvolution.call_mae := m |})
    [ (104%Z, "2025-01-10", 110%Z, dc_forecast, None);
      (104%Z, "2025-01-10", 110%Z, dc_actual, Some 3);
      (102%Z, "2025-01-10", 110%Z, dc_forecast, Some 1);
      (111%Z, "2025-01-10", 110%Z, dc_actual, None);
      (104%Z, "2025-01-12", 112%Z, dc_forecast, None);
      (107%Z, "2025-01-10", 110%Z, dc_actual, Some 6) ].

End Fixtures.

(** * Proofs *)

Lemma Qlt_bool_true (x y : Q) : Qlt_bool x y = true <-> x < y.
Proof.
  unfold Qlt_bool. rewrite negb_true_iff. split; intro H.
  - apply Qnot_le_lt. intro H'. apply Qle_bool_iff in H'. congruence.
  - destruct (Qle_bool y x) eqn:E; [|reflexivity].
    apply Qle_bool_iff in E. exfalso. apply (Qlt_not_le x y); assumption.
Qed.

Lemma Qlt_bool_false (x y : Q) : Qlt_bool x y = false <-> y <= x.
Proof.
  unfold Qlt_bool. rewrite negb_false_iff. apply Qle_bool_iff.
Qed.

Lemma in_py_range (i n : Z) : In i (py_range n) <-> (0 <= i < n)%Z.
Proof.
  unfold py_range. rewrite in_map_iff. split.
  - intros [j [<- Hj]]. apply in_seq in Hj. lia.
  - intros H. exists (Z.to_nat i). split; [lia|]. apply in_seq. lia.
Qed.

Lemma py_range_succ (m : nat) :
  py_range (Z.of_nat (S m)) = py_range (Z.of_nat m) ++ [Z.of_nat m].
Proof.
  unfold py_range. rewrite !Nat2Z.id, seq_S, map_app. reflexivity.
Qed.

Lemma py_slice_window {A} (l : list A) (i k : Z) :
  (0 <= i)%Z -> (0 <= k)%Z -> (i + k <= Z.of_nat (List.length l))%Z ->
  py_slice l i (i + k) = firstn (Z.to_nat k) (skipn (Z.to_nat i) l).
Proof.
  intros Hi Hk Hn. unfold py_slice.
  destruct (i <? 0)%Z eqn:E1; [lia|].
  destruct (i + k <? 0)%Z eqn:E2; [lia|].
  rewrite (Z.min_l i) by lia. rewrite (Z.min_l (i + k)) by lia.
  f_equal. lia.
Qed.

Lemma py_slice_window_length {A} (l : list A) (i k : Z) :
  (0 <= i)%Z -> (0 <= k)%Z -> (i + k <= Z.of_nat (List.length l))%Z ->
  List.length (py_slice l i (i + k)) = Z.to_nat k.
Proof.
  intros Hi Hk Hn. rewrite py_slice_window by assumption.
  rewrite length_firstn, length_skipn. lia.
Qed.

Lemma py_int_one_le (x : Q) : (1 <= py_int x)%Z -> 1 <= x.
Proof.
  destruct x as [n d]. unfold py_int, Qle. simpl. intros H.
  destruct (Z.le_gt_cases 0 n) as [Hn|Hn].
  - rewrite Z.quot_div_nonneg in H by lia.
    destruct (Z.lt_ge_cases n (Zpos d)) as [Hlt|Hge].
    + rewrite Z.div_small in H by lia. lia.
    + lia.
  - replace n with (- (- n))%Z in H by lia.
    rewrite Z.quot_opp_l in H by lia.
    rewrite Z.quot_div_nonneg in H by lia.
    pose proof (Z.div_pos (- n) (Zpos d)). lia.
Qed.

Lemma py_int_zero (x : Q) : 0 <= x -> x < 1 -> py_int x = 0%Z.
Proof.
  destruct x as [n d]. unfold py_int, Qle, Qlt. simpl. intros H0 H1.
  rewrite Z.quot_div_nonneg by lia. apply Z.div_small. lia.
Qed.

Lemma len_Q_cons {A} (x : A) (l : list A) : Qeq_bool (len_Q (x :: l)) 0 = false.
Proof.
  destruct (Qeq_bool _ _) eqn:E; [|reflexivity].
  apply Qeq_bool_iff in E. unfold len_Q, Qeq in E. simpl in E. lia.
Qed.

Lemma py_div_len_cons {A} (q : Q) (x : A) (l : list A) :
  py_div q (len_Q (x :: l)) = Ok (q / len_Q (x :: l)).
Proof. unfold py_div. rewrite len_Q_cons. reflexivity. Qed.

Module WindowProofs.
Import Analyzer Fixtures.

Section Props.
Variable a : Analyzer.

Lemma price_score_range (p : Q) : 25 <= calculate_price_score a p <= 100.
Proof.
  unfold calculate_price_score.
  destruct (Qle_bool _ _); [|destruct (Qle_bool _ _); [|destruct (Qle_bool _ _)]];
    split; unfold Qle; simpl; lia.
Qed.

Lemma carbon_score_range (c : Q) : 25 <= calculate_carbon_score a c <= 100.
Proof.
  unfold calculate_carbon_score.
  destruct (Qle_bool _ _); [|destruct (Qle_bool _ _); [|destruct (Qle_bool _ _)]];
    split; unfold Qle; simpl; lia.
Qed.

Lemma constructed_weights :
  constructed a -> Qabs (price_weight a + carbon_weight a - 1) <= 1 # 100.
Proof.
  unfold constructed, make_analyzer. destruct (Qlt_bool _ _) eqn:E.
  - discriminate.
  - intros _. apply Qlt_bool_false in E. exact E.
Qed.

Lemma score_between (p c : Q) :
  0 <= price_weight a -> 0 <= carbon_weight a ->
  25 * (price_weight a + carbon_weight a) <= calculate_opportunity_score a p c
  <= 100 * (price_weight a + carbon_weight a).
Proof.
  intros Hp Hc. unfold calculate_opportunity_score.
  destruct (price_score_range p) as [P1 P2].
  destruct (carbon_score_range c) as [C1 C2].
  pose proof (Qmult_le_compat_r _ _ _ P1 Hp).
  pose proof (Qmult_le_compat_r _ _ _ P2 Hp).
  pose proof (Qmult_le_compat_r _ _ _ C1 Hc).
  pose proof (Qmult_le_compat_r _ _ _ C2 Hc).
  split; lra.
Qed.

Lemma constructed_sum_bounds :
  constructed a -> 99 # 100 <= price_weight a + carbon_weight a <= 101 # 100.
Proof.
  intros H. apply constructed_weights in H.
  pose proof (Qle_Qabs (price_weight a + carbon_weight a - 1)).
  pose proof (Qle_Qabs (- (price_weight a + carbon_weight a - 1))).
  rewrite Qabs_opp in H1. split; lra.
Qed.

Lemma search_fold_err (al : list AlignedSlot) (k : Z) (l : list Z) (e : exn) :
  fold_left (search_step a al k) l (Err e) = Err e.
Proof. induction l as [|x l IH]; simpl; auto. Qed.

Lemma window_means_cons (x : AlignedSlot) (l : list AlignedSlot) :
  window_means (x :: l) =
  Ok (sum_Q (prices_of (x :: l)) / len_Q (x :: l),
      sum_Q (carbons_of (x :: l)) / len_Q (x :: l)).
Proof. unfold window_means. rewrite !py_div_len_cons. reflexivity. Qed.

Lemma search_step_ok (al : list AlignedSlot) (k : Z) (bs : Q) bw (i : Z) :
  search_step a al k (Ok (bs, bw)) i =
  match window_means (py_slice al i (i + k)) with
  | Ok (ap, ac) =>
      if Qlt_bool bs (calculate_opportunity_score a ap ac)
      then Ok (calculate_opportunity_score a ap ac, Some (py_slice al i (i + k)))
      else Ok (bs, bw)
  | Err e => Err e
  end.
Proof.
  unfold search_step. simpl. destruct (window_means _) as [[ap ac]|e]; reflexivity.
Qed.

Lemma search_step_nonempty (al : list AlignedSlot) (k : Z) (bs : Q) bw (i : Z) :
  py_slice al i (i + k) <> [] ->
  search_step a al k (Ok (bs, bw)) i =
  if Qlt_bool bs (window_score a al k i)
  then Ok (window_score a al k i, Some (py_slice al i (i + k)))
  else Ok (bs, bw).
Proof.
  intros Hne. rewrite search_step_ok. unfold window_score.
  destruct (py_slice al i (i + k)) as [|x r]; [contradiction|].
  rewrite window_means_cons. reflexivity.
Qed.

(** A successful loop never met an empty window. *)
Lemma search_fold_nonempty (al : list AlignedSlot) (k : Z) (l : list Z) :
  forall st st', fold_left (search_step a al k) l st = Ok st' ->
  forall i, In i l -> py_slice al i (i + k) <> [].
Proof.
  induction l as [|x l IH]; intros st st' H i Hi; [destruct Hi|].
  cbn [fold_left] in H. destruct Hi as [<-|Hi]; [|eapply IH; eauto].
  intro E. destruct st as [[bs bw]|e].
  - rewrite search_step_ok, E in H. simpl in H.
    rewrite search_fold_err in H. discriminate.
  - simpl in H. rewrite search_fold_err in H. discriminate.
Qed.

(** The window held by the loop is the initial one or one of the visited windows. *)
Lemma search_fold_window (al : list AlignedSlot) (k : Z) (l : list Z) :
  forall bs bw st', fold_left (search_step a al k) l (Ok (bs, bw)) = Ok st' ->
  snd st' = bw \/ exists i, In i l /\ snd st' = Some (py_slice al i (i + k)).
Proof.
  induction l as [|x l IH]; intros bs bw st' H.
  - simpl in H. injection H as <-. left. reflexivity.
  - cbn [fold_left] in H. rewrite search_step_ok in H.
    destruct (window_means _) as [[ap ac]|e].
    + destruct (Qlt_bool _ _).
      * destruct (IH _ _ _ H) as [E|[i [Hi E]]].
        -- right. exists x. split; [left; reflexivity|exact E].
        -- right. exists i. split; [right; exact Hi|exact E].
      * destruct (IH _ _ _ H) as [E|[i [Hi E]]]; [left; exact E|].
        right. exists i. split; [right; exact Hi|exact E].
    + rewrite search_fold_err in H. discriminate.
Qed.

(** [search] only succeeds when [slots_needed >= 1]: for [slots_needed <= 0]
    the index [-slots_needed] is in range and its slice is empty. *)
Lemma search_ok_slots_pos (al : list AlignedSlot) (k : Z) st :
  search a al k = Ok st -> (1 <= k)%Z.
Proof.
  intros H. destruct (Z.le_gt_cases 1 k) as [Hk|Hk]; [exact Hk|exfalso].
  unfold search in H.
  apply (search_fold_nonempty al k _ _ _ H (- k)%Z).
  - apply in_py_range. lia.
  - replace (- k + k)%Z with 0%Z by lia. unfold py_slice.
    destruct (- k <? 0)%Z eqn:E1; [lia|]. simpl.
    replace (Z.to_nat (Z.min 0 (Z.of_nat (List.length al))
                        - Z.min (- k) (Z.of_nat (List.length al)))) with 0%nat by lia.
    reflexivity.
Qed.

Lemma py_slice_nonempty {A} (l : list A) (i k : Z) :
  (0 <= i)%Z -> (1 <= k)%Z -> (i + k <= Z.of_nat (List.length l))%Z ->
  py_slice l i (i + k) <> [].
Proof.
  intros Hi Hk Hn E. pose proof (py_slice_window_length l i k Hi ltac:(lia) Hn) as L.
  rewrite E in L. simpl in L. lia.
Qed.

Lemma align_data_nil_r (ps : list PriceSlot) : align_data ps [] = [].
Proof.
  unfold align_data. induction ps as [|p ps IH]; [reflexivity|]. exact IH.
Qed.

Lemma calculate_baseline_cost_ok al bt k kwh :
  exists q, calculate_baseline_cost al bt k kwh = Ok q.
Proof.
  unfold calculate_baseline_cost.
  destruct (match first_index_at_or_after bt al 0 with
            | Some i => py_slice al i (i + k) | None => [] end) as [|x r].
  - eexists. reflexivity.
  - destruct (_ <? _)%Z; [eexists; reflexivity|].
    rewrite py_div_len_cons. eexists. reflexivity.
Qed.

Lemma find_optimal_window_ok_inv ps cs d bt w :
  find_optimal_window a ps cs d bt = Ok w ->
  exists st b0 rest,
    search a (align_data ps cs) (py_int (d * 2)) = Ok st /\
    snd st = Some (b0 :: rest) /\
    start w = al_time b0 /\
    end_ w = (al_time (last (b0 :: rest) b0) + 30)%Z /\
    avg_price w = sum_Q (prices_of (b0 :: rest)) / len_Q (b0 :: rest) /\
    total_cost w = avg_price w * (d * (74 # 10)) / 100 /\
    opportunity_score w = fst st.
Proof.
  intros H. unfold find_optimal_window in H.
  destruct ps as [|p ps]; [discriminate|]. destruct cs as [|c cs]; [discriminate|].
  destruct (align_data (p :: ps) (c :: cs)) as [|x al] eqn:Eal; [discriminate|].
  rewrite <- Eal in H.
  destruct (search a (align_data (p :: ps) (c :: cs)) (py_int (d * 2))) as [[bs bw]|e] eqn:Es;
    [|discriminate].
  cbn [bind snd fst] in H. destruct bw as [[|b0 rest]|]; try discriminate.
  rewrite !py_div_len_cons in H. cbn [bind] in H.
  destruct bt as [bt|].
  - destruct (calculate_baseline_cost_ok (align_data (p :: ps) (c :: cs)) bt
                (py_int (d * 2)) (d * (74 # 10))) as [q Eq].
    rewrite Eq in H. cbn [bind] in H. injection H as <-.
    rewrite <- Eal. exists (bs, Some (b0 :: rest)), b0, rest.
    repeat split; first [exact Es | reflexivity].
  - cbn [bind] in H. injection H as <-.
    rewrite <- Eal. exists (bs, Some (b0 :: rest)), b0, rest.
    repeat split; first [exact Es | reflexivity].
Qed.

Lemma find_optimal_window_of_search ps cs d bt bs b0 rest :
  align_data ps cs <> [] ->
  search a (align_data ps cs) (py_int (d * 2)) = Ok (bs, Some (b0 :: rest)) ->
  exists w, find_optimal_window a ps cs d bt = Ok w /\
    start w = al_time b0 /\
    end_ w = (al_time (last (b0 :: rest) b0) + 30)%Z /\
    avg_price w = sum_Q (prices_of (b0 :: rest)) / len_Q (b0 :: rest) /\
    opportunity_score w = bs.
Proof.
  intros Hne Hs. unfold find_optimal_window.
  destruct ps as [|p ps]; [contradiction|]. destruct cs as [|c cs].
  { rewrite align_data_nil_r in Hne. contradiction. }
  destruct (align_data (p :: ps) (c :: cs)) as [|x al] eqn:Eal; [contradiction|].
  rewrite Hs. cbn [bind snd fst].
  rewrite !py_div_len_cons. cbn [bind].
  destruct bt as [bt|].
  - destruct (calculate_baseline_cost_ok (x :: al) bt
                (py_int (d * 2)) (d * (74 # 10))) as [q Eq].
    rewrite Eq. cbn [bind]. eexists. repeat split; reflexivity.
  - cbn [bind]. eexists. repeat split; reflexivity.
Qed.

Section Argmax.
Variables (al : list AlignedSlot) (k : Z).
Hypothesis Hk1 : (1 <= k)%Z.
Hypothesis Hkn : (k <= Z.of_nat (List.length al))%Z.
Hypothesis Hscore : forall i, (0 <= i <= Z.of_nat (List.length al) - k)%Z ->
  -1 < window_score a al k i.

(** Loop invariant: after [range(m)], the state holds the earliest window of
    maximal score among the first [m] candidates. *)
Lemma search_prefix (m : nat) :
  (1 <= m)%nat -> (Z.of_nat m <= Z.of_nat (List.length al) - k + 1)%Z ->
  exists i, (0 <= i < Z.of_nat m)%Z /\
    fold_left (search_step a al k) (py_range (Z.of_nat m)) (Ok (-1, None)) =
      Ok (window_score a al k i, Some (py_slice al i (i + k))) /\
    (forall j, (0 <= j < Z.of_nat m)%Z -> window_score a al k j <= window_score a al k i) /\
    (forall j, (0 <= j < i)%Z -> window_score a al k j < window_score a al k i).
Proof.
  induction m as [|m IH]; intros H1 H2; [lia|].
  destruct (Nat.eq_dec m 0) as [->|Hm].
  - exists 0%Z. change (py_range (Z.of_nat 1)) with [0%Z]. cbn [fold_left].
    rewrite search_step_nonempty by (apply py_slice_nonempty; lia).
    replace (Qlt_bool (-1) (window_score a al k 0)) with true
      by (symmetry; apply Qlt_bool_true; apply Hscore; lia).
    split; [lia|]. split; [reflexivity|]. split.
    + intros j Hj. replace j with 0%Z by lia. apply Qle_refl.
    + intros j Hj. lia.
  - destruct IH as [i [Hi [Hf [Hmax Hfirst]]]]; [lia|lia|].
    rewrite py_range_succ, fold_left_app, Hf. cbn [fold_left].
    rewrite search_step_nonempty by (apply py_slice_nonempty; lia).
    destruct (Qlt_bool (window_score a al k i) (window_score a al k (Z.of_nat m))) eqn:E.
    + apply Qlt_bool_true in E. exists (Z.of_nat m).
      split; [lia|]. split; [reflexivity|]. split.
      * intros j Hj. destruct (Z.eq_dec j (Z.of_nat m)) as [->|Hne]; [apply Qle_refl|].
        apply Qle_trans with (window_score a al k i); [apply Hmax; lia|].
        apply Qlt_le_weak. exact E.
      * intros j Hj. apply Qle_lt_trans with (window_score a al k i); [apply Hmax; lia|exact E].
    + apply Qlt_bool_false in E. exists i.
      split; [lia|]. split; [reflexivity|]. split.
      * intros j Hj. destruct (Z.eq_dec j (Z.of_nat m)) as [->|Hne]; [exact E|].
        apply Hmax. lia.
      * exact Hfirst.
Qed.

Lemma search_best :
  exists i, (0 <= i <= Z.of_nat (List.length al) - k)%Z /\
    search a al k = Ok (window_score a al k i, Some (py_slice al i (i + k))) /\
    (forall j, (0 <= j <= Z.of_nat (List.length al) - k)%Z ->
       window_score a al k j <= window_score a al k i) /\
    (forall j, (0 <= j < i)%Z -> window_score a al k j < window_score a al k i).
Proof.
  destruct (search_prefix (Z.to_nat (Z.of_nat (List.length al) - k + 1)))
    as [i [Hi [Hf [Hmax Hfirst]]]]; [lia|lia|].
  rewrite Z2Nat.id in Hi, Hf, Hmax by lia.
  exists i. split; [lia|]. split; [exact Hf|]. split.
  - intros j Hj. apply Hmax. lia.
  - exact Hfirst.
Qed.

End Argmax.

End Props.

Lemma nth_error_last {A} (l : list A) (x d : A) :
  nth_error (x :: l) (List.length l) = Some (last (x :: l) d).
Proof.
  revert x. induction l as [|y l IH]; intros x; [reflexivity|].
  change (nth_error (y :: l) (List.length l) = Some (last (y :: l) d)).
  apply IH.
Qed.

(** ** C1 *)

(** C1 (amended). For an analyzer built with non-negative weights that pass the
    sum check, and [1 <= int(2d) <= len(aligned_data)], [find_optimal_window]
    returns the window of [int(2d)] consecutive aligned slots whose score is
    maximal; every earlier window scores strictly less (first occurrence wins). *)
Theorem find_optimal_window_best_window (a : Analyzer) ps cs d bt :
  constructed a -> 0 <= price_weight a -> 0 <= carbon_weight a ->
  (1 <= py_int (d * 2))%Z ->
  (py_int (d * 2) <= Z.of_nat (List.length (align_data ps cs)))%Z ->
  exists i w b0 rest,
    (0 <= i <= Z.of_nat (List.length (align_data ps cs)) - py_int (d * 2))%Z /\
    py_slice (align_data ps cs) i (i + py_int (d * 2)) = b0 :: rest /\
    find_optimal_window a ps cs d bt = Ok w /\
    start w = al_time b0 /\
    end_ w = (al_time (last (b0 :: rest) b0) + 30)%Z /\
    opportunity_score w = window_score a (align_data ps cs) (py_int (d * 2)) i /\
    (forall j, (0 <= j <= Z.of_nat (List.length (align_data ps cs)) - py_int (d * 2))%Z ->
       window_score a (align_data ps cs) (py_int (d * 2)) j
       <= window_score a (align_data ps cs) (py_int (d * 2)) i) /\
    (forall j, (0 <= j < i)%Z ->
       window_score a (align_data ps cs) (py_int (d * 2)) j
       < window_score a (align_data ps cs) (py_int (d * 2)) i).
Proof.
  intros Hc Hp Hw Hk1 Hkn.
  set (al := align_data ps cs) in *. set (k := py_int (d * 2)) in *.
  assert (Hs : forall i, (0 <= i <= Z.of_nat (List.length al) - k)%Z -> -1 < window_score a al k i).
  { intros i _. unfold window_score.
    destruct (score_between a (sum_Q (prices_of (py_slice al i (i + k)))
                                / len_Q (py_slice al i (i + k)))
                (sum_Q (carbons_of (py_slice al i (i + k))) / len_Q (py_slice al i (i + k)))
                Hp Hw) as [L _].
    destruct (constructed_sum_bounds a Hc) as [S _]. lra. }
  destruct (search_best a al k Hk1 Hkn Hs) as [i [Hi [Hsr [Hmax Hfirst]]]].
  destruct (py_slice al i (i + k)) as [|b0 rest] eqn:Esl.
  { exfalso. apply (py_slice_nonempty al i k); [lia|lia|lia|exact Esl]. }
  assert (Hne : al <> []) by (intro E; rewrite E in Hkn; simpl in Hkn; lia).
  destruct (find_optimal_window_of_search a ps cs d bt _ b0 rest Hne Hsr)
    as [w [Hw1 [Hw2 [Hw3 [_ Hw5]]]]].
  exists i, w, b0, rest.
  split; [exact Hi|]. split; [exact Esl|]. split; [exact Hw1|].
  split; [exact Hw2|]. split; [exact Hw3|]. split; [exact Hw5|].
  split; [exact Hmax|exact Hfirst].
Qed.

(** Witness of C1 on the spec's scenario: 48 slots, [0,12) cheap and clean,
    a 4-hour request. *)
Lemma find_optimal_window_best_window_witness :
  constructed analyzer_default /\
  exists i w b0 rest,
    (0 <= i <= Z.of_nat (List.length (align_data cheap_morning_prices cheap_morning_carbon))
               - py_int (4 * 2))%Z /\
    py_slice (align_data cheap_morning_prices cheap_morning_carbon) i (i + py_int (4 * 2))
      = b0 :: rest /\
    find_optimal_window analyzer_default cheap_morning_prices cheap_morning_carbon 4 None = Ok w /\
    start w = al_time b0 /\
    end_ w = (al_time (last (b0 :: rest) b0) + 30)%Z /\
    opportunity_score w
      = window_score analyzer_default (align_data cheap_morning_prices cheap_morning_carbon)
          (py_int (4 * 2)) i /\
    (forall j, (0 <= j <= Z.of_nat (List.length (align_data cheap_morning_prices cheap_morning_carbon))
                          - py_int (4 * 2))%Z ->
       window_score analyzer_default (align_data cheap_morning_prices cheap_morning_carbon)
         (py_int (4 * 2)) j
       <= window_score analyzer_default (align_data cheap_morning_prices cheap_morning_carbon)
            (py_int (4 * 2)) i) /\
    (forall j, (0 <= j < i)%Z ->
       window_score analyzer_default (align_data cheap_morning_prices cheap_morning_carbon)
         (py_int (4 * 2)) j
       < window_score analyzer_default (align_data cheap_morning_prices cheap_morning_carbon)
           (py_int (4 * 2)) i).
Proof.
  split; [reflexivity|].
  apply find_optimal_window_best_window.
  - reflexivity.
  - apply Qle_bool_iff. reflexivity.
  - apply Qle_bool_iff. reflexivity.
  - apply Z.leb_le. vm_compute. reflexivity.
  - apply Z.leb_le. vm_compute. reflexivity.
Defined.

(** C1 (counterexample). The stretch [4,12) is uniformly cheaper and cleaner
    than every other slot, yet the window returned starts at index 0 (minute 0),
    not at index 4 (minute 120): every window falls in the top score band and
    the earliest one wins. *)
Lemma find_optimal_window_stretch_not_selected :
  exists w,
    find_optimal_window analyzer_default stretch_prices stretch_carbon 4 None = Ok w /\
    start w = 0%Z /\ start w <> 120%Z.
Proof.
  eexists. split; [vm_compute; reflexivity|]. split; [reflexivity|]. discriminate.
Qed.

(** ** C2 *)

(** C2 (counterexample). [slots_needed] is [int(d * 2)], not [round(d * 2)], and
    [end - start] follows the slot timestamps: for [d = 0.75] on half-hourly slots
    the window spans 30 minutes where [round(1.5) = 2] slots would span 60; for
    [d = 1] on slots one hour apart it spans 90 minutes, not 60. *)
Lemma find_optimal_window_span_not_rounded :
  (exists w,
     find_optimal_window analyzer_default (half_hour_prices 2 (fun _ => 8))
       (half_hour_carbon 2 (fun _ => 90%Z)) (3 # 4) None = Ok w /\
     (end_ w - start w)%Z = 30%Z /\
     (end_ w - start w <> 30 * py_round ((3 # 4) * 2))%Z) /\
  (exists w,
     find_optimal_window analyzer_default gapped_prices gapped_carbon 1 None = Ok w /\
     (end_ w - start w)%Z = 90%Z /\
     (end_ w - start w <> 30 * py_round (1 * 2))%Z).
Proof.
  split; eexists; (split; [vm_compute; reflexivity|]); split; try reflexivity;
    vm_compute; discriminate.
Qed.

(** C2 (amended). Every successful call uses [slots_needed = int(d * 2) >= 1];
    the window is the slice [aligned_data[i : i + slots_needed]] for some [i],
    so it holds exactly [slots_needed] consecutive aligned slots; [start] is the
    time of its first slot and [end - start] is the time of its last slot minus
    the time of its first slot plus 30 minutes, which is [30 * int(d * 2)]
    minutes when the aligned slots are consecutive half-hours. *)
Theorem find_optimal_window_span (a : Analyzer) ps cs d bt w :
  find_optimal_window a ps cs d bt = Ok w ->
  (1 <= py_int (d * 2))%Z /\
  exists i b0 rest,
    (0 <= i /\ i + py_int (d * 2) <= Z.of_nat (List.length (align_data ps cs)))%Z /\
    py_slice (align_data ps cs) i (i + py_int (d * 2)) = b0 :: rest /\
    List.length (b0 :: rest) = Z.to_nat (py_int (d * 2)) /\
    start w = al_time b0 /\
    (end_ w - start w = al_time (last (b0 :: rest) b0) - al_time b0 + 30)%Z /\
    (forall t0 : Z,
       (forall j s, nth_error (align_data ps cs) j = Some s ->
          al_time s = (t0 + 30 * Z.of_nat j)%Z) ->
       (end_ w - start w = 30 * py_int (d * 2))%Z).
Proof.
  intros H.
  destruct (find_optimal_window_ok_inv a ps cs d bt w H)
    as [st [b0 [rest [Hs [Hsnd [Hstart [Hend _]]]]]]].
  pose proof (search_ok_slots_pos a _ _ _ Hs) as Hk.
  split; [exact Hk|].
  set (al := align_data ps cs) in *. set (k := py_int (d * 2)) in *.
  unfold search in Hs.
  destruct (search_fold_window a al k _ _ _ _ Hs) as [E|[i [Hi E]]];
    [rewrite Hsnd in E; discriminate|].
  rewrite Hsnd in E. injection E as E.
  apply in_py_range in Hi.
  pose proof (eq_sym E) as Esl.
  rewrite py_slice_window in E by lia.
  assert (Hlen : List.length (b0 :: rest) = Z.to_nat k).
  { rewrite E, length_firstn, length_skipn. lia. }
  exists i, b0, rest.
  split; [lia|]. split; [exact Esl|]. split; [exact Hlen|]. split; [exact Hstart|].
  split; [rewrite Hend, Hstart; lia|].
  intros t0 Ht.
  assert (H0 : nth_error al (Z.to_nat i) = Some b0).
  { replace (Z.to_nat i) with (Z.to_nat i + 0)%nat by lia.
    rewrite <- nth_error_skipn.
    replace (nth_error (skipn (Z.to_nat i) al) 0)
      with (nth_error (firstn (Z.to_nat k) (skipn (Z.to_nat i) al)) 0).
    - rewrite <- E. reflexivity.
    - rewrite nth_error_firstn. replace (Nat.ltb 0 (Z.to_nat k)) with true
        by (symmetry; apply Nat.ltb_lt; lia). reflexivity. }
  assert (H1 : nth_error al (Z.to_nat i + List.length rest) = Some (last (b0 :: rest) b0)).
  { rewrite <- nth_error_skipn.
    replace (nth_error (skipn (Z.to_nat i) al) (List.length rest))
      with (nth_error (firstn (Z.to_nat k) (skipn (Z.to_nat i) al)) (List.length rest)).
    - rewrite <- E. apply nth_error_last.
    - rewrite nth_error_firstn. simpl in Hlen.
      replace (Nat.ltb (List.length rest) (Z.to_nat k)) with true
        by (symmetry; apply Nat.ltb_lt; lia). reflexivity. }
  apply Ht in H0. apply Ht in H1. simpl in Hlen.
  rewrite Hend, Hstart, H0, H1. lia.
Qed.

(** Witness of C2 (amended) on the spec's 48-slot scenario with a 4-hour request. *)
Lemma find_optimal_window_span_witness :
  exists w,
    find_optimal_window analyzer_default cheap_morning_prices cheap_morning_carbon 4 None = Ok w /\
    (1 <= py_int (4 * 2))%Z /\
    exists i b0 rest,
      (0 <= i /\ i + py_int (4 * 2)
                 <= Z.of_nat (List.length (align_data cheap_morning_prices cheap_morning_carbon)))%Z /\
      py_slice (align_data cheap_morning_prices cheap_morning_carbon) i (i + py_int (4 * 2))
        = b0 :: rest /\
      List.length (b0 :: rest) = Z.to_nat (py_int (4 * 2)) /\
      start w = al_time b0 /\
      (end_ w - start w = al_time (last (b0 :: rest) b0) - al_time b0 + 30)%Z /\
      (forall t0 : Z,
         (forall j s, nth_error (align_data cheap_morning_prices cheap_morning_carbon) j = Some s ->
            al_time s = (t0 + 30 * Z.of_nat j)%Z) ->
         (end_ w - start w = 30 * py_int (4 * 2))%Z).
Proof.
  eexists. split; [vm_compute; reflexivity|].
  apply (find_optimal_window_span analyzer_default cheap_morning_prices cheap_morning_carbon
           4 None). vm_compute. reflexivity.
Defined.

(** ** C3 *)

(** C3 (code bug). Weights 0.6 and 0.405 pass the sum check of [Analyzer(...)]
    (|1.005 - 1| <= 0.01), yet a price and a carbon intensity in the top bands
    score 100.5: above the 0-100 range promised by the docstring of
    [calculate_opportunity_score] and by the comment on
    [ChargingWindow.opportunity_score]. *)
Lemma opportunity_score_above_100 :
  constructed analyzer_loose /\
  calculate_opportunity_score analyzer_loose 0 0 == 201 # 2 /\
  100 < calculate_opportunity_score analyzer_loose 0 0.
Proof.
  split; [reflexivity|]. split; [reflexivity|]. apply Qlt_bool_true. reflexivity.
Qed.

(** C3 (code bug, extent). For an analyzer whose construction succeeds with
    non-negative weights, every score lies in [25 * (w_p + w_c), 100 * (w_p + w_c)],
    hence in [24.75, 101]; only weights summing to exactly 1 keep it within the
    documented [25, 100]. *)
Theorem opportunity_score_bounds (a : Analyzer) (p c : Q) :
  constructed a -> 0 <= price_weight a -> 0 <= carbon_weight a ->
  25 * (price_weight a + carbon_weight a) <= calculate_opportunity_score a p c
    <= 100 * (price_weight a + carbon_weight a) /\
  99 # 4 <= calculate_opportunity_score a p c <= 101 /\
  (price_weight a + carbon_weight a == 1 -> 25 <= calculate_opportunity_score a p c <= 100).
Proof.
  intros Hc Hp Hw.
  destruct (score_between a p c Hp Hw) as [L U].
  destruct (constructed_sum_bounds a Hc) as [S1 S2].
  split; [split; assumption|]. split; [split; lra|].
  intros E. split; lra.
Qed.

(** Witness of C3 (code bug, extent) on the default analyzer. *)
Lemma opportunity_score_bounds_witness :
  constructed analyzer_default /\
  25 * (price_weight analyzer_default + carbon_weight analyzer_default)
    <= calculate_opportunity_score analyzer_default 12 130
    <= 100 * (price_weight analyzer_default + carbon_weight analyzer_default) /\
  99 # 4 <= calculate_opportunity_score analyzer_default 12 130 <= 101 /\
  (price_weight analyzer_default + carbon_weight analyzer_default == 1 ->
   25 <= calculate_opportunity_score analyzer_default 12 130 <= 100).
Proof.
  split; [reflexivity|].
  apply opportunity_score_bounds; [reflexivity|apply Qle_bool_iff; reflexivity|
                                   apply Qle_bool_iff; reflexivity].
Defined.

(** ** C8 *)

Lemma find_optimal_window_duration_pos (a : Analyzer) ps cs d bt w :
  find_optimal_window a ps cs d bt = Ok w -> 1 # 2 <= d.
Proof.
  intros H.
  destruct (find_optimal_window_ok_inv a ps cs d bt w H) as [st [b0 [rest [Hs _]]]].
  apply search_ok_slots_pos, py_int_one_le in Hs. lra.
Qed.

(** C8. For every window returned by [find_optimal_window] and every positive
    [kwh]: a negative average price gives a negative [total_cost] and the
    earnings estimate [|avg_price| * kwh / 100], which is positive; a
    non-negative average price gives no earnings estimate. *)
Theorem find_optimal_window_earnings (a : Analyzer) ps cs d bt w (kwh : Q) :
  find_optimal_window a ps cs d bt = Ok w -> 0 < kwh ->
  (avg_price w < 0 ->
     total_cost w < 0 /\
     exists e, get_earnings_estimate w kwh = Some e /\
               e == Qabs (avg_price w) * kwh / 100 /\ 0 < e) /\
  (0 <= avg_price w -> get_earnings_estimate w kwh = None).
Proof.
  intros H Hkwh. pose proof (find_optimal_window_duration_pos a ps cs d bt w H) as Hd.
  destruct (find_optimal_window_ok_inv a ps cs d bt w H)
    as [st [b0 [rest [_ [_ [_ [_ [_ [Hcost _]]]]]]]]].
  unfold get_earnings_estimate, has_negative_pricing. split.
  - intros Hneg. split.
    + rewrite Hcost. set (x := d * (74 # 10)).
      assert (Hx : 0 < x) by (unfold x; lra).
      assert (Hm : avg_price w * x < 0).
      { setoid_replace 0 with (0 * x) by ring.
        apply Qmult_lt_compat_r; assumption. }
      unfold Qdiv. setoid_replace 0 with (0 * / 100) by ring.
      apply Qmult_lt_compat_r; [reflexivity|exact Hm].
    + replace (Qlt_bool (avg_price w) 0) with true by (symmetry; apply Qlt_bool_true; exact Hneg).
      simpl. eexists. split; [reflexivity|].
      assert (Hm : avg_price w * kwh < 0).
      { setoid_replace 0 with (0 * kwh) by ring.
        apply Qmult_lt_compat_r; assumption. }
      rewrite (Qabs_neg (avg_price w)) by lra.
      rewrite (Qabs_neg (avg_price w * kwh / 100)).
      * split; [unfold Qdiv; ring|].
        unfold Qdiv. setoid_replace (- (avg_price w * kwh * / 100))
          with ((- (avg_price w * kwh)) * / 100) by ring.
        apply Qmult_lt_0_compat; [lra|reflexivity].
      * unfold Qdiv. setoid_replace 0 with (0 * / 100) by ring.
        apply Qmult_le_compat_r; [lra|discriminate].
  - intros Hnn.
    replace (Qlt_bool (avg_price w) 0) with false by (symmetry; apply Qlt_bool_false; exact Hnn).
    reflexivity.
Qed.

(** Witness of C8: three slots at -2p, a one-hour charge, 30 kWh. *)
Lemma find_optimal_window_earnings_witness :
  exists w,
    find_optimal_window analyzer_default negative_prices flat_carbon 1 None = Ok w /\
    0 < 30 /\
    (avg_price w < 0 ->
       total_cost w < 0 /\
       exists e, get_earnings_estimate w 30 = Some e /\
                 e == Qabs (avg_price w) * 30 / 100 /\ 0 < e) /\
    (0 <= avg_price w -> get_earnings_estimate w 30 = None).
Proof.
  eexists. split; [vm_compute; reflexivity|].
  split; [reflexivity|].
  apply (find_optimal_window_earnings analyzer_default negative_prices flat_carbon 1 None);
    [vm_compute; reflexivity|reflexivity].
Defined.

(** ** C10 *)

(** C10. For [0 < d < 0.5] and at least one aligned slot, [slots_needed] is 0, the
    first loop iteration averages the empty slice [aligned_data[0:0]], and the
    call raises [ZeroDivisionError]: no window, and not the [ValueError]
    documented for insufficient data. *)
Theorem find_optimal_window_short_duration (a : Analyzer) ps cs d bt :
  0 < d -> d < 1 # 2 -> align_data ps cs <> [] ->
  find_optimal_window a ps cs d bt = Err ZeroDivisionError.
Proof.
  intros H0 H1 Hne.
  assert (Hk : py_int (d * 2) = 0%Z) by (apply py_int_zero; lra).
  destruct ps as [|p ps]; [contradiction|].
  destruct cs as [|c cs]; [rewrite align_data_nil_r in Hne; contradiction|].
  unfold find_optimal_window.
  destruct (align_data (p :: ps) (c :: cs)) as [|x al] eqn:E; [contradiction|].
  rewrite Hk. unfold search.
  replace (Z.of_nat (List.length (x :: al)) - 0 + 1)%Z
    with (Z.of_nat (S (S (List.length al)))) by (simpl; lia).
  unfold py_range. rewrite Nat2Z.id. cbn [seq map fold_left].
  rewrite search_step_ok.
  replace (py_slice (x :: al) 0 (0 + 0)) with (@nil AlignedSlot) by reflexivity.
  cbn [window_means]. simpl. rewrite search_fold_err. reflexivity.
Qed.

(** Witness of C10: a quarter-hour charge over three aligned slots. *)
Lemma find_optimal_window_short_duration_witness :
  0 < 1 # 4 /\ 1 # 4 < 1 # 2 /\ align_data negative_prices flat_carbon <> [] /\
  find_optimal_window analyzer_default negative_prices flat_carbon (1 # 4) None
    = Err ZeroDivisionError.
Proof.
  split; [reflexivity|]. split; [reflexivity|]. split; [vm_compute; discriminate|].
  apply find_optimal_window_short_duration;
    [reflexivity|reflexivity|vm_compute; discriminate].
Defined.

End WindowProofs.

Module TunerProofs.
Import ThresholdTuner.

Lemma insert_Q_length (x : Q) (l : list Q) : List.length (insert_Q x l) = S (List.length l).
Proof.
  induction l as [|y l IH]; simpl; [reflexivity|].
  destruct (Qle_bool x y); simpl; [reflexivity|]. rewrite IH. reflexivity.
Qed.

Lemma sort_Q_length (l : list Q) : List.length (sort_Q l) = List.length l.
Proof.
  induction l as [|x l IH]; simpl; [reflexivity|]. rewrite insert_Q_length, IH. reflexivity.
Qed.

Lemma median_ok (l : list Q) : l <> [] -> exists m, median l = Ok m.
Proof.
  intros Hne. unfold median. rewrite sort_Q_length.
  destruct (List.length l) eqn:E; [destruct l; [contradiction|discriminate]|].
  destruct (Nat.odd (S n)); eexists; reflexivity.
Qed.

(** C4. Fewer than 7 prices give the defaults (10.0, 15.0). With at least 7
    prices, sorted as [data] with [n] elements, the excellent threshold is the
    25th percentile of [statistics.quantiles] (its default "exclusive" method):
    with [j = (n + 1) // 4] and [delta = n + 1 - 4j] it is
    [(data[j-1] * (4 - delta) + data[j] * delta) / 4], rounded to 1 decimal; the
    good threshold is the median rounded to 1 decimal. On 5, 6, ..., 15 this
    gives (7.0, 10.0): the excellent threshold is within 0.5 of 7.5. *)
Theorem calculate_optimal_thresholds_quartiles (prices : list Q) :
  ((List.length prices < 7)%nat -> calculate_optimal_thresholds prices = Ok (10, 15)) /\
  ((7 <= List.length prices)%nat ->
     exists good, median prices = Ok good /\
     calculate_optimal_thresholds prices =
       Ok (py_round_nd
             ((nth (Z.to_nat ((Z.of_nat (List.length prices) + 1) / 4 - 1)) (sort_Q prices) 0
                 * inject_Z (4 - (Z.of_nat (List.length prices) + 1
                                  - 4 * ((Z.of_nat (List.length prices) + 1) / 4)))
               + nth (Z.to_nat ((Z.of_nat (List.length prices) + 1) / 4)) (sort_Q prices) 0
                 * inject_Z (Z.of_nat (List.length prices) + 1
                             - 4 * ((Z.of_nat (List.length prices) + 1) / 4))) / 4) 1,
           py_round_nd good 1)) /\
  (exists excellent good,
     calculate_optimal_thresholds five_to_fifteen = Ok (excellent, good) /\
     excellent == 7 /\ Qabs (excellent - (15 # 2)) <= (1 # 2) /\ good == 10).
Proof.
  split; [|split].
  - intros H. unfold calculate_optimal_thresholds.
    replace (List.length prices <? 7)%nat with true by (symmetry; apply Nat.ltb_lt; exact H).
    reflexivity.
  - intros H.
    destruct (median_ok prices) as [good Hg]; [intro E; rewrite E in H; simpl in H; lia|].
    exists good. split; [exact Hg|].
    unfold calculate_optimal_thresholds.
    replace (List.length prices <? 7)%nat with false by (symmetry; apply Nat.ltb_ge; exact H).
    unfold quantiles. rewrite sort_Q_length.
    replace (4 <? 1)%Z with false by reflexivity.
    replace (Z.of_nat (List.length prices) <? 2)%Z with false by (symmetry; apply Z.ltb_ge; lia).
    change (Z.to_nat (4 - 1)) with 3%nat. cbn [bind seq map nth].
    set (n := Z.of_nat (List.length prices)).
    assert (Hn : (7 <= n)%Z) by (unfold n; lia).
    pose proof (Z.div_mod (n + 1) 4 ltac:(lia)) as Hdm.
    pose proof (Z.mod_pos_bound (n + 1) 4 ltac:(lia)) as Hmb.
    replace ((Z.of_nat 0 + 1) * (n + 1) / 4)%Z with ((n + 1) / 4)%Z by (f_equal; lia).
    replace ((n + 1) / 4 <? 1)%Z with false by (symmetry; apply Z.ltb_ge; lia).
    replace (n - 1 <? (n + 1) / 4)%Z with false by (symmetry; apply Z.ltb_ge; lia).
    rewrite Hg. cbn [bind].
    replace ((Z.of_nat 0 + 1) * (n + 1) - (n + 1) / 4 * 4)%Z
      with (n + 1 - 4 * ((n + 1) / 4))%Z by lia.
    reflexivity.
  - do 2 eexists. split; [vm_compute; reflexivity|].
    split; [reflexivity|]. split; [vm_compute; discriminate|reflexivity].
Qed.

(** Witness of C4 (amended) on the eleven prices 5..15. *)
Lemma calculate_optimal_thresholds_quartiles_witness :
  (7 <= List.length five_to_fifteen)%nat /\
  exists good, median five_to_fifteen = Ok good /\
     calculate_optimal_thresholds five_to_fifteen =
       Ok (py_round_nd
             ((nth (Z.to_nat ((Z.of_nat (List.length five_to_fifteen) + 1) / 4 - 1))
                   (sort_Q five_to_fifteen) 0
                 * inject_Z (4 - (Z.of_nat (List.length five_to_fifteen) + 1
                                  - 4 * ((Z.of_nat (List.length five_to_fifteen) + 1) / 4)))
               + nth (Z.to_nat ((Z.of_nat (List.length five_to_fifteen) + 1) / 4))
                   (sort_Q five_to_fifteen) 0
                 * inject_Z (Z.of_nat (List.length five_to_fifteen) + 1
                             - 4 * ((Z.of_nat (List.length five_to_fifteen) + 1) / 4))) / 4) 1,
           py_round_nd good 1).
Proof.
  split; [apply Nat.leb_le; reflexivity|].
  apply (proj1 (proj2 (calculate_optimal_thresholds_quartiles five_to_fifteen))).
  apply Nat.leb_le. reflexivity.
Defined.

End TunerProofs.

Module EvolutionProofs.
Import ForecastEvolution.

Lemma py_int_Qfloor (x : Q) : 0 <= x -> py_int x = Qfloor x.
Proof.
  destruct x as [n d]. unfold Qle, py_int, Qfloor. simpl. intros H.
  apply Z.quot_div_nonneg; lia.
Qed.

Lemma Qmult_comm_eq (x y : Q) : x * y = y * x.
Proof.
  destruct x as [n d], y as [m e]. unfold Qmult. simpl.
  rewrite Z.mul_comm, Pos.mul_comm. reflexivity.
Qed.

Lemma time_score_spec (d : Z) : inject_Z (time_score d) = spec_time_score d.
Proof.
  unfold time_score, spec_time_score.
  destruct (d <=? 1)%Z; [reflexivity|].
  destruct (d =? 2)%Z; [reflexivity|].
  destruct (d <=? 4)%Z; [reflexivity|].
  rewrite Z.mul_comm. reflexivity.
Qed.

Lemma source_score_spec (src : string) :
  inject_Z (source_score src) = spec_source_score (String.eqb src "octopus_actual").
Proof. unfold source_score, spec_source_score. destruct (String.eqb _ _); reflexivity. Qed.

Lemma accuracy_score_spec (mae : option Q) : accuracy_score mae = spec_accuracy_score mae.
Proof.
  destruct mae as [m|]; [|reflexivity]. unfold accuracy_score, spec_accuracy_score.
  destruct (Qlt_bool 5 m) eqn:E5; destruct (Qlt_bool m 2) eqn:E2; try reflexivity.
  - apply Qlt_bool_true in E5, E2. lra.
  - rewrite Qmult_comm_eq. reflexivity.
Qed.

Lemma Qmax_ge_l (a b : Q) : a <= Qmax a b.
Proof.
  unfold Qmax. destruct (Qlt_bool a b) eqn:E; [apply Qlt_bool_true in E; lra | lra].
Qed.

Lemma spec_blend_nonneg (d : Z) (s : bool) (mae : option Q) : 0 <= spec_blend d s mae.
Proof.
  unfold spec_blend.
  assert (0 <= spec_time_score d).
  { unfold spec_time_score.
    destruct (d <=? 1)%Z; [lra|]. destruct (d =? 2)%Z; [lra|].
    destruct (d <=? 4)%Z; [lra|].
    change 0 with (inject_Z 0). rewrite <- Zle_Qle. lia. }
  assert (0 <= spec_source_score s) by (unfold spec_source_score; destruct s; lra).
  assert (0 <= spec_accuracy_score mae).
  { unfold spec_accuracy_score. destruct mae as [m|]; [|lra].
    destruct (Qlt_bool m 2); [lra|]. destruct (Qlt_bool 5 m); [lra|].
    pose proof (Qmax_ge_l 40 (100 - 12 * m)). lra. }
  lra.
Qed.

(** C5 (counterexample). One day out, forecast data, no MAE: the blend is
    0.40*100 + 0.35*50 + 0.25*40 = 67.5; [round] gives 68 but the code's
    [int] gives 67. *)
Lemma calculate_confidence_one_day_forecast :
  calculate_confidence 1 "forecast" None = 67%Z /\ spec_confidence 1 false None = 68%Z.
Proof. split; vm_compute; reflexivity. Qed.

(** C5 (amended). For every [days_until_target], [price_source] and optional
    [historical_mae], the confidence score is the floor (Python's [int], the
    blend being non-negative) of
    0.40*time_score + 0.35*source_score + 0.25*accuracy_score, with the three
    component scores exactly as the spec words them (source 100 for
    "octopus_actual", else 50); it is not [round] of the blend. *)
Theorem calculate_confidence_floor (days : Z) (price_source : string) (mae : option Q) :
  calculate_confidence days price_source mae
  = Qfloor (spec_blend days (String.eqb price_source "octopus_actual") mae).
Proof.
  unfold calculate_confidence.
  rewrite time_score_spec, source_score_spec, accuracy_score_spec.
  apply py_int_Qfloor. apply spec_blend_nonneg.
Qed.

End EvolutionProofs.

Module SnapshotProofs.
Import ForecastEvolution Fixtures.

Section SortKey.
Context {A : Type} (key : A -> Z).

Lemma insert_key_perm (x : A) (l : list A) : Permutation (insert_key key x l) (x :: l).
Proof.
  induction l as [|y r IH]; simpl; [reflexivity|].
  destruct (key x <=? key y)%Z; [reflexivity|].
  etransitivity; [apply perm_skip, IH|apply perm_swap].
Qed.

Lemma sort_key_perm (l : list A) : Permutation (sort_key key l) l.
Proof.
  induction l as [|x r IH]; simpl; [reflexivity|].
  etransitivity; [apply insert_key_perm|apply perm_skip, IH].
Qed.

Lemma insert_key_hdrel (a : Z) (x : A) (l : list A) :
  HdRel Z.lt a (map key l) -> (a < key x)%Z -> HdRel Z.lt a (map key (insert_key key x l)).
Proof.
  intros H Hx. destruct l as [|y r]; simpl; [constructor; exact Hx|].
  destruct (key x <=? key y)%Z; simpl; constructor; [exact Hx|].
  inversion H; assumption.
Qed.

Lemma insert_key_sorted_lt (x : A) (l : list A) :
  Sorted Z.lt (map key l) -> ~ In (key x) (map key l) ->
  Sorted Z.lt (map key (insert_key key x l)).
Proof.
  induction l as [|y r IH]; simpl; intros Hs Hn; [repeat constructor|].
  apply Sorted_inv in Hs as [Hs Hh].
  destruct (key x <=? key y)%Z eqn:E; simpl.
  - apply Z.leb_le in E. constructor; [constructor; assumption|].
    constructor. assert (key x <> key y) by (intro; apply Hn; left; congruence). lia.
  - apply Z.leb_gt in E. constructor.
    + apply IH; [exact Hs|]. intro; apply Hn; right; assumption.
    + apply insert_key_hdrel; [exact Hh|lia].
Qed.

Lemma sort_key_sorted_lt (l : list A) :
  NoDup (map key l) -> Sorted Z.lt (map key (sort_key key l)).
Proof.
  induction l as [|x r IH]; simpl; intros Hnd; [constructor|].
  apply NoDup_cons_iff in Hnd as [Hn Hnd].
  apply insert_key_sorted_lt; [apply IH, Hnd|].
  intro Hin. apply Hn.
  apply (Permutation_in _ (Permutation_map key (sort_key_perm r))). exact Hin.
Qed.

Lemma nodup_map_filter (f : A -> bool) (l : list A) :
  NoDup (map key l) -> NoDup (map key (filter f l)).
Proof.
  induction l as [|x r IH]; simpl; intros Hnd; [constructor|].
  apply NoDup_cons_iff in Hnd as [Hn Hnd].
  destruct (f x); simpl; [|apply IH, Hnd].
  constructor; [|apply IH, Hnd].
  intro Hin. apply Hn. apply in_map_iff in Hin as [y [Hy Hin]].
  apply filter_In in Hin as [Hin _]. rewrite <- Hy. apply in_map, Hin.
Qed.

Lemma permutation_filter (f : A -> bool) (l l' : list A) :
  Permutation l l' -> Permutation (filter f l) (filter f l').
Proof.
  induction 1 as [|x l l' _ IH|x y l|l l' l'' _ IH1 _ IH2]; simpl.
  - constructor.
  - destruct (f x); [apply perm_skip|]; exact IH.
  - destruct (f x), (f y); try reflexivity. apply perm_swap.
  - etransitivity; eassumption.
Qed.

End SortKey.

Lemma sorted_lt_nodup (l : list Z) : Sorted Z.lt l -> NoDup l.
Proof.
  intros H. apply Sorted_StronglySorted in H; [|intros x y z; lia].
  induction H as [|a l _ IH Hf]; constructor; [|exact IH].
  intro Hin. rewrite Forall_forall in Hf. specialize (Hf a Hin). lia.
Qed.

Lemma dict_get_set (k k' : string) (v : TargetRecord) (d : Store) :
  dict_get k (dict_set k' v d) = if String.eqb k k' then Some v else dict_get k d.
Proof.
  induction d as [|[k0 v0] r IH]; simpl.
  - reflexivity.
  - destruct (String.eqb k' k0) eqn:E; simpl.
    + apply String.eqb_eq in E. subst k0. simpl. destruct (String.eqb k k'); reflexivity.
    + rewrite IH. destruct (String.eqb k k0) eqn:E0; [|reflexivity].
      apply String.eqb_eq in E0. subst k0.
      destruct (String.eqb k k') eqn:E1; [|reflexivity].
      apply String.eqb_eq in E1. subst k'. rewrite String.eqb_refl in E. discriminate.
Qed.

(** Every stored target has its snapshot dates strictly increasing. *)
Definition dates_sorted (store : Store) : Prop :=
  forall k tr, dict_get k store = Some tr -> Sorted Z.lt (map snapshot_date (snapshots tr)).

Lemma kept_no_today (today : Z) (l : list Snapshot) :
  ~ In today (map snapshot_date (filter (fun s => negb (snapshot_date s =? today)%Z) l)).
Proof.
  intro Hin. apply in_map_iff in Hin as [s [Hs Hin]].
  apply filter_In in Hin as [_ Hf]. rewrite Hs, Z.eqb_refl in Hf. discriminate.
Qed.

Lemma record_snapshot_sorted today key target dc mae store :
  dates_sorted store -> dates_sorted (record_snapshot today key target dc mae store).
Proof.
  intros Hst k tr. unfold record_snapshot.
  destruct (target <? today)%Z; [apply Hst|].
  rewrite dict_get_set. destruct (String.eqb k key) eqn:Ek; [|apply Hst].
  intros E. injection E as <-. simpl.
  apply sort_key_sorted_lt.
  set (old := match dict_get key store with
              | Some t => t
              | None => {| target_date := key; snapshots := [];
                           evolution_summary := None; actual_result := None |} end).
  assert (Hold : NoDup (map snapshot_date (snapshots old))).
  { unfold old. destruct (dict_get key store) as [t|] eqn:Et; simpl; [|constructor].
    apply sorted_lt_nodup, (Hst key t Et). }
  apply (Permutation_NoDup (l := today :: map snapshot_date
           (filter (fun s => negb (snapshot_date s =? today)%Z) (snapshots old)))).
  - rewrite map_app. simpl. apply Permutation_cons_append.
  - constructor; [apply kept_no_today|]. apply nodup_map_filter, Hold.
Qed.

Lemma run_snapshots_sorted (calls : list SnapshotCall) (store : Store) :
  dates_sorted store -> dates_sorted (run_snapshots calls store).
Proof.
  revert store. induction calls as [|c r IH]; simpl; intros store H; [exact H|].
  apply IH, record_snapshot_sorted, H.
Qed.

Lemma record_snapshot_today today key target dc mae store tr :
  (today <= target)%Z ->
  dict_get key (record_snapshot today key target dc mae store) = Some tr ->
  filter (fun s => (snapshot_date s =? today)%Z) (snapshots tr)
  = [make_snapshot today target dc mae].
Proof.
  intros Ht. unfold record_snapshot.
  replace (target <? today)%Z with false by (symmetry; apply Z.ltb_ge; lia).
  rewrite dict_get_set, String.eqb_refl. intros E. injection E as <-. simpl.
  set (kept := filter (fun s => negb (snapshot_date s =? today)%Z) _).
  assert (Hk : filter (fun s => (snapshot_date s =? today)%Z) kept = []).
  { destruct (filter (fun s => (snapshot_date s =? today)%Z) kept) as [|s r] eqn:E; [reflexivity|].
    exfalso. assert (Hs : In s (filter (fun s => (snapshot_date s =? today)%Z) kept))
      by (rewrite E; left; reflexivity).
    apply filter_In in Hs as [Hs Hd]. apply Z.eqb_eq in Hd.
    assert (Hin : In (snapshot_date s) (map snapshot_date kept)) by (apply in_map, Hs).
    rewrite Hd in Hin. unfold kept in Hin. apply kept_no_today in Hin. exact Hin. }
  apply Permutation_length_1_inv.
  transitivity (filter (fun s => (snapshot_date s =? today)%Z) (kept ++ [make_snapshot today target dc mae])).
  - rewrite filter_app, Hk. simpl. rewrite Z.eqb_refl. reflexivity.
  - apply permutation_filter. symmetry. apply sort_key_perm.
Qed.

(** C6. Starting from an empty store, after any sequence of [record_snapshot]
    calls, every target's snapshot list is sorted by snapshot date with at most
    one snapshot per date (the dates are strictly increasing, hence distinct);
    and for a target dated today or later, two snapshots recorded on the same
    day leave exactly one snapshot for that day, the second one. *)
Theorem record_snapshot_one_per_day_sorted :
  (forall (calls : list SnapshotCall) (k : string) (tr : TargetRecord),
     dict_get k (run_snapshots calls []) = Some tr ->
     Sorted Z.lt (map snapshot_date (snapshots tr)) /\
     NoDup (map snapshot_date (snapshots tr))) /\
  (forall (store : Store) (today target : Z) (key : string)
          (dc1 dc2 : DayComparison) (mae1 mae2 : option Q) (tr : TargetRecord),
     (today <= target)%Z ->
     dict_get key (record_snapshot today key target dc2 mae2
                     (record_snapshot today key target dc1 mae1 store)) = Some tr ->
     filter (fun s => (snapshot_date s =? today)%Z) (snapshots tr)
     = [make_snapshot today target dc2 mae2]).
Proof.
  split.
  - intros calls k tr E.
    assert (H : Sorted Z.lt (map snapshot_date (snapshots tr))).
    { apply (run_snapshots_sorted calls [] ltac:(intros k0 t0 E0; discriminate E0) k tr E). }
    split; [exact H|apply sorted_lt_nodup, H].
  - intros store today target key dc1 dc2 mae1 mae2 tr Ht E.
    exact (record_snapshot_today today key target dc2 mae2 _ tr Ht E).
Qed.

(** Witness of C6 on [evolution_calls], and on two same-day snapshots for day 110
    recorded on day 104. *)
Lemma record_snapshot_one_per_day_sorted_witness :
  (exists tr, dict_get "2025-01-10" (run_snapshots evolution_calls []) = Some tr /\
     Sorted Z.lt (map snapshot_date (snapshots tr)) /\
     NoDup (map snapshot_date (snapshots tr))) /\
  (exists tr, (104 <= 110)%Z /\
     dict_get "2025-01-10" (record_snapshot 104 "2025-01-10" 110 dc_actual (Some 3)
        (record_snapshot 104 "2025-01-10" 110 dc_forecast None [])) = Some tr /\
     filter (fun s => (snapshot_date s =? 104)%Z) (snapshots tr)
     = [make_snapshot 104 110 dc_actual (Some 3)]).
Proof.
  split.
  - destruct (dict_get "2025-01-10" (run_snapshots evolution_calls [])) as [tr|] eqn:E;
      [|vm_compute in E; discriminate E].
    exists tr. split; [reflexivity|].
    apply (proj1 record_snapshot_one_per_day_sorted evolution_calls "2025-01-10" tr E).
  - destruct (dict_get "2025-01-10" (record_snapshot 104 "2025-01-10" 110 dc_actual (Some 3)
        (record_snapshot 104 "2025-01-10" 110 dc_forecast None []))) as [tr|] eqn:E;
      [|vm_compute in E; discriminate E].
    exists tr. split; [lia|]. split; [reflexivity|].
    apply (proj2 record_snapshot_one_per_day_sorted [] 104%Z 110%Z "2025-01-10"
             dc_forecast dc_actual None (Some 3) tr); [lia|exact E].
Defined.

End SnapshotProofs.

Module TrackerProofs.
Import ForecastTracker.

Lemma Qabs_sum_le (l : list Q) : Qabs (sum_Q l) <= sum_Q (map Qabs l).
Proof.
  induction l as [|x r IH]; simpl; [apply Qle_refl|].
  eapply Qle_trans; [apply Qabs_triangle|]. lra.
Qed.

Lemma len_Q_pos {A} (x : A) (l : list A) : 0 < len_Q (x :: l).
Proof. unfold len_Q, Qlt. simpl. lia. Qed.

Lemma len_Q_cons_map {A B} (g : A -> B) (x : A) (l : list A) :
  len_Q (g x :: map g l) = len_Q (x :: l).
Proof. unfold len_Q. simpl. rewrite length_map. reflexivity. Qed.

Lemma Qabs_mean_le (l : list Q) (x : Q) :
  Qabs (sum_Q (x :: l) / len_Q (x :: l)) <= sum_Q (map Qabs (x :: l)) / len_Q (x :: l).
Proof.
  pose proof (len_Q_pos x l) as Hn.
  assert (Hi : 0 < / len_Q (x :: l)) by (apply Qinv_lt_0_compat; exact Hn).
  unfold Qdiv. rewrite Qabs_Qmult.
  rewrite (Qabs_pos (/ len_Q (x :: l))) by lra.
  apply Qmult_le_compat_r; [apply Qabs_sum_le|lra].
Qed.

(** C7. For equal-length non-empty forecast and actual price lists,
    [record_comparison] succeeds; with the per-index errors [actual - forecast],
    its MAE is the mean of their absolute values, its mean error their mean,
    and MAE >= |mean error|. *)
Theorem record_comparison_mae_ge_abs_bias (date : Z) (forecast actual : list Q)
  (source : string) (stored : list Comparison) :
  List.length forecast = List.length actual -> forecast <> [] ->
  exists m stored',
    record_comparison date forecast actual source stored = Ok (m, stored') /\
    let errors := map (fun '(ac, fc) => ac - fc) (combine actual forecast) in
    mean_absolute_error m = sum_Q (map Qabs errors) / len_Q errors /\
    mean_error m = sum_Q errors / len_Q errors /\
    Qabs (mean_error m) <= mean_absolute_error m.
Proof.
  intros Hlen Hne.
  destruct forecast as [|x f]; [contradiction|].
  destruct actual as [|y a]; [discriminate Hlen|].
  unfold record_comparison, comparison_metrics.
  replace (List.length (x :: f) =? List.length (y :: a))%nat with true
    by (symmetry; apply Nat.eqb_eq; exact Hlen).
  cbn [negb combine map].
  rewrite !py_div_len_cons. cbn [bind py_max py_min].
  do 2 eexists. split; [reflexivity|]. cbn zeta. cbn [mean_absolute_error mean_error].
  rewrite (len_Q_cons_map Qabs).
  split; [reflexivity|]. split; [reflexivity|].
  apply Qabs_mean_le.
Qed.

(** Witness of C7: forecast 10, 12, 8 against actual 11, 9, 8. *)
Lemma record_comparison_mae_ge_abs_bias_witness :
  List.length [10; 12; 8] = List.length [11; 9; 8] /\ [10; 12; 8] <> [] /\
  exists m stored',
    record_comparison 120 [10; 12; 8] [11; 9; 8] "guy_lipman" [] = Ok (m, stored') /\
    let errors := map (fun '(ac, fc) => ac - fc) (combine [11; 9; 8] [10; 12; 8]) in
    mean_absolute_error m = sum_Q (map Qabs errors) / len_Q errors /\
    mean_error m = sum_Q errors / len_Q errors /\
    Qabs (mean_error m) <= mean_absolute_error m.
Proof.
  split; [reflexivity|]. split; [discriminate|].
  apply record_comparison_mae_ge_abs_bias; [reflexivity|discriminate].
Defined.

Section SortDesc.
Context {A : Type} (key : A -> Z).

Lemma insert_key_desc_hdrel (b : Z) (x : A) (l : list A) :
  HdRel Z.ge b (map key l) -> (b >= key x)%Z -> HdRel Z.ge b (map key (insert_key_desc key x l)).
Proof.
  intros H Hx. destruct l as [|y r]; simpl; [constructor; exact Hx|].
  destruct (key y <=? key x)%Z; simpl; constructor; [exact Hx|].
  inversion H; assumption.
Qed.

Lemma insert_key_desc_sorted (x : A) (l : list A) :
  Sorted Z.ge (map key l) -> Sorted Z.ge (map key (insert_key_desc key x l)).
Proof.
  induction l as [|y r IH]; simpl; intros Hs; [repeat constructor|].
  apply Sorted_inv in Hs as [Hs Hh].
  destruct (key y <=? key x)%Z eqn:E; simpl.
  - apply Z.leb_le in E. constructor; [constructor; assumption|]. constructor. lia.
  - apply Z.leb_gt in E. constructor; [apply IH, Hs|].
    apply insert_key_desc_hdrel; [exact Hh|lia].
Qed.

Lemma sort_key_desc_sorted (l : list A) : Sorted Z.ge (map key (sort_key_desc key l)).
Proof.
  induction l as [|x r IH]; simpl; [constructor|]. apply insert_key_desc_sorted, IH.
Qed.

End SortDesc.

Lemma py_slice_first7 (l : list Q) :
  (7 <= List.length l)%nat -> py_slice l 0 7 = firstn 7 l.
Proof.
  intros H. exact (py_slice_window l 0 7 ltac:(lia) ltac:(lia) ltac:(lia)).
Qed.

Lemma py_slice_next7 (l : list Q) :
  (7 <= List.length l)%nat ->
  (if (14 <=? List.length l)%nat then py_slice l 7 14
   else py_slice l 7 (Z.of_nat (List.length l))) = firstn 7 (skipn 7 l).
Proof.
  intros H. destruct (14 <=? List.length l)%nat eqn:E.
  - apply Nat.leb_le in E. exact (py_slice_window l 7 7 ltac:(lia) ltac:(lia) ltac:(lia)).
  - apply Nat.leb_gt in E.
    replace (Z.of_nat (List.length l)) with (7 + (Z.of_nat (List.length l) - 7))%Z by lia.
    rewrite py_slice_window by lia.
    rewrite !firstn_all2; [reflexivity| |]; rewrite length_skipn; lia.
Qed.

Lemma py_div_len_map_cons {A B} (g : A -> B) (q : Q) (x : A) (l : list A) :
  py_div q (len_Q (map g (x :: l))) = Ok (q / len_Q (map g (x :: l))).
Proof. exact (py_div_len_cons q (g x) (map g l)). Qed.

Lemma py_div_len_7 (q : Q) (l : list Q) :
  List.length l = 7%nat -> py_div q (len_Q l) = Ok (q / 7).
Proof. intros H. unfold py_div, len_Q. rewrite H. reflexivity. Qed.

(** C9 (counterexample). Eight stored days (day 1 with MAE 5, days 2..8 with
    MAE 1), asked for the last 30 days: fewer than 14 comparisons, yet the trend
    is "improving" (mean 1 of the 7 newest against 5 for the one older). *)
Lemma get_recent_accuracy_eight_days :
  (List.length eight_days < 14)%nat /\
  exists st, get_recent_accuracy eight_days 30 = Ok st /\ trend st = "improving".
Proof.
  split; [apply Nat.ltb_lt; reflexivity|].
  eexists. split; [vm_compute; reflexivity|reflexivity].
Qed.

(** C9 (amended). For non-empty stored comparisons whose selected period
    [recent] (the [days] newest, the stored list being sorted newest first) is
    non-empty: the trend is "insufficient_data" when [recent] has at most 7
    records; with more than 7 it compares the mean MAE of the 7 newest records
    against the mean MAE of the next older ones, at most 7 of them (so from 8
    records on, not from 14): "improving" if the recent mean is more than 0.5
    lower, "degrading" if more than 0.5 higher, else "stable". *)
Theorem get_recent_accuracy_trend (comparisons : list Comparison) (days : Z) :
  comparisons <> [] ->
  let recent := py_slice (sort_key_desc cmp_date comparisons) 0 days in
  let maes := map mean_absolute_error recent in
  recent <> [] ->
  Sorted Z.ge (map cmp_date (sort_key_desc cmp_date comparisons)) /\
  exists st, get_recent_accuracy comparisons days = Ok st /\
    num_comparisons st = List.length recent /\
    ((List.length recent <= 7)%nat -> trend st = "insufficient_data") /\
    ((7 < List.length recent)%nat ->
       trend st = classify_trend (sum_Q (firstn 7 maes) / 7)
                    (sum_Q (firstn 7 (skipn 7 maes)) / len_Q (firstn 7 (skipn 7 maes)))).
Proof.
  intros Hne. destruct comparisons as [|c cs]; [contradiction|].
  intros recent maes Hr. split; [apply sort_key_desc_sorted|].
  unfold get_recent_accuracy.
  change (py_slice (sort_key_desc cmp_date (c :: cs)) 0 days) with recent.
  clearbody recent. destruct recent as [|r0 rs]; [contradiction|].
  subst maes. cbv beta iota zeta.
  rewrite !py_div_len_map_cons. cbn [bind].
  set (maes := map mean_absolute_error (r0 :: rs)).
  assert (Hlm : List.length maes = List.length (r0 :: rs)) by apply length_map.
  destruct (Nat.le_gt_cases (List.length (r0 :: rs)) 7) as [Hle|Hgt].
  - destruct (7 <=? List.length (r0 :: rs))%nat eqn:E7.
    + apply Nat.leb_le in E7. rewrite py_slice_next7 by lia.
      rewrite (skipn_all2 maes) by lia. cbn [firstn bind].
      eexists. split; [reflexivity|]. split; [reflexivity|]. split; [reflexivity|lia].
    + cbn [bind]. eexists. split; [reflexivity|]. split; [reflexivity|].
      split; [reflexivity|lia].
  - replace (7 <=? List.length (r0 :: rs))%nat with true by (symmetry; apply Nat.leb_le; lia).
    rewrite py_slice_next7 by lia. rewrite py_slice_first7 by lia.
    rewrite (py_div_len_7 _ (firstn 7 maes)) by (rewrite length_firstn; lia).
    destruct (firstn 7 (skipn 7 maes)) as [|o os] eqn:Eo.
    + apply (f_equal (@List.length Q)) in Eo.
      rewrite length_firstn, length_skipn in Eo. change (List.length (@nil Q)) with 0%nat in Eo. lia.
    + rewrite py_div_len_cons. cbn [bind].
      eexists. split; [reflexivity|]. split; [reflexivity|].
      split; [lia|reflexivity].
Qed.

(** Witness of C9 (amended) on the eight stored days, for the last 30 days. *)
Lemma get_recent_accuracy_trend_witness :
  eight_days <> [] /\
  py_slice (sort_key_desc cmp_date eight_days) 0 30 <> [] /\
  Sorted Z.ge (map cmp_date (sort_key_desc cmp_date eight_days)) /\
  exists st, get_recent_accuracy eight_days 30 = Ok st /\
    num_comparisons st = List.length (py_slice (sort_key_desc cmp_date eight_days) 0 30) /\
    ((List.length (py_slice (sort_key_desc cmp_date eight_days) 0 30) <= 7)%nat ->
       trend st = "insufficient_data") /\
    ((7 < List.length (py_slice (sort_key_desc cmp_date eight_days) 0 30))%nat ->
       trend st = classify_trend
         (sum_Q (firstn 7 (map mean_absolute_error
                   (py_slice (sort_key_desc cmp_date eight_days) 0 30))) / 7)
         (sum_Q (firstn 7 (skipn 7 (map mean_absolute_error
                   (py_slice (sort_key_desc cmp_date eight_days) 0 30)))) /
          len_Q (firstn 7 (skipn 7 (map mean_absolute_error
                   (py_slice (sort_key_desc cmp_date eight_days) 0 30)))))).
Proof.
  split; [discriminate|]. split; [vm_compute; discriminate|].
  apply (get_recent_accuracy_trend eight_days 30); [discriminate|vm_compute; discriminate].
Defined.

End TrackerProofs.

(** * Further properties of the modules *)

Module AnalyzerFacts.
Import Analyzer Fixtures.

Section SortedKey.
Context {A : Type} (f : A -> Z).

Lemma insert_key_sorted_le (x : A) (l : list A) :
  Sorted Z.le (map f l) -> Sorted Z.le (map f (insert_key f x l)).
Proof.
  induction l as [|y r IH]; simpl; intros Hs; [repeat constructor|].
  apply Sorted_inv in Hs as [Hs Hh].
  destruct (f x <=? f y)%Z eqn:E; simpl.
  - apply Z.leb_le in E. constructor; [constructor; assumption|]. constructor. exact E.
  - apply Z.leb_gt in E. constructor; [apply IH, Hs|].
    destruct r as [|z r]; simpl; [constructor; lia|].
    simpl in Hh. destruct (f x <=? f z)%Z; simpl; constructor; [lia|].
    inversion Hh; assumption.
Qed.

Lemma sort_key_sorted_le (l : list A) : Sorted Z.le (map f (sort_key f l)).
Proof.
  induction l as [|x r IH]; simpl; [constructor|]. apply insert_key_sorted_le, IH.
Qed.

Lemma sorted_map_skipn (R : Z -> Z -> Prop) (n : nat) (l : list A) :
  Sorted R (map f l) -> Sorted R (map f (skipn n l)).
Proof.
  revert l. induction n as [|n IH]; intros l Hs; [exact Hs|].
  destruct l as [|x l]; [constructor|]. simpl. apply IH.
  simpl in Hs. apply Sorted_inv in Hs as [Hs _]. exact Hs.
Qed.

Lemma sorted_map_firstn (R : Z -> Z -> Prop) (n : nat) (l : list A) :
  Sorted R (map f l) -> Sorted R (map f (firstn n l)).
Proof.
  revert l. induction n as [|n IH]; intros l Hs; [constructor|].
  destruct l as [|x l]; [constructor|]. simpl in *.
  apply Sorted_inv in Hs as [Hs Hh]. constructor; [apply IH, Hs|].
  destruct n as [|n]; [constructor|]. destruct l as [|y l]; [constructor|].
  simpl. constructor. inversion Hh; assumption.
Qed.

End SortedKey.

Lemma last_in_list {A} (l : list A) (d : A) : l <> [] -> In (last l d) l.
Proof.
  induction l as [|x l IH]; intros H; [contradiction|].
  destruct l as [|y l]; [left; reflexivity|].
  right. apply IH. discriminate.
Qed.

Lemma sorted_le_head_last {A} (f : A -> Z) (b0 : A) (rest : list A) :
  Sorted Z.le (map f (b0 :: rest)) -> (f b0 <= f (last (b0 :: rest) b0))%Z.
Proof.
  intros Hs. apply Sorted_StronglySorted in Hs; [|intros x y z; lia].
  simpl in Hs. apply StronglySorted_inv in Hs as [_ Hf].
  pose proof (last_in_list (b0 :: rest) b0 ltac:(discriminate)) as Hin.
  destruct Hin as [<-|Hin]; [lia|].
  rewrite Forall_forall in Hf. apply Hf, in_map, Hin.
Qed.

Lemma align_data_sorted (ps : list PriceSlot) (cs : list CarbonSlot) :
  Sorted Z.le (map al_time (align_data ps cs)).
Proof. apply sort_key_sorted_le. Qed.

(** [_align_data] returns, sorted by time, exactly the price slots whose
    timestamp has a carbon reading, each with its time, its price and the carbon
    intensity the lookup dict holds for that time. *)
Theorem align_data_spec (ps : list PriceSlot) (cs : list CarbonSlot) :
  Sorted Z.le (map al_time (align_data ps cs)) /\
  (forall s, In s (align_data ps cs) <->
     exists p c, In p ps /\ carbon_lookup (ps_time p) cs = Some c /\
       s = {| al_time := ps_time p; al_price := ps_price p; al_carbon := c |}).
Proof.
  split; [apply align_data_sorted|]. intros s. unfold align_data.
  split.
  - intros Hin.
    apply (Permutation_in _ (SnapshotProofs.sort_key_perm al_time _)) in Hin.
    apply in_flat_map in Hin as [p [Hp Hin]].
    destruct (carbon_lookup (ps_time p) cs) as [c|] eqn:E; [|destruct Hin].
    destruct Hin as [<-|[]]. exists p, c. auto.
  - intros [p [c [Hp [E ->]]]].
    apply (Permutation_in _ (Permutation_sym (SnapshotProofs.sort_key_perm al_time _))).
    apply in_flat_map. exists p. split; [exact Hp|]. rewrite E. left. reflexivity.
Qed.

(** The carbon lookup dict [{slot.time: slot.intensity ...}] keeps, for a
    timestamp, the intensity of the last carbon slot with that timestamp, and has
    no entry when no carbon slot has it. *)
Theorem carbon_lookup_last_wins (t : Z) (cs : list CarbonSlot) :
  (forall v, carbon_lookup t cs = Some v <->
     exists l1 c l2, cs = l1 ++ c :: l2 /\ cs_time c = t /\ cs_intensity c = v /\
                     Forall (fun c' => cs_time c' <> t) l2) /\
  (carbon_lookup t cs = None <-> Forall (fun c' => cs_time c' <> t) cs).
Proof.
  assert (Hnone : forall cs, carbon_lookup t cs = None <-> Forall (fun c' => cs_time c' <> t) cs).
  { induction cs0 as [|c r IH]; simpl; [split; [constructor|reflexivity]|].
    destruct (carbon_lookup t r) eqn:Er.
    - split; [discriminate|]. intros H. inversion H as [|? ? _ Hr]. apply IH in Hr. discriminate.
    - destruct (cs_time c =? t)%Z eqn:Et.
      + apply Z.eqb_eq in Et. split; [discriminate|]. intros H. inversion H. contradiction.
      + apply Z.eqb_neq in Et. split; [intros _; constructor; [exact Et|apply IH; reflexivity]|reflexivity]. }
  split; [|apply Hnone].
  intros v. split.
  - induction cs as [|c r IH]; simpl; [discriminate|]. intros H.
    destruct (carbon_lookup t r) as [v'|] eqn:Er.
    + injection H as <-. destruct (IH eq_refl) as [l1 [c' [l2 [-> Hc]]]].
      exists (c :: l1), c', l2. split; [reflexivity|exact Hc].
    + destruct (cs_time c =? t)%Z eqn:Et; [|discriminate]. injection H as <-.
      apply Z.eqb_eq in Et. exists [], c, r. repeat split; try assumption.
      apply Hnone, Er.
  - intros [l1 [c [l2 [-> [Ht [Hv Hf]]]]]].
    induction l1 as [|x l1 IH]; simpl.
    + apply Hnone in Hf. rewrite Hf, <- Ht, Z.eqb_refl, Hv. reflexivity.
    + rewrite IH. reflexivity.
Qed.

(** A window returned by [find_optimal_window] lasts at least one slot:
    [start + 30 <= end], because its slots are consecutive entries of the
    time-sorted aligned data; so [get_status] is [ACTIVE] exactly on
    [[start, end]], [UPCOMING] before and [PASSED] after. *)
Theorem find_optimal_window_status (a : Analyzer) ps cs d bt w :
  find_optimal_window a ps cs d bt = Ok w ->
  (start w + 30 <= end_ w)%Z /\
  (forall t, (get_status w t = ACTIVE <-> (start w <= t <= end_ w)%Z) /\
             (get_status w t = UPCOMING <-> (0 < time_until_start w t)%Z) /\
             (get_status w t = PASSED <-> (time_until_end w t < 0)%Z)).
Proof.
  intros H.
  destruct (WindowProofs.find_optimal_window_ok_inv a ps cs d bt w H)
    as [st [b0 [rest [Hs [Hsnd [Hstart [Hend _]]]]]]].
  pose proof (WindowProofs.search_ok_slots_pos a _ _ _ Hs) as Hk.
  set (al := align_data ps cs) in *. set (k := py_int (d * 2)) in *.
  unfold search in Hs.
  destruct (WindowProofs.search_fold_window a al k _ _ _ _ Hs) as [E|[i [Hi E]]];
    [rewrite Hsnd in E; discriminate|].
  rewrite Hsnd in E. injection E as E.
  apply in_py_range in Hi.
  rewrite py_slice_window in E by lia.
  assert (Hsort : Sorted Z.le (map al_time (b0 :: rest))).
  { rewrite E. apply sorted_map_firstn, sorted_map_skipn, align_data_sorted. }
  apply sorted_le_head_last in Hsort.
  assert (Hspan : (start w + 30 <= end_ w)%Z) by lia.
  split; [exact Hspan|]. intros t.
  unfold get_status, time_until_start, time_until_end.
  destruct (t <? start w)%Z eqn:E1; [apply Z.ltb_lt in E1|apply Z.ltb_ge in E1];
  [|destruct (end_ w <? t)%Z eqn:E2; [apply Z.ltb_lt in E2|apply Z.ltb_ge in E2]];
  repeat split; intros; try discriminate; try reflexivity; lia.
Qed.

(** Witness: the 48-slot scenario with a 4-hour request. *)
Lemma find_optimal_window_status_witness :
  exists w,
    find_optimal_window analyzer_default cheap_morning_prices cheap_morning_carbon 4 None = Ok w /\
    (start w + 30 <= end_ w)%Z /\
    (forall t, (get_status w t = ACTIVE <-> (start w <= t <= end_ w)%Z) /\
               (get_status w t = UPCOMING <-> (0 < time_until_start w t)%Z) /\
               (get_status w t = PASSED <-> (time_until_end w t < 0)%Z)).
Proof.
  eexists. split; [vm_compute; reflexivity|].
  apply (find_optimal_window_status analyzer_default cheap_morning_prices cheap_morning_carbon
           4 None). vm_compute. reflexivity.
Defined.

Lemma price_score_first_band (a : Analyzer) (p1 p2 : Q) :
  p1 <= p2 -> calculate_price_score a p2 <= calculate_price_score a p1.
Proof.
  intros Hp. unfold calculate_price_score.
  destruct (Qle_bool p2 (price_excellent a)) eqn:E1.
  { apply Qle_bool_iff in E1. rewrite (proj2 (Qle_bool_iff _ _) (Qle_trans _ _ _ Hp E1)).
    apply Qle_refl. }
  destruct (Qle_bool p2 (price_good a)) eqn:E2.
  { apply Qle_bool_iff in E2. rewrite (proj2 (Qle_bool_iff _ _) (Qle_trans _ _ _ Hp E2)).
    destruct (Qle_bool p1 (price_excellent a)); discriminate. }
  destruct (Qle_bool p2 (price_average a)) eqn:E3.
  { apply Qle_bool_iff in E3. rewrite (proj2 (Qle_bool_iff _ _) (Qle_trans _ _ _ Hp E3)).
    destruct (Qle_bool p1 (price_excellent a)); [discriminate|].
    destruct (Qle_bool p1 (price_good a)); discriminate. }
  destruct (Qle_bool p1 (price_excellent a)); [discriminate|].
  destruct (Qle_bool p1 (price_good a)); [discriminate|].
  destruct (Qle_bool p1 (price_average a)); discriminate.
Qed.

Lemma carbon_score_first_band (a : Analyzer) (c1 c2 : Q) :
  c1 <= c2 -> calculate_carbon_score a c2 <= calculate_carbon_score a c1.
Proof.
  intros Hc. unfold calculate_carbon_score.
  destruct (Qle_bool c2 (inject_Z (carbon_excellent a))) eqn:E1.
  { apply Qle_bool_iff in E1. rewrite (proj2 (Qle_bool_iff _ _) (Qle_trans _ _ _ Hc E1)).
    apply Qle_refl. }
  destruct (Qle_bool c2 (inject_Z (carbon_good a))) eqn:E2.
  { apply Qle_bool_iff in E2. rewrite (proj2 (Qle_bool_iff _ _) (Qle_trans _ _ _ Hc E2)).
    destruct (Qle_bool c1 (inject_Z (carbon_excellent a))); discriminate. }
  destruct (Qle_bool c2 (inject_Z (carbon_average a))) eqn:E3.
  { apply Qle_bool_iff in E3. rewrite (proj2 (Qle_bool_iff _ _) (Qle_trans _ _ _ Hc E3)).
    destruct (Qle_bool c1 (inject_Z (carbon_excellent a))); [discriminate|].
    destruct (Qle_bool c1 (inject_Z (carbon_good a))); discriminate. }
  destruct (Qle_bool c1 (inject_Z (carbon_excellent a))); [discriminate|].
  destruct (Qle_bool c1 (inject_Z (carbon_good a))); [discriminate|].
  destruct (Qle_bool c1 (inject_Z (carbon_average a))); discriminate.
Qed.

Lemma classify_opportunity_rank_mono (s1 s2 : Q) :
  s1 <= s2 -> (rating_rank (classify_opportunity s1) <= rating_rank (classify_opportunity s2))%Z.
Proof.
  intros Hs. unfold classify_opportunity.
  destruct (Qle_bool 90 s1) eqn:E1.
  { apply Qle_bool_iff in E1. rewrite (proj2 (Qle_bool_iff _ _) (Qle_trans _ _ _ E1 Hs)).
    simpl; lia. }
  destruct (Qle_bool 70 s1) eqn:E2.
  { apply Qle_bool_iff in E2. rewrite (proj2 (Qle_bool_iff _ _) (Qle_trans _ _ _ E2 Hs)).
    destruct (Qle_bool 90 s2); simpl; lia. }
  destruct (Qle_bool 50 s1) eqn:E3.
  { apply Qle_bool_iff in E3. rewrite (proj2 (Qle_bool_iff _ _) (Qle_trans _ _ _ E3 Hs)).
    destruct (Qle_bool 90 s2); [simpl; lia|]. destruct (Qle_bool 70 s2); simpl; lia. }
  destruct (Qle_bool 90 s2); [simpl; lia|]. destruct (Qle_bool 70 s2); [simpl; lia|].
  destruct (Qle_bool 50 s2); simpl; lia.
Qed.

(** Scoring never rewards a worse slot: whatever the thresholds, a higher price
    never raises the price score and a higher carbon intensity never raises the
    carbon score; with non-negative weights a slot that is no cheaper and no
    cleaner gets no higher opportunity score and no better rating. *)
Theorem opportunity_score_antitone (a : Analyzer) (p1 p2 c1 c2 : Q) :
  0 <= price_weight a -> 0 <= carbon_weight a -> p1 <= p2 -> c1 <= c2 ->
  calculate_price_score a p2 <= calculate_price_score a p1 /\
  calculate_carbon_score a c2 <= calculate_carbon_score a c1 /\
  calculate_opportunity_score a p2 c2 <= calculate_opportunity_score a p1 c1 /\
  (rating_rank (classify_opportunity (calculate_opportunity_score a p2 c2))
   <= rating_rank (classify_opportunity (calculate_opportunity_score a p1 c1)))%Z.
Proof.
  intros Hw1 Hw2 Hp Hc.
  pose proof (price_score_first_band a p1 p2 Hp) as P.
  pose proof (carbon_score_first_band a c1 c2 Hc) as C.
  assert (S : calculate_opportunity_score a p2 c2 <= calculate_opportunity_score a p1 c1).
  { unfold calculate_opportunity_score.
    apply Qplus_le_compat.
    - rewrite (Qmult_comm (price_weight a)), (Qmult_comm (price_weight a)).
      apply Qmult_le_compat_r; assumption.
    - rewrite (Qmult_comm (carbon_weight a)), (Qmult_comm (carbon_weight a)).
      apply Qmult_le_compat_r; assumption. }
  split; [exact P|]. split; [exact C|]. split; [exact S|].
  apply classify_opportunity_rank_mono, S.
Qed.

(** Witness on the default analyzer: 12p / 130g against 18p / 170g. *)
Lemma opportunity_score_antitone_witness :
  calculate_price_score analyzer_default 18 <= calculate_price_score analyzer_default 12 /\
  calculate_carbon_score analyzer_default 170 <= calculate_carbon_score analyzer_default 130 /\
  calculate_opportunity_score analyzer_default 18 170
    <= calculate_opportunity_score analyzer_default 12 130 /\
  (rating_rank (classify_opportunity (calculate_opportunity_score analyzer_default 18 170))
   <= rating_rank (classify_opportunity (calculate_opportunity_score analyzer_default 12 130)))%Z.
Proof.
  apply opportunity_score_antitone; apply Qle_bool_iff; reflexivity.
Defined.

Lemma first_index_none (t : Z) (l : list AlignedSlot) (i : Z) :
  Forall (fun s => (al_time s < t)%Z) l -> first_index_at_or_after t l i = None.
Proof.
  revert i. induction l as [|x l IH]; intros i H; [reflexivity|].
  inversion H as [|? ? Hx Hl]; subst. simpl.
  destruct (t <=? al_time x)%Z eqn:E; [apply Z.leb_le in E; lia|]. apply IH, Hl.
Qed.

Lemma first_index_some (t : Z) (l1 : list AlignedSlot) (s : AlignedSlot) l2 (i : Z) :
  Forall (fun s' => (al_time s' < t)%Z) l1 -> (t <= al_time s)%Z ->
  first_index_at_or_after t (l1 ++ s :: l2) i = Some (i + Z.of_nat (List.length l1))%Z.
Proof.
  revert i. induction l1 as [|x l1 IH]; intros i H Hs; simpl.
  - apply Z.leb_le in Hs. rewrite Hs. f_equal. lia.
  - inversion H as [|? ? Hx Hl]; subst.
    destruct (t <=? al_time x)%Z eqn:E; [apply Z.leb_le in E; lia|].
    rewrite IH by assumption. f_equal. lia.
Qed.

Lemma firstn_min_length {A} (n : nat) (l : list A) :
  firstn (Nat.min n (List.length l)) l = firstn n l.
Proof.
  destruct (Nat.le_ge_cases n (List.length l)) as [H|H].
  - rewrite Nat.min_l by exact H. reflexivity.
  - rewrite Nat.min_r by exact H. rewrite firstn_all, firstn_all2 by exact H. reflexivity.
Qed.

(** [l[i:i+k]] for an in-bounds start: the next [k] elements, or fewer at the end. *)
Lemma py_slice_from {A} (l : list A) (i k : Z) :
  (0 <= i <= Z.of_nat (List.length l))%Z -> (0 <= k)%Z ->
  py_slice l i (i + k) = firstn (Z.to_nat k) (skipn (Z.to_nat i) l).
Proof.
  intros Hi Hk. unfold py_slice.
  destruct (i <? 0)%Z eqn:E1; [lia|].
  destruct (i + k <? 0)%Z eqn:E2; [lia|].
  rewrite (Z.min_l i) by lia.
  rewrite <- (firstn_min_length (Z.to_nat k)), length_skipn. f_equal. lia.
Qed.

Lemma skipn_length_app {A} (l1 l2 : list A) : skipn (List.length l1) (l1 ++ l2) = l2.
Proof. induction l1 as [|x l1 IH]; [reflexivity|exact IH]. Qed.

(** [_calculate_baseline_cost] with [slots_needed >= 1]: when no aligned slot is
    at or after the baseline time the cost is the 5.0 fallback; otherwise it takes
    the [slots_needed] slots starting at the first such slot, and is
    [mean price * kwh / 100] when that many remain, the 5.0 fallback when fewer do. *)
Theorem calculate_baseline_cost_spec al bt k kwh :
  (1 <= k)%Z ->
  (Forall (fun s => (al_time s < bt)%Z) al -> calculate_baseline_cost al bt k kwh = Ok 5) /\
  (forall l1 s l2, al = l1 ++ s :: l2 ->
     Forall (fun s' => (al_time s' < bt)%Z) l1 -> (bt <= al_time s)%Z ->
     calculate_baseline_cost al bt k kwh =
       if (Z.of_nat (List.length (s :: l2)) <? k)%Z then Ok 5
       else Ok (sum_Q (prices_of (firstn (Z.to_nat k) (s :: l2))) / inject_Z k * kwh / 100)).
Proof.
  intros Hk. split.
  - intros Hf. unfold calculate_baseline_cost. rewrite first_index_none by exact Hf.
    reflexivity.
  - intros l1 s l2 -> Hf Hs. unfold calculate_baseline_cost.
    rewrite first_index_some by assumption. rewrite Z.add_0_l.
    rewrite py_slice_from by (rewrite ?length_app; simpl; lia).
    rewrite Nat2Z.id, skipn_length_app.
    assert (Hl : List.length (firstn (Z.to_nat k) (s :: l2))
                 = Nat.min (Z.to_nat k) (List.length (s :: l2))) by apply length_firstn.
    destruct (firstn (Z.to_nat k) (s :: l2)) as [|x r] eqn:EF.
    { simpl in Hl. lia. }
    destruct (Z.of_nat (List.length (s :: l2)) <? k)%Z eqn:E.
    + apply Z.ltb_lt in E. replace (Z.of_nat (List.length (x :: r)) <? k)%Z with true
        by (symmetry; apply Z.ltb_lt; lia). reflexivity.
    + apply Z.ltb_ge in E. replace (Z.of_nat (List.length (x :: r)) <? k)%Z with false
        by (symmetry; apply Z.ltb_ge; lia).
      rewrite py_div_len_cons. cbn [bind]. unfold len_Q.
      replace (Z.of_nat (List.length (x :: r))) with k by lia. reflexivity.
Qed.

(** Witness: 48 half-hourly slots, baseline at minute 600, 8 slots. *)
Lemma calculate_baseline_cost_spec_witness :
  let al := align_data cheap_morning_prices cheap_morning_carbon in
  (Forall (fun s => (al_time s < 600)%Z) al -> calculate_baseline_cost al 600 8 30 = Ok 5) /\
  (forall l1 s l2, al = l1 ++ s :: l2 ->
     Forall (fun s' => (al_time s' < 600)%Z) l1 -> (600 <= al_time s)%Z ->
     calculate_baseline_cost al 600 8 30 =
       if (Z.of_nat (List.length (s :: l2)) <? 8)%Z then Ok 5
       else Ok (sum_Q (prices_of (firstn (Z.to_nat 8) (s :: l2))) / inject_Z 8 * 30 / 100)).
Proof.
  intros al. apply calculate_baseline_cost_spec. lia.
Defined.

(** [find_optimal_window]'s three [ValueError]s: no price or no carbon data;
    no price timestamp matched by a carbon timestamp; fewer aligned slots than
    [int(2d)] (the search loop then has no iteration). *)
Theorem find_optimal_window_value_errors (a : Analyzer) ps cs d bt :
  ((ps = [] \/ cs = []) ->
     find_optimal_window a ps cs d bt = Err (ValueError "Price and carbon data required")) /\
  (ps <> [] -> cs <> [] ->
     Forall (fun p => Forall (fun c => cs_time c <> ps_time p) cs) ps ->
     find_optimal_window a ps cs d bt
       = Err (ValueError "No overlapping price and carbon data found")) /\
  (align_data ps cs <> [] ->
     (Z.of_nat (List.length (align_data ps cs)) < py_int (d * 2))%Z ->
     find_optimal_window a ps cs d bt = Err (ValueError "No valid charging window found")).
Proof.
  split; [|split].
  - intros [->| ->]; [reflexivity|destruct ps; reflexivity].
  - intros Hp Hc Hf.
    assert (E : align_data ps cs = []).
    { destruct (align_data ps cs) as [|s r] eqn:E; [reflexivity|exfalso].
      destruct (proj2 (align_data_spec ps cs) s) as [Hin _].
      destruct (Hin ltac:(rewrite E; left; reflexivity)) as [p [c [Hp' [Hl _]]]].
      rewrite Forall_forall in Hf. specialize (Hf p Hp').
      rewrite (proj2 (proj2 (carbon_lookup_last_wins (ps_time p) cs)) Hf) in Hl.
      discriminate. }
    unfold find_optimal_window.
    destruct ps as [|p ps]; [contradiction|]. destruct cs as [|c cs]; [contradiction|].
    rewrite E. reflexivity.
  - intros Hne Hlt. unfold find_optimal_window.
    destruct ps as [|p ps]; [contradiction|].
    destruct cs as [|c cs]; [rewrite WindowProofs.align_data_nil_r in Hne; contradiction|].
    destruct (align_data (p :: ps) (c :: cs)) as [|x al] eqn:E; [contradiction|].
    unfold search.
    replace (py_range (Z.of_nat (List.length (x :: al)) - py_int (d * 2) + 1)) with (@nil Z).
    + reflexivity.
    + unfold py_range. replace (Z.to_nat _) with 0%nat by lia. reflexivity.
Qed.

(** Witness: a 5-hour request over three aligned slots. *)
Lemma find_optimal_window_value_errors_witness :
  ((negative_prices = [] \/ flat_carbon = []) ->
     find_optimal_window analyzer_default negative_prices flat_carbon 5 None
     = Err (ValueError "Price and carbon data required")) /\
  (negative_prices <> [] -> flat_carbon <> [] ->
     Forall (fun p => Forall (fun c => cs_time c <> ps_time p) flat_carbon) negative_prices ->
     find_optimal_window analyzer_default negative_prices flat_carbon 5 None
       = Err (ValueError "No overlapping price and carbon data found")) /\
  (align_data negative_prices flat_carbon <> [] ->
     (Z.of_nat (List.length (align_data negative_prices flat_carbon)) < py_int (5 * 2))%Z ->
     find_optimal_window analyzer_default negative_prices flat_carbon 5 None
     = Err (ValueError "No valid charging window found")) /\
  align_data negative_prices flat_carbon <> [] /\
  (Z.of_nat (List.length (align_data negative_prices flat_carbon)) < py_int (5 * 2))%Z.
Proof.
  split; [|split; [|split; [|split]]];
    [apply find_optimal_window_value_errors..| vm_compute; discriminate | vm_compute; reflexivity].
Defined.

(** [savings_vs_baseline] of a returned window: without a baseline time it is
    [1.5 * total_cost - total_cost], half the window's cost; with one it is the
    result of [_calculate_baseline_cost] on the aligned data minus [total_cost]. *)
Theorem find_optimal_window_savings (a : Analyzer) ps cs d bt w :
  find_optimal_window a ps cs d bt = Ok w ->
  (bt = None -> savings_vs_baseline w == total_cost w / 2) /\
  (forall b, bt = Some b ->
     exists q, calculate_baseline_cost (align_data ps cs) b (py_int (d * 2)) (d * (74 # 10)) = Ok q /\
               savings_vs_baseline w = q - total_cost w).
Proof.
  intros H. unfold find_optimal_window in H.
  destruct ps as [|p ps]; [discriminate|]. destruct cs as [|c cs]; [discriminate|].
  destruct (align_data (p :: ps) (c :: cs)) as [|x al] eqn:Eal; [discriminate|].
  destruct (search a (x :: al) (py_int (d * 2))) as [[bs bw]|e]; [|discriminate].
  cbn [bind snd fst] in H. destruct bw as [[|b0 rest]|]; try discriminate.
  rewrite !py_div_len_cons in H. cbn [bind] in H.
  destruct bt as [bt|].
  - destruct (WindowProofs.calculate_baseline_cost_ok (x :: al) bt (py_int (d * 2)) (d * (74 # 10)))
      as [q Eq].
    rewrite Eq in H. cbn [bind] in H. injection H as <-. split; [discriminate|].
    intros b Eb. injection Eb as <-. exists q. split; [exact Eq|reflexivity].
  - cbn [bind] in H. injection H as <-. split; [|discriminate].
    intros _. cbn [savings_vs_baseline total_cost].
    match goal with |- ?X * _ - _ == _ => generalize X end. intros t. field.
Qed.

(** Witness: the 48-slot scenario, with and without a baseline at minute 600. *)
Lemma find_optimal_window_savings_witness :
  exists w w',
    find_optimal_window analyzer_default cheap_morning_prices cheap_morning_carbon 4 None = Ok w /\
    find_optimal_window analyzer_default cheap_morning_prices cheap_morning_carbon 4 (Some 600%Z)
      = Ok w' /\
    savings_vs_baseline w == total_cost w / 2 /\
    (exists q, calculate_baseline_cost (align_data cheap_morning_prices cheap_morning_carbon) 600
                 (py_int (4 * 2)) (4 * (74 # 10)) = Ok q /\
               savings_vs_baseline w' = q - total_cost w').
Proof.
  eexists. eexists. split; [vm_compute; reflexivity|]. split; [vm_compute; reflexivity|].
  split.
  - apply (find_optimal_window_savings analyzer_default cheap_morning_prices cheap_morning_carbon
             4 None); [vm_compute; reflexivity|reflexivity].
  - apply (find_optimal_window_savings analyzer_default cheap_morning_prices cheap_morning_carbon
             4 (Some 600%Z)); [vm_compute; reflexivity|reflexivity].
Defined.

End AnalyzerFacts.

Module TunerFacts.
Import ThresholdTuner ForecastTracker TunerRecommendations.

Lemma Qlt_bool_compat (x x' y y' : Q) :
  x == x' -> y == y' -> Qlt_bool x y = Qlt_bool x' y'.
Proof.
  intros Hx Hy. destruct (Qlt_bool x y) eqn:E.
  - apply Qlt_bool_true in E. symmetry. apply Qlt_bool_true. lra.
  - apply Qlt_bool_false in E. symmetry. apply Qlt_bool_false. lra.
Qed.

Lemma py_round_compat (x y : Q) : x == y -> py_round x = py_round y.
Proof.
  intros H. unfold py_round.
  assert (F : Qfloor x = Qfloor y) by (apply Qfloor_comp; exact H).
  rewrite F.
  rewrite (Qlt_bool_compat (x - inject_Z (Qfloor y)) (y - inject_Z (Qfloor y)) (1 # 2) (1 # 2))
    by lra.
  rewrite (Qlt_bool_compat (1 # 2) (1 # 2) (x - inject_Z (Qfloor y)) (y - inject_Z (Qfloor y)))
    by lra.
  reflexivity.
Qed.

(** [round] moves a number by at most one half. *)
Lemma py_round_close (x : Q) : Qabs (x - inject_Z (py_round x)) <= 1 # 2.
Proof.
  apply Qabs_Qle_condition. unfold py_round.
  pose proof (Qfloor_le x) as L. pose proof (Qlt_floor x) as U.
  rewrite inject_Z_plus in U. change (inject_Z 1) with 1 in U.
  destruct (Qlt_bool (x - inject_Z (Qfloor x)) (1 # 2)) eqn:E1;
    [apply Qlt_bool_true in E1; split; lra|apply Qlt_bool_false in E1].
  destruct (Qlt_bool (1 # 2) (x - inject_Z (Qfloor x))) eqn:E2;
    [apply Qlt_bool_true in E2|apply Qlt_bool_false in E2];
    [|destruct (Z.even (Qfloor x))];
    rewrite ?inject_Z_plus; change (inject_Z 1) with 1; split; lra.
Qed.

Lemma py_round_mono (x y : Q) : x <= y -> (py_round x <= py_round y)%Z.
Proof.
  intros H. destruct (Z.le_gt_cases (py_round x) (py_round y)) as [G|G]; [exact G|exfalso].
  assert (G' : inject_Z (py_round y) + 1 <= inject_Z (py_round x)).
  { rewrite <- (inject_Z_plus _ 1). rewrite <- Zle_Qle. lia. }
  pose proof (py_round_close x) as Cx. pose proof (py_round_close y) as Cy.
  apply Qabs_Qle_condition in Cx, Cy.
  assert (E : x == y) by lra.
  rewrite (py_round_compat x y E) in G. lia.
Qed.

Lemma py_round_nd_mono (x y : Q) (nd : nat) : x <= y -> py_round_nd x nd <= py_round_nd y nd.
Proof.
  intros H. unfold py_round_nd.
  set (s := inject_Z (10 ^ Z.of_nat nd)).
  assert (Hs : 0 < s).
  { unfold s. rewrite <- (Zlt_Qlt 0). apply Z.pow_pos_nonneg; lia. }
  assert (Hxs : x * s <= y * s) by (apply Qmult_le_compat_r; lra).
  apply py_round_mono in Hxs. rewrite Zle_Qle in Hxs.
  unfold Qdiv. apply Qmult_le_compat_r; [exact Hxs|].
  apply Qlt_le_weak, Qinv_lt_0_compat, Hs.
Qed.

Lemma insert_Q_perm (x : Q) (l : list Q) : Permutation (insert_Q x l) (x :: l).
Proof.
  induction l as [|y l IH]; simpl; [reflexivity|].
  destruct (Qle_bool x y); [reflexivity|].
  rewrite IH. apply perm_swap.
Qed.

Lemma sort_Q_perm (l : list Q) : Permutation (sort_Q l) l.
Proof.
  induction l as [|x l IH]; simpl; [reflexivity|].
  rewrite insert_Q_perm, IH. reflexivity.
Qed.

Lemma insert_Q_sorted (x : Q) (l : list Q) : Sorted Qle l -> Sorted Qle (insert_Q x l).
Proof.
  induction l as [|y l IH]; simpl; intros Hs; [repeat constructor|].
  apply Sorted_inv in Hs as [Hs Hh].
  destruct (Qle_bool x y) eqn:E.
  - apply Qle_bool_iff in E. constructor; [constructor; assumption|]. constructor. exact E.
  - assert (E' : y < x) by (apply Qnot_le_lt; intro H'; apply Qle_bool_iff in H'; congruence).
    clear E. rename E' into E. constructor; [apply IH, Hs|].
    destruct l as [|z l]; simpl; [constructor; lra|].
    destruct (Qle_bool x z); constructor; [lra|]. inversion Hh; assumption.
Qed.

Lemma sort_Q_sorted (l : list Q) : StronglySorted Qle (sort_Q l).
Proof.
  apply Sorted_StronglySorted; [intros x y z; apply Qle_trans|].
  induction l as [|x l IH]; simpl; [constructor|]. apply insert_Q_sorted, IH.
Qed.

Lemma sorted_nth_le (l : list Q) :
  StronglySorted Qle l ->
  forall i j, (i <= j < List.length l)%nat -> nth i l 0 <= nth j l 0.
Proof.
  induction l as [|x l IH]; intros Hs i j Hij; [simpl in Hij; lia|].
  apply StronglySorted_inv in Hs as [Hs Hf].
  destruct i as [|i], j as [|j]; simpl in *.
  - apply Qle_refl.
  - rewrite Forall_forall in Hf. apply Hf, nth_In. lia.
  - lia.
  - apply IH; [exact Hs|lia].
Qed.

Lemma sort_Q_nth_bounds (l : list Q) (i : nat) (L U : Q) :
  (i < List.length l)%nat -> Forall (fun x => L <= x <= U) l ->
  L <= nth i (sort_Q l) 0 <= U.
Proof.
  intros Hi Hf. rewrite Forall_forall in Hf. apply Hf.
  apply (Permutation_in _ (sort_Q_perm l)), nth_In. rewrite TunerProofs.sort_Q_length. exact Hi.
Qed.

(** [statistics.median] lies between the two middle elements of the sorted data. *)
Lemma median_between (l : list Q) :
  l <> [] -> exists m, median l = Ok m /\
    nth ((List.length l - 1) / 2) (sort_Q l) 0 <= m <= nth (List.length l / 2) (sort_Q l) 0.
Proof.
  intros Hne. unfold median. rewrite TunerProofs.sort_Q_length.
  pose proof (sort_Q_sorted l) as Hs.
  pose proof (TunerProofs.sort_Q_length l) as Hlen.
  destruct (List.length l) as [|n] eqn:E; [destruct l; [contradiction|discriminate]|].
  pose proof (Nat.div_mod (S n) 2 ltac:(lia)) as D1.
  pose proof (Nat.mod_upper_bound (S n) 2 ltac:(lia)) as M1.
  pose proof (Nat.div_mod (S n - 1) 2 ltac:(lia)) as D2.
  pose proof (Nat.mod_upper_bound (S n - 1) 2 ltac:(lia)) as M2.
  destruct (Nat.odd (S n)) eqn:Eo.
  - apply Nat.odd_spec in Eo as [k Hk].
    assert (Hm1 : (S n / 2 = k)%nat) by lia.
    assert (Hm2 : ((S n - 1) / 2 = k)%nat) by lia.
    eexists. split; [reflexivity|]. rewrite Hm1, Hm2. split; apply Qle_refl.
  - assert (Ev : Nat.even (S n) = true) by (rewrite <- Nat.negb_odd, Eo; reflexivity).
    apply Nat.even_spec in Ev as [k Hk].
    assert (Hm1 : (S n / 2 = k)%nat) by lia.
    assert (Hm2 : ((S n - 1) / 2 = k - 1)%nat) by lia.
    eexists. split; [reflexivity|]. rewrite Hm1, Hm2.
    assert (Hle : nth (k - 1) (sort_Q l) 0 <= nth k (sort_Q l) 0)
      by (apply sorted_nth_le; [exact Hs|lia]).
    unfold Qdiv. change (/ 2) with (1 # 2). split; lra.
Qed.

Lemma inject_Z_sub (x y : Z) : inject_Z (x - y) == inject_Z x - inject_Z y.
Proof. unfold Z.sub. rewrite inject_Z_plus, inject_Z_opp. reflexivity. Qed.

(** With at least 7 values: the first quartile of [statistics.quantiles(n=4)]
    and the median both lie within the data's range, the quartile below the
    median. *)
Lemma quartile_median_bounds (l : list Q) :
  (7 <= List.length l)%nat ->
  exists qs m, quantiles l 4 = Ok qs /\ median l = Ok m /\ nth 0 qs 0 <= m /\
    (forall L U, Forall (fun x => L <= x <= U) l -> L <= nth 0 qs 0 /\ m <= U).
Proof.
  intros H7.
  destruct (median_between l) as [m [Hm [Hm1 Hm2]]]; [intro E; rewrite E in H7; simpl in H7; lia|].
  unfold quantiles. rewrite TunerProofs.sort_Q_length.
  replace (4 <? 1)%Z with false by reflexivity.
  replace (Z.of_nat (List.length l) <? 2)%Z with false by (symmetry; apply Z.ltb_ge; lia).
  change (Z.to_nat (4 - 1)) with 3%nat.
  eexists. exists m. split; [reflexivity|]. split; [exact Hm|].
  cbn [seq map nth].
  set (n := List.length l) in *.
  pose proof (Z.div_mod (Z.of_nat n + 1) 4 ltac:(lia)) as Hdm.
  pose proof (Z.mod_pos_bound (Z.of_nat n + 1) 4 ltac:(lia)) as Hmb.
  pose proof (Nat.div_mod (n - 1) 2 ltac:(lia)) as D2.
  pose proof (Nat.mod_upper_bound (n - 1) 2 ltac:(lia)) as M2.
  replace ((Z.of_nat 0 + 1) * (Z.of_nat n + 1) / 4)%Z with ((Z.of_nat n + 1) / 4)%Z
    by (f_equal; lia).
  set (j := ((Z.of_nat n + 1) / 4)%Z) in *.
  replace (j <? 1)%Z with false by (symmetry; apply Z.ltb_ge; lia).
  replace (Z.of_nat n - 1 <? j)%Z with false by (symmetry; apply Z.ltb_ge; lia).
  set (delta := ((Z.of_nat 0 + 1) * (Z.of_nat n + 1) - j * 4)%Z).
  assert (Hd : (0 <= delta <= 4)%Z) by (unfold delta; lia).
  set (s := sort_Q l) in *.
  pose proof (sort_Q_sorted l) as Hs. fold s in Hs.
  assert (HAB : nth (Z.to_nat (j - 1)) s 0 <= nth (Z.to_nat j) s 0)
    by (apply sorted_nth_le; [exact Hs|unfold s; rewrite TunerProofs.sort_Q_length; lia]).
  assert (HBm : nth (Z.to_nat j) s 0 <= nth ((n - 1) / 2) s 0)
    by (apply sorted_nth_le; [exact Hs|unfold s; rewrite TunerProofs.sort_Q_length; lia]).
  assert (HA : forall L U, Forall (fun x => L <= x <= U) l -> L <= nth (Z.to_nat (j - 1)) s 0)
    by (intros L U Hb; exact (proj1 (sort_Q_nth_bounds l (Z.to_nat (j - 1)) L U ltac:(lia) Hb))).
  assert (HU : forall L U, Forall (fun x => L <= x <= U) l -> nth (n / 2) s 0 <= U)
    by (intros L U Hb; exact (proj2 (sort_Q_nth_bounds l (n / 2) L U
                                      ltac:(apply Nat.div_lt; lia) Hb))).
  change (inject_Z 4) with 4.
  assert (HD : 0 <= inject_Z delta <= 4).
  { rewrite <- (Zle_Qle 0), <- (Zle_Qle _ 4). lia. }
  set (A := nth (Z.to_nat (j - 1)) s 0) in *. set (B := nth (Z.to_nat j) s 0) in *.
  set (D := inject_Z delta) in *.
  assert (E4 : inject_Z (4 - delta) == 4 - D) by (unfold D; rewrite inject_Z_sub; reflexivity).
  assert (Q1 : (A * inject_Z (4 - delta) + B * D) / 4 == A + (B - A) * D / 4)
    by (rewrite E4; field).
  assert (P : 0 <= (B - A) * D / 4).
  { unfold Qdiv. apply Qmult_le_0_compat; [apply Qmult_le_0_compat; lra|discriminate]. }
  assert (P' : (B - A) * D <= (B - A) * 4) by nra.
  split; [|intros L U Hb; specialize (HA L U Hb); specialize (HU L U Hb); split];
    rewrite ?Q1; clear Q1; unfold Qdiv in *; change (/ 4) with (1 # 4) in *;
    set (X := (B - A) * D) in *; lra.
Qed.

(** [calculate_optimal_thresholds] never raises and never inverts the bands:
    it returns [(excellent, good)] with [excellent <= good]. With at least 7
    prices, both thresholds lie within the prices' range, each bound rounded to
    1 decimal as the thresholds are. *)
Theorem calculate_optimal_thresholds_range (prices : list Q) :
  exists e g, calculate_optimal_thresholds prices = Ok (e, g) /\ e <= g /\
    (forall L U, (7 <= List.length prices)%nat -> Forall (fun x => L <= x <= U) prices ->
       py_round_nd L 1 <= e /\ g <= py_round_nd U 1).
Proof.
  unfold calculate_optimal_thresholds.
  destruct (List.length prices <? 7)%nat eqn:E.
  - apply Nat.ltb_lt in E. exists 10, 15. split; [reflexivity|].
    split; [discriminate|]. intros L U H. lia.
  - apply Nat.ltb_ge in E.
    destruct (quartile_median_bounds prices E) as [qs [m [Hq [Hm [Hle Hb]]]]].
    rewrite Hq, Hm. cbn [bind].
    exists (py_round_nd (nth 0 qs 0) 1), (py_round_nd m 1). split; [reflexivity|].
    split; [apply py_round_nd_mono, Hle|].
    intros L U _ HLU. destruct (Hb L U HLU) as [H1 H2].
    split; apply py_round_nd_mono; assumption.
Qed.

Lemma fold_min_bounds (r : list Q) :
  forall acc, fold_left (fun m y => if Qlt_bool y m then y else m) r acc <= acc /\
    Forall (fun x => fold_left (fun m y => if Qlt_bool y m then y else m) r acc <= x) r.
Proof.
  induction r as [|y r IH]; intros acc; simpl; [split; [apply Qle_refl|constructor]|].
  destruct (Qlt_bool y acc) eqn:E.
  - apply Qlt_bool_true in E. destruct (IH y) as [H1 H2].
    split; [lra|constructor; [lra|exact H2]].
  - apply Qlt_bool_false in E. destruct (IH acc) as [H1 H2].
    split; [lra|constructor; [lra|exact H2]].
Qed.

Lemma fold_max_bounds (r : list Q) :
  forall acc, acc <= fold_left (fun m y => if Qlt_bool m y then y else m) r acc /\
    Forall (fun x => x <= fold_left (fun m y => if Qlt_bool m y then y else m) r acc) r.
Proof.
  induction r as [|y r IH]; intros acc; simpl; [split; [apply Qle_refl|constructor]|].
  destruct (Qlt_bool acc y) eqn:E.
  - apply Qlt_bool_true in E. destruct (IH y) as [H1 H2].
    split; [lra|constructor; [lra|exact H2]].
  - apply Qlt_bool_false in E. destruct (IH acc) as [H1 H2].
    split; [lra|constructor; [lra|exact H2]].
Qed.

Lemma py_min_max_bounds (x : Q) (r : list Q) :
  exists mn mx, py_min (x :: r) = Ok mn /\ py_max (x :: r) = Ok mx /\
    Forall (fun y => mn <= y <= mx) (x :: r).
Proof.
  destruct (fold_min_bounds r x) as [A1 A2]. destruct (fold_max_bounds r x) as [B1 B2].
  do 2 eexists. split; [reflexivity|]. split; [reflexivity|].
  constructor; [split; assumption|].
  rewrite Forall_forall in A2, B2 |- *. intros y Hy. split; [apply A2|apply B2]; exact Hy.
Qed.

Lemma len_Q_succ {A} (x : A) (l : list A) : len_Q (x :: l) == len_Q l + 1.
Proof.
  unfold len_Q. cbn [List.length]. rewrite Nat2Z.inj_succ, <- Z.add_1_r, inject_Z_plus.
  reflexivity.
Qed.

Lemma sum_Q_bounds (L U : Q) (l : list Q) :
  Forall (fun y => L <= y <= U) l -> L * len_Q l <= sum_Q l <= U * len_Q l.
Proof.
  induction l as [|x l IH]; intros H.
  - unfold len_Q, sum_Q. cbn [List.length fold_right].
    change (inject_Z (Z.of_nat 0)) with 0. clear H. lra.
  - inversion H as [|? ? Hx Hl]; subst. destruct (IH Hl) as [H1 H2]. clear H IH Hl.
    rewrite len_Q_succ. cbn [sum_Q fold_right]. fold (sum_Q l). nra.
Qed.

(** [statistics.mean] of a non-empty list lies between any bounds of its values. *)
Lemma statistics_mean_bounds (L U x : Q) (r : list Q) :
  Forall (fun y => L <= y <= U) (x :: r) ->
  exists mean, statistics_mean (x :: r) = Ok mean /\ L <= mean <= U.
Proof.
  intros H. eexists. split; [reflexivity|].
  destruct (sum_Q_bounds L U _ H) as [H1 H2].
  pose proof (TrackerProofs.len_Q_pos x r) as Hp.
  split; [apply Qle_shift_div_l|apply Qle_shift_div_r]; assumption.
Qed.

(** [get_recommended_thresholds] never raises. Without a file, without
    records, with fewer than 7 records since the cutoff or without any
    [avg_price] among them it returns [_default_thresholds()]. Otherwise it is
    not flagged as defaults, [days_analyzed] counts the records since the cutoff
    (at least 7), [min <= mean <= max] over their prices, the price thresholds
    are ordered and are either the (10, 15) fallback or within
    [[round(min, 1), round(max, 1)]], and the carbon thresholds are ordered. *)
Theorem get_recommended_thresholds_spec (recs : option (list Recommendation)) (cutoff : Z) :
  exists th, get_recommended_thresholds recs cutoff = Ok th /\
  (th = default_thresholds \/
   (th_using_defaults th = false /\
    (forall l, recs = Some l ->
       th_days_analyzed th = List.length (filter (fun r => (cutoff <=? rec_day r)%Z) l)) /\
    (7 <= th_days_analyzed th)%nat /\
    th_price_min th <= th_price_mean th <= th_price_max th /\
    th_price_excellent th <= th_price_good th /\
    ((th_price_excellent th = 10 /\ th_price_good th = 15) \/
     (py_round_nd (th_price_min th) 1 <= th_price_excellent th /\
      th_price_good th <= py_round_nd (th_price_max th) 1)) /\
    th_carbon_excellent th <= th_carbon_good th)).
Proof.
  unfold get_recommended_thresholds.
  destruct recs as [[|r0 rs]|]; [eexists; split; [reflexivity|left; reflexivity]| |
                                 eexists; split; [reflexivity|left; reflexivity]].
  set (recent := filter (fun r => (cutoff <=? rec_day r)%Z) (r0 :: rs)).
  destruct (List.length recent <? 7)%nat eqn:E7;
    [eexists; split; [reflexivity|left; reflexivity]|].
  apply Nat.ltb_ge in E7.
  set (min_prices := flat_map (fun r => match rec_avg_price r with Some p => [p] | None => [] end)
                       recent).
  destruct min_prices as [|p0 ps] eqn:Emp; [eexists; split; [reflexivity|left; reflexivity]|].
  destruct (TunerFacts.calculate_optimal_thresholds_range (p0 :: ps)) as [e [g [Hc [Heg Hb]]]].
  rewrite Hc. cbn [bind].
  set (cv := flat_map (fun r => match rec_avg_carbon r with Some c => [c] | None => [] end) recent).
  assert (Hcth : exists ce cg,
            (if (7 <=? List.length cv)%nat then
               qs <- quantiles cv 4 ;; m <- median cv ;;
               Ok (py_round_nd (nth 0 qs 0) 0, py_round_nd m 0)
             else Ok (100, 150)) = Ok (ce, cg) /\ ce <= cg).
  { destruct (7 <=? List.length cv)%nat eqn:Ec.
    - apply Nat.leb_le in Ec.
      destruct (quartile_median_bounds cv Ec) as [qs [m [Hq [Hm [Hle _]]]]].
      rewrite Hq, Hm. do 2 eexists. split; [reflexivity|]. apply py_round_nd_mono, Hle.
    - do 2 eexists. split; [reflexivity|]. discriminate. }
  destruct Hcth as [ce [cg [Hcv Hceg]]]. rewrite Hcv. cbn [bind].
  destruct (py_min_max_bounds p0 ps) as [mn [mx [Hmn [Hmx Hrange]]]].
  rewrite Hmn, Hmx. cbn [bind].
  destruct (statistics_mean_bounds mn mx p0 ps Hrange) as [mean [Hmean Hmb]].
  rewrite Hmean. cbn [bind].
  eexists. split; [reflexivity|right]. cbn.
  split; [reflexivity|]. split; [intros l El; injection El as <-; reflexivity|].
  split; [exact E7|]. split; [exact Hmb|]. split; [exact Heg|].
  split; [|exact Hceg].
  destruct (Nat.lt_ge_cases (List.length (p0 :: ps)) 7) as [Hl|Hl].
  - left. unfold calculate_optimal_thresholds in Hc.
    replace (List.length (p0 :: ps) <? 7)%nat with true in Hc
      by (symmetry; apply Nat.ltb_lt; exact Hl).
    injection Hc as <- <-. split; reflexivity.
  - right. apply (Hb mn mx Hl Hrange).
Qed.

End TunerFacts.

Module EvolutionFacts.
Import ForecastEvolution Fixtures.

Lemma insert_key_app_max {A} (key : A -> Z) (a x : A) (m : list A) :
  (key a < key x)%Z -> insert_key key a (m ++ [x]) = insert_key key a m ++ [x].
Proof.
  intros H. induction m as [|y m IH]; simpl.
  - replace (key a <=? key x)%Z with true by (symmetry; apply Z.leb_le; lia). reflexivity.
  - destruct (key a <=? key y)%Z; [reflexivity|]. rewrite IH. reflexivity.
Qed.

(** Sorting a list whose last element has the strictly largest key leaves that
    element last. *)
Lemma sort_key_app_max {A} (key : A -> Z) (l : list A) (x : A) :
  Forall (fun y => (key y < key x)%Z) l -> sort_key key (l ++ [x]) = sort_key key l ++ [x].
Proof.
  induction l as [|a l IH]; intros H; [reflexivity|].
  inversion H as [|? ? Ha Hl]; subst. simpl. rewrite IH by exact Hl.
  apply insert_key_app_max, Ha.
Qed.

Lemma dict_get_set_same (k : string) (v : TargetRecord) (d : Store) :
  dict_get k (dict_set k v d) = Some v.
Proof. rewrite SnapshotProofs.dict_get_set, String.eqb_refl. reflexivity. Qed.

(** After [record_snapshot] for a target dated today or later, when the target's
    earlier snapshots are all dated no later than today, [get_latest_snapshot]
    returns the snapshot just built, and the evolution summary's current savings
    are that snapshot's savings. *)
Theorem record_snapshot_latest today key target dc mae store :
  (today <= target)%Z ->
  (forall tr, dict_get key store = Some tr ->
     Forall (fun s => (snapshot_date s <= today)%Z) (snapshots tr)) ->
  get_latest_snapshot key (record_snapshot today key target dc mae store)
    = Some (make_snapshot today target dc mae) /\
  exists tr sm, get_evolution key (record_snapshot today key target dc mae store) = Some tr /\
    evolution_summary tr = Some sm /\
    current_savings_pct sm = predicted_savings_pct (make_snapshot today target dc mae).
Proof.
  intros Ht Hold. unfold record_snapshot.
  replace (target <? today)%Z with false by (symmetry; apply Z.ltb_ge; lia).
  set (old := match dict_get key store with
              | Some t => t
              | None => {| target_date := key; snapshots := [];
                           evolution_summary := None; actual_result := None |} end).
  assert (Hlt : Forall (fun s => (snapshot_date s < today)%Z)
                  (filter (fun s => negb (snapshot_date s =? today)%Z) (snapshots old))).
  { apply Forall_forall. intros s Hs. apply filter_In in Hs as [Hs Hn].
    apply negb_true_iff, Z.eqb_neq in Hn.
    assert (Hle : (snapshot_date s <= today)%Z).
    { unfold old in Hs. destruct (dict_get key store) as [t|] eqn:Et; [|destruct Hs].
      specialize (Hold t eq_refl). rewrite Forall_forall in Hold. apply Hold, Hs. }
    lia. }
  rewrite (sort_key_app_max snapshot_date _ (make_snapshot today target dc mae)) by exact Hlt.
  set (snaps := sort_key snapshot_date _ ++ [make_snapshot today target dc mae]).
  unfold get_latest_snapshot, get_evolution. rewrite dict_get_set_same. cbn [snapshots].
  split.
  - destruct snaps as [|s r] eqn:Es; [unfold snaps in Es; destruct (sort_key _ _); discriminate|].
    rewrite <- Es. unfold snaps. rewrite last_last. reflexivity.
  - unfold calculate_evolution_summary.
    destruct snaps as [|s r] eqn:Es; [unfold snaps in Es; destruct (sort_key _ _); discriminate|].
    do 2 eexists. split; [reflexivity|]. split; [reflexivity|]. cbn [current_savings_pct].
    rewrite <- Es. unfold snaps. rewrite last_last. reflexivity.
Qed.

(** Witness: a second snapshot, on day 107, for the target of day 110 first
    recorded on day 104. *)
Lemma record_snapshot_latest_witness :
  let store := record_snapshot 104 "2025-01-10" 110 dc_forecast None [] in
  ((104 <= 110)%Z /\
   forall tr, dict_get "2025-01-10" store = Some tr ->
     Forall (fun s => (snapshot_date s <= 107)%Z) (snapshots tr)) /\
  get_latest_snapshot "2025-01-10" (record_snapshot 107 "2025-01-10" 110 dc_actual (Some 2) store)
    = Some (make_snapshot 107 110 dc_actual (Some 2)) /\
  exists tr sm,
    get_evolution "2025-01-10" (record_snapshot 107 "2025-01-10" 110 dc_actual (Some 2) store)
      = Some tr /\
    evolution_summary tr = Some sm /\
    current_savings_pct sm = predicted_savings_pct (make_snapshot 107 110 dc_actual (Some 2)).
Proof.
  intros store.
  assert (H : forall tr, dict_get "2025-01-10" store = Some tr ->
            Forall (fun s => (snapshot_date s <= 107)%Z) (snapshots tr)).
  { intros tr E. vm_compute in E. injection E as <-. repeat constructor; discriminate. }
  split; [split; [lia|exact H]|].
  apply record_snapshot_latest; [lia|].
  intros tr E. specialize (H tr E). rewrite Forall_forall in H |- *.
  intros s Hs. specialize (H s Hs). lia.
Defined.

Lemma dict_set_keys (k : string) (v : TargetRecord) (d : Store) :
  map fst (dict_set k v d) =
  if existsb (String.eqb k) (map fst d) then map fst d else map fst d ++ [k].
Proof.
  induction d as [|[k0 v0] r IH]; [reflexivity|]. simpl.
  destruct (String.eqb k k0) eqn:E; simpl; [apply String.eqb_eq in E; subst; reflexivity|].
  rewrite IH. destruct (existsb (String.eqb k) (map fst r)); reflexivity.
Qed.

(** [get_all_tracked_dates] after [record_snapshot]: a past target changes
    nothing; a target already tracked keeps its place; a new target is appended
    after the others (dict insertion order). *)
Theorem record_snapshot_tracked_dates today key target dc mae store :
  get_all_tracked_dates (record_snapshot today key target dc mae store) =
  if (target <? today)%Z then get_all_tracked_dates store
  else if existsb (String.eqb key) (get_all_tracked_dates store) then get_all_tracked_dates store
  else get_all_tracked_dates store ++ [key].
Proof.
  unfold record_snapshot, get_all_tracked_dates.
  destruct (target <? today)%Z; [reflexivity|]. apply dict_set_keys.
Qed.

Lemma record_snapshot_keeps_record today k' target dc mae store k tr :
  dict_get k store = Some tr ->
  exists tr', dict_get k (record_snapshot today k' target dc mae store) = Some tr' /\
    target_date tr' = target_date tr /\ actual_result tr' = actual_result tr.
Proof.
  intros E. unfold record_snapshot.
  destruct (target <? today)%Z; [exists tr; auto|].
  rewrite SnapshotProofs.dict_get_set. destruct (String.eqb k k') eqn:Ek; [|exists tr; auto].
  apply String.eqb_eq in Ek. subst k'. rewrite E. eexists. split; [reflexivity|]. auto.
Qed.

Lemma run_snapshots_keeps_record calls :
  forall store k tr, dict_get k store = Some tr ->
  exists tr', dict_get k (run_snapshots calls store) = Some tr' /\
    target_date tr' = target_date tr /\ actual_result tr' = actual_result tr.
Proof.
  induction calls as [|c r IH]; intros store k tr E; [exists tr; auto|].
  simpl. destruct (record_snapshot_keeps_record (call_today c) (call_key c) (call_target c)
                     (call_dc c) (call_mae c) store k tr E) as [t1 [E1 [D1 A1]]].
  destruct (IH _ k t1 E1) as [t2 [E2 [D2 A2]]].
  exists t2. split; [exact E2|]. split; congruence.
Qed.

(** [record_actual_result] on a tracked target stores [(actual_cost,
    actual_avg_price)] and keeps its snapshots and summary; the result then
    survives every later [record_snapshot] call, for that target or any other. *)
Theorem record_actual_result_persists key c p store tr calls :
  dict_get key store = Some tr ->
  get_evolution key (record_actual_result key c p store)
    = Some {| target_date := target_date tr; snapshots := snapshots tr;
              evolution_summary := evolution_summary tr; actual_result := Some (c, p) |} /\
  exists tr', get_evolution key (run_snapshots calls (record_actual_result key c p store)) = Some tr' /\
    target_date tr' = target_date tr /\ actual_result tr' = Some (c, p).
Proof.
  intros E.
  assert (E0 : dict_get key (record_actual_result key c p store)
               = Some {| target_date := target_date tr; snapshots := snapshots tr;
                         evolution_summary := evolution_summary tr;
                         actual_result := Some (c, p) |}).
  { unfold record_actual_result. rewrite E. apply dict_get_set_same. }
  split; [exact E0|].
  destruct (run_snapshots_keeps_record calls _ key _ E0) as [t [Et [Dt At]]].
  exists t. split; [exact Et|]. split; assumption.
Qed.

(** Witness: the actual result of the target of day 110, then the rest of the
    snapshot calls of [evolution_calls]. *)
Lemma record_actual_result_persists_witness :
  let store := run_snapshots (firstn 3 evolution_calls) [] in
  exists tr, dict_get "2025-01-10" store = Some tr /\
  get_evolution "2025-01-10" (record_actual_result "2025-01-10" 3 9 store)
    = Some {| target_date := target_date tr; snapshots := snapshots tr;
              evolution_summary := evolution_summary tr; actual_result := Some (3, 9) |} /\
  exists tr', get_evolution "2025-01-10"
                (run_snapshots (skipn 3 evolution_calls) (record_actual_result "2025-01-10" 3 9 store))
                = Some tr' /\
    target_date tr' = target_date tr /\ actual_result tr' = Some (3, 9).
Proof.
  intros store.
  destruct (dict_get "2025-01-10" store) as [tr|] eqn:E; [|vm_compute in E; discriminate E].
  exists tr. split; [reflexivity|].
  apply record_actual_result_persists, E.
Defined.

Lemma rev_last_two {A} (l : list A) (prev latest : A) :
  rev (l ++ [prev; latest]) = latest :: prev :: rev l.
Proof. rewrite rev_app_distr. reflexivity. Qed.

(** [detect_significant_change] reads the last two snapshots of a tracked
    target: with fewer than two (or none tracked) it reports nothing; otherwise
    it reports a change exactly when their savings differ by at least 10
    points, with the two savings and dates, the drift [current - previous],
    and the direction "improved" for a positive drift, "worsened" for a
    negative one. *)
Theorem detect_significant_change_spec (key : string) (store : Store) :
  ((forall tr, dict_get key store = Some tr -> (List.length (snapshots tr) < 2)%nat) ->
     detect_significant_change key store = None) /\
  (forall tr l prev latest,
     dict_get key store = Some tr -> snapshots tr = l ++ [prev; latest] ->
     let drift := predicted_savings_pct latest - predicted_savings_pct prev in
     (Qabs drift < 10 -> detect_significant_change key store = None) /\
     (10 <= Qabs drift ->
        exists ch, detect_significant_change key store = Some ch /\
          ch_previous_savings_pct ch = predicted_savings_pct prev /\
          ch_current_savings_pct ch = predicted_savings_pct latest /\
          ch_savings_drift ch = drift /\
          ch_previous_snapshot_date ch = snapshot_date prev /\
          ch_current_snapshot_date ch = snapshot_date latest /\
          (ch_drift_direction ch = "improved" <-> 0 < drift) /\
          (ch_drift_direction ch = "worsened" <-> drift < 0))).
Proof.
  unfold detect_significant_change, get_evolution. split.
  - intros H. destruct (dict_get key store) as [tr|]; [|reflexivity].
    replace (List.length (snapshots tr) <? 2)%nat with true
      by (symmetry; apply Nat.ltb_lt, H; reflexivity).
    reflexivity.
  - intros tr l prev latest E Es. rewrite E, Es.
    replace (List.length (l ++ [prev; latest]) <? 2)%nat with false
      by (symmetry; apply Nat.ltb_ge; rewrite length_app; simpl; lia).
    rewrite rev_last_two. cbv beta iota zeta. unfold SIGNIFICANT_CHANGE_THRESHOLD.
    set (drift := predicted_savings_pct latest - predicted_savings_pct prev). split.
    + intros Hd. destruct (Qle_bool 10 (Qabs drift)) eqn:Eb; [|reflexivity].
      apply Qle_bool_iff in Eb. lra.
    + intros Hd. replace (Qle_bool 10 (Qabs drift)) with true by (symmetry; apply Qle_bool_iff, Hd).
      eexists. split; [reflexivity|]. cbn.
      do 5 (split; [reflexivity|]).
      destruct (Qlt_bool 0 drift) eqn:Ed.
      * apply Qlt_bool_true in Ed.
        split; split; intros Hx; first [reflexivity | discriminate | lra | exfalso; lra].
      * apply Qlt_bool_false in Ed. pose proof (Qabs_neg drift Ed) as Ha.
        split; split; intros Hx; first [reflexivity | discriminate | lra | exfalso; lra].
Qed.

Lemma detect_significant_change_some (key : string) (store : Store) (ch : Change) :
  detect_significant_change key store = Some ch ->
  10 <= Qabs (ch_savings_drift ch) /\
  ch_drift_direction ch = if Qlt_bool 0 (ch_savings_drift ch) then "improved" else "worsened".
Proof.
  unfold detect_significant_change, get_evolution.
  destruct (dict_get key store) as [tr|]; [|discriminate].
  destruct (List.length (snapshots tr) <? 2)%nat; [discriminate|].
  destruct (rev (snapshots tr)) as [|latest [|prev r]]; try discriminate.
  unfold SIGNIFICANT_CHANGE_THRESHOLD.
  destruct (Qle_bool 10 _) eqn:E; [|discriminate].
  intros H. injection H as <-. cbn. split; [apply Qle_bool_iff, E|reflexivity].
Qed.

(** The alert formatted for a change reported by [detect_significant_change]
    has the change's direction in its title and priority 0 exactly for an
    improvement (1 otherwise); its advice line suggests charging earlier when
    savings fell by more than 10 points, waiting when they rose by more than 10,
    and is absent exactly when the drift is exactly 10 points either way. *)
Theorem format_evolution_alert_spec (key : string) (store : Store) (ch : Change) :
  detect_significant_change key store = Some ch ->
  alert_direction (format_evolution_alert ch) = ch_drift_direction ch /\
  (alert_priority (format_evolution_alert ch) = 0%Z <-> ch_drift_direction ch = "improved") /\
  (alert_advice (format_evolution_alert ch) = Some "Charging earlier may be better" <->
     ch_savings_drift ch < -10) /\
  (alert_advice (format_evolution_alert ch) = Some "Waiting is now more attractive" <->
     10 < ch_savings_drift ch) /\
  (alert_advice (format_evolution_alert ch) = None <-> Qabs (ch_savings_drift ch) == 10).
Proof.
  intros H. destruct (detect_significant_change_some key store ch H) as [Hd Hdir].
  unfold format_evolution_alert. rewrite Hdir.
  set (d := ch_savings_drift ch) in *.
  assert (Habs : Qabs d == d \/ Qabs d == - d).
  { destruct (Qlt_le_dec d 0) as [Hn|Hp];
      [right; apply Qabs_neg; lra|left; apply Qabs_pos; exact Hp]. }
  destruct (Qlt_bool 0 d) eqn:E0; [apply Qlt_bool_true in E0|apply Qlt_bool_false in E0];
  cbn [alert_direction alert_priority alert_advice];
  (split; [reflexivity|]);
  (split; [split; intros Hx; first [reflexivity | discriminate | exfalso; discriminate Hx]|]);
  destruct (Qlt_bool d (-10)) eqn:E1; [apply Qlt_bool_true in E1|apply Qlt_bool_false in E1|
                                        apply Qlt_bool_true in E1|apply Qlt_bool_false in E1];
  try (destruct (Qlt_bool 10 d) eqn:E2; [apply Qlt_bool_true in E2|apply Qlt_bool_false in E2]);
  repeat split; intros Hx; first [reflexivity | discriminate | lra | exfalso; lra].
Qed.

(** Witness: two snapshots whose savings fall from 25% to 5%. *)
Lemma format_evolution_alert_spec_witness :
  let s1 := {| snapshot_date := 100; days_until_target := 10; price_source := "forecast";
               predicted_avg_price := 12; predicted_cost := 4; predicted_savings_pct := 25;
               snap_rating := "GOOD"; confidence_score := 60 |} in
  let s2 := {| snapshot_date := 104; days_until_target := 6; price_source := "forecast";
               predicted_avg_price := 15; predicted_cost := 5; predicted_savings_pct := 5;
               snap_rating := "AVERAGE"; confidence_score := 70 |} in
  let store := [("2025-01-10", {| target_date := "2025-01-10"; snapshots := [s1; s2];
                                  evolution_summary := None; actual_result := None |})] in
  exists ch, detect_significant_change "2025-01-10" store = Some ch /\
  alert_direction (format_evolution_alert ch) = ch_drift_direction ch /\
  (alert_priority (format_evolution_alert ch) = 0%Z <-> ch_drift_direction ch = "improved") /\
  (alert_advice (format_evolution_alert ch) = Some "Charging earlier may be better" <->
     ch_savings_drift ch < -10) /\
  (alert_advice (format_evolution_alert ch) = Some "Waiting is now more attractive" <->
     10 < ch_savings_drift ch) /\
  (alert_advice (format_evolution_alert ch) = None <-> Qabs (ch_savings_drift ch) == 10).
Proof.
  intros s1 s2 store. eexists. split; [vm_compute; reflexivity|].
  apply (format_evolution_alert_spec "2025-01-10" store). vm_compute. reflexivity.
Defined.

Section SortQDesc.
Context {A : Type} (key : A -> Q).

Lemma insert_keyQ_desc_perm (x : A) (l : list A) :
  Permutation (insert_keyQ_desc key x l) (x :: l).
Proof.
  induction l as [|y r IH]; simpl; [reflexivity|].
  destruct (Qle_bool (key y) (key x)); [reflexivity|].
  etransitivity; [apply perm_skip, IH|apply perm_swap].
Qed.

Lemma sort_keyQ_desc_perm (l : list A) : Permutation (sort_keyQ_desc key l) l.
Proof.
  induction l as [|x r IH]; simpl; [reflexivity|].
  etransitivity; [apply insert_keyQ_desc_perm|apply perm_skip, IH].
Qed.

Lemma insert_keyQ_desc_sorted (x : A) (l : list A) :
  Sorted (fun a b => key b <= key a) l ->
  Sorted (fun a b => key b <= key a) (insert_keyQ_desc key x l).
Proof.
  induction l as [|y r IH]; simpl; intros Hs; [repeat constructor|].
  apply Sorted_inv in Hs as [Hs Hh].
  destruct (Qle_bool (key y) (key x)) eqn:E.
  - apply Qle_bool_iff in E. constructor; [constructor; assumption|]. constructor. exact E.
  - assert (E' : key x < key y)
      by (apply Qnot_le_lt; intro H'; apply Qle_bool_iff in H'; congruence).
    constructor; [apply IH, Hs|].
    destruct r as [|z r]; simpl; [constructor; lra|].
    destruct (Qle_bool (key z) (key x)); constructor; [lra|]. inversion Hh; assumption.
Qed.

Lemma sort_keyQ_desc_sorted (l : list A) :
  Sorted (fun a b => key b <= key a) (sort_keyQ_desc key l).
Proof.
  induction l as [|x r IH]; simpl; [constructor|]. apply insert_keyQ_desc_sorted, IH.
Qed.

End SortQDesc.

(** [get_forecasts_with_drift(min_drift)] lists exactly the targets that have a
    summary whose drift is at least [min_drift] in absolute value, each with its
    summary's figures and snapshot count, ordered by absolute drift, largest
    first. *)
Theorem get_forecasts_with_drift_spec (min_drift : Q) (store : Store) :
  Sorted (fun a b => Qabs (dr_savings_drift b) <= Qabs (dr_savings_drift a))
    (get_forecasts_with_drift min_drift store) /\
  (forall e, In e (get_forecasts_with_drift min_drift store) <->
     exists k data sm, In (k, data) store /\ evolution_summary data = Some sm /\
       min_drift <= Qabs (savings_drift sm) /\
       e = {| dr_target_date := k; dr_initial_savings_pct := initial_savings_pct sm;
              dr_current_savings_pct := current_savings_pct sm;
              dr_savings_drift := savings_drift sm;
              dr_num_snapshots := List.length (snapshots data) |}).
Proof.
  unfold get_forecasts_with_drift. split; [apply sort_keyQ_desc_sorted|].
  intros e. split.
  - intros Hin. apply (Permutation_in _ (sort_keyQ_desc_perm _ _)) in Hin.
    apply in_flat_map in Hin as [[k data] [Hkd Hin]].
    destruct (evolution_summary data) as [sm|] eqn:Es; [|destruct Hin].
    destruct (Qle_bool min_drift (Qabs (savings_drift sm))) eqn:Eq; [|destruct Hin].
    destruct Hin as [<-|[]]. exists k, data, sm.
    split; [exact Hkd|]. split; [exact Es|]. split; [apply Qle_bool_iff, Eq|reflexivity].
  - intros [k [data [sm [Hkd [Es [Hq ->]]]]]].
    apply (Permutation_in _ (Permutation_sym (sort_keyQ_desc_perm _ _))).
    apply in_flat_map. exists (k, data). split; [exact Hkd|].
    rewrite Es. replace (Qle_bool min_drift (Qabs (savings_drift sm))) with true
      by (symmetry; apply Qle_bool_iff, Hq).
    left. reflexivity.
Qed.

Lemma filter_length_split {A} (f g : A -> bool) (l : list A) :
  (forall x, g x = negb (f x)) ->
  (List.length (filter f l) + List.length (filter g l) = List.length l)%nat.
Proof.
  intros Hg. induction l as [|x l IH]; [reflexivity|]. simpl. rewrite Hg.
  destruct (f x); simpl; lia.
Qed.

Lemma dict_get_filter_key (g : string -> bool) (k : string) (store : Store) :
  dict_get k (filter (fun '(k', _) => g k') store) = if g k then dict_get k store else None.
Proof.
  induction store as [|[k0 v0] r IH]; [destruct (g k); reflexivity|].
  cbn [filter dict_get]. destruct (String.eqb k k0) eqn:Ek.
  - apply String.eqb_eq in Ek. subst k0.
    destruct (g k); cbn [dict_get]; [rewrite String.eqb_refl; reflexivity|exact IH].
  - destruct (g k0); cbn [dict_get]; [rewrite Ek|]; exact IH.
Qed.

(** [cleanup_old_data] keeps, in order, exactly the targets dated on or after
    the cutoff: the count it returns is the number of targets dated before the
    cutoff, the count plus the kept entries make up the whole store, and a
    lookup in the kept store finds what the old store held for targets on or
    after the cutoff and nothing for the others. *)
Theorem cleanup_old_data_spec (target_day : string -> Z) (cutoff : Z) (store : Store) :
  let '(removed, kept) := cleanup_old_data target_day cutoff store in
  removed = List.length (filter (fun '(k, _) => (target_day k <? cutoff)%Z) store) /\
  (removed + List.length kept = List.length store)%nat /\
  (forall k, dict_get k kept = if (cutoff <=? target_day k)%Z then dict_get k store else None).
Proof.
  unfold cleanup_old_data.
  assert (Hs : (List.length (filter (fun '(k, _) => (cutoff <=? target_day k)%Z) store)
                + List.length (filter (fun '(k, _) => (target_day k <? cutoff)%Z) store)
                = List.length store)%nat).
  { apply filter_length_split. intros [k v]. destruct (cutoff <=? target_day k)%Z eqn:E;
      [apply Z.leb_le in E|apply Z.leb_gt in E];
      [apply Z.ltb_ge|apply Z.ltb_lt]; lia. }
  split; [lia|]. split; [lia|].
  intros k. apply (dict_get_filter_key (fun k' => (cutoff <=? target_day k')%Z)).
Qed.

End EvolutionFacts.

Module TrackerFacts.
Import ForecastTracker.

(** The running minimum of [min()] keeps any property shared by the start value
    and the list. *)
Lemma fold_min_keeps (P : Q -> Prop) (r : list Q) :
  forall acc, P acc -> Forall P r ->
  P (fold_left (fun m y => if Qlt_bool y m then y else m) r acc).
Proof.
  induction r as [|y r IH]; intros acc Ha Hr; simpl; [exact Ha|].
  inversion Hr; subst. apply IH; [|assumption].
  destruct (Qlt_bool y acc); assumption.
Qed.

Lemma sum_Q_diff (a f : list Q) :
  List.length a = List.length f ->
  sum_Q (map (fun '(ac, fc) => ac - fc) (combine a f)) == sum_Q a - sum_Q f.
Proof.
  revert f. induction a as [|x a IH]; intros [|y f] H; try discriminate.
  - unfold sum_Q. simpl. lra.
  - cbn [combine map]. unfold sum_Q in *. cbn [fold_right].
    rewrite IH by (simpl in H; lia). lra.
Qed.

Lemma sum_sq_diff (x : Q) (l : list Q) :
  sum_Q (map (fun y => (x - y) * (x - y)) l) ==
  len_Q l * (x * x) + sum_Q (map (fun y => y * y) l) - 2 * x * sum_Q l.
Proof.
  induction l as [|y l IH].
  - unfold sum_Q, len_Q. simpl. ring.
  - rewrite TunerFacts.len_Q_succ. unfold sum_Q in *. cbn [map fold_right].
    rewrite IH. ring.
Qed.

Lemma sum_sq_nonneg (x : Q) (l : list Q) :
  0 <= sum_Q (map (fun y => (x - y) * (x - y)) l).
Proof.
  induction l as [|y l IH]; unfold sum_Q in *; cbn [map fold_right]; [lra|].
  assert (0 <= (x - y) * (x - y)).
  { destruct (Qlt_le_dec (x - y) 0) as [Hn|Hp].
    - setoid_replace ((x - y) * (x - y)) with ((y - x) * (y - x)) by ring.
      apply Qmult_le_0_compat; lra.
    - apply Qmult_le_0_compat; lra. }
  lra.
Qed.

(** [(sum l)^2 <= len l * sum (l^2)]. *)
Lemma sum_Q_sq_le (l : list Q) :
  sum_Q l * sum_Q l <= len_Q l * sum_Q (map (fun y => y * y) l).
Proof.
  induction l as [|x l IH].
  - unfold sum_Q, len_Q. simpl. lra.
  - rewrite TunerFacts.len_Q_succ. unfold sum_Q in *. cbn [map fold_right].
    pose proof (sum_sq_diff x l) as E. pose proof (sum_sq_nonneg x l) as N.
    unfold sum_Q in E, N. nra.
Qed.

Lemma sum_Q_abs_sq (l : list Q) :
  sum_Q (map (fun y => y * y) (map Qabs l)) == sum_Q (map (fun y => y * y) l).
Proof.
  induction l as [|x l IH]; [reflexivity|].
  unfold sum_Q in *. cbn [map fold_right]. rewrite IH.
  apply Qabs_case; intros _; lra.
Qed.

Lemma len_Q_map {A B} (g : A -> B) (l : list A) : len_Q (map g l) = len_Q l.
Proof. unfold len_Q. rewrite length_map. reflexivity. Qed.

Lemma comparison_metrics_ok_inv (d : Z) (forecast actual : list Q) (source : string)
  (m : Comparison) :
  comparison_metrics d forecast actual source = Ok m ->
  exists x f y a, forecast = x :: f /\ actual = y :: a /\ List.length f = List.length a.
Proof.
  unfold comparison_metrics.
  destruct (List.length forecast =? List.length actual)%nat eqn:E;
    cbn [negb]; [|intros H; discriminate H].
  apply Nat.eqb_eq in E.
  destruct forecast as [|x f], actual as [|y a]; try discriminate E.
  - intros H. simpl in H. discriminate H.
  - intros _. exists x, f, y, a. simpl in E. repeat split; lia.
Qed.

(** [_save_comparison] when the new comparison is at least as recent as every
    stored one: it comes first, and the others are strictly older. *)
Lemma insert_key_desc_max {A} (key : A -> Z) (x : A) (l : list A) :
  Forall (fun y => (key y <= key x)%Z) l -> insert_key_desc key x l = x :: l.
Proof.
  intros H. destruct l as [|y r]; [reflexivity|]. simpl.
  inversion H; subst. replace (key y <=? key x)%Z with true by (symmetry; apply Z.leb_le; assumption).
  reflexivity.
Qed.

Lemma insert_key_desc_perm {A} (key : A -> Z) (x : A) (l : list A) :
  Permutation (insert_key_desc key x l) (x :: l).
Proof.
  induction l as [|y r IH]; simpl; [reflexivity|].
  destruct (key y <=? key x)%Z; [reflexivity|].
  etransitivity; [apply perm_skip, IH|apply perm_swap].
Qed.

Lemma sort_key_desc_perm {A} (key : A -> Z) (l : list A) :
  Permutation (sort_key_desc key l) l.
Proof.
  induction l as [|x r IH]; simpl; [reflexivity|].
  etransitivity; [apply insert_key_desc_perm|apply perm_skip, IH].
Qed.

Lemma sort_key_desc_app_max {A} (key : A -> Z) (x : A) (l : list A) :
  Forall (fun y => (key y < key x)%Z) l ->
  sort_key_desc key (l ++ [x]) = x :: sort_key_desc key l.
Proof.
  induction l as [|y r IH]; intros H; [reflexivity|].
  inversion H; subst. cbn [app sort_key_desc]. rewrite IH by assumption.
  simpl. replace (key x <=? key y)%Z with false by (symmetry; apply Z.leb_gt; lia).
  reflexivity.
Qed.

Lemma py_slice_0 {A} (l : list A) (k : Z) :
  (0 <= k)%Z -> py_slice l 0 k = firstn (Z.to_nat k) l.
Proof.
  intros Hk. pose proof (AnalyzerFacts.py_slice_from l 0 k ltac:(lia) Hk) as E.
  simpl in E. exact E.
Qed.

Lemma in_firstn_in {A} (n : nat) (l : list A) (x : A) : In x (firstn n l) -> In x l.
Proof. intros H. rewrite <- (firstn_skipn n l). apply in_or_app. left. exact H. Qed.

Lemma save_comparison_firstn (m : Comparison) (stored : list Comparison) :
  save_comparison m stored =
  firstn 90 (sort_key_desc cmp_date
    (filter (fun c => negb (cmp_date c =? cmp_date m)%Z) stored ++ [m])).
Proof. unfold save_comparison. rewrite py_slice_0 by lia. reflexivity. Qed.

Lemma save_comparison_newest (m : Comparison) (stored : list Comparison) :
  Forall (fun c => (cmp_date c <= cmp_date m)%Z) stored ->
  exists rest, save_comparison m stored = m :: rest /\
    Forall (fun c => (cmp_date c < cmp_date m)%Z) rest.
Proof.
  intros H. rewrite save_comparison_firstn.
  set (kept := filter _ stored).
  assert (Hk : Forall (fun c => (cmp_date c < cmp_date m)%Z) kept).
  { apply Forall_forall. intros c Hc. apply filter_In in Hc as [Hin Hne].
    rewrite Forall_forall in H. specialize (H c Hin).
    apply negb_true_iff, Z.eqb_neq in Hne. lia. }
  rewrite sort_key_desc_app_max by exact Hk.
  exists (firstn 89 (sort_key_desc cmp_date kept)). split; [reflexivity|].
  apply Forall_forall. intros c Hc. apply in_firstn_in in Hc.
  apply (Permutation_in _ (sort_key_desc_perm cmp_date kept)) in Hc.
  rewrite Forall_forall in Hk. apply Hk, Hc.
Qed.

Lemma NoDup_map_filter {A B} (g : A -> B) (p : A -> bool) (l : list A) :
  NoDup (map g l) -> NoDup (map g (filter p l)).
Proof.
  induction l as [|x r IH]; simpl; intros H; [constructor|].
  inversion H; subst. destruct (p x); [|apply IH; assumption].
  simpl. constructor; [|apply IH; assumption].
  intros Hin. apply in_map_iff in Hin as [y [Ey Hy]]. apply filter_In in Hy as [Hy _].
  apply H2. rewrite <- Ey. apply in_map, Hy.
Qed.

(** [get_recent_accuracy] never raises, and reports no MAE only when it counts
    no comparison. *)
Lemma get_recent_accuracy_ok (comparisons : list Comparison) (days : Z) :
  exists st, get_recent_accuracy comparisons days = Ok st /\
    (recent_mae st = None -> num_comparisons st = 0%nat).
Proof.
  unfold get_recent_accuracy. destruct comparisons as [|c cs].
  - eexists. split; [reflexivity|]. reflexivity.
  - destruct (py_slice (sort_key_desc cmp_date (c :: cs)) 0 days) as [|r0 rs].
    + eexists. split; [reflexivity|]. reflexivity.
    + cbv beta iota zeta. rewrite !TrackerProofs.py_div_len_map_cons.
      set (maes := map mean_absolute_error (r0 :: rs)).
      assert (Hlm : List.length maes = List.length (r0 :: rs)) by apply length_map.
      destruct (7 <=? List.length (r0 :: rs))%nat eqn:E7.
      * apply Nat.leb_le in E7. rewrite TrackerProofs.py_slice_first7 by lia.
        rewrite (TrackerProofs.py_div_len_7 _ (firstn 7 maes)) by (rewrite length_firstn; lia).
        destruct (if (14 <=? List.length maes)%nat then py_slice maes 7 14
                  else py_slice maes 7 (Z.of_nat (List.length maes))) as [|o os].
        -- cbn [bind]. eexists. split; [reflexivity|]. discriminate.
        -- rewrite py_div_len_cons. cbn [bind]. eexists. split; [reflexivity|]. discriminate.
      * cbn [bind]. eexists. split; [reflexivity|]. discriminate.
Qed.

(** [record_comparison] raises ValueError("Price lists must be same
    length") when the forecast and actual lists differ in length, and
    ZeroDivisionError when both are empty. *)
Theorem record_comparison_errors (date : Z) (forecast actual : list Q) (source : string)
  (stored : list Comparison) :
  (List.length forecast <> List.length actual ->
   record_comparison date forecast actual source stored =
     Err (ValueError "Price lists must be same length")) /\
  (forecast = [] -> actual = [] ->
   record_comparison date forecast actual source stored = Err ZeroDivisionError).
Proof.
  split.
  - intros H. unfold record_comparison, comparison_metrics.
    replace (List.length forecast =? List.length actual)%nat with false
      by (symmetry; apply Nat.eqb_neq; exact H).
    reflexivity.
  - intros -> ->. reflexivity.
Qed.

(** The metrics [record_comparison] returns satisfy
    [0 <= min_error <= MAE <= max_error], [mean_error = actual_avg - forecast_avg],
    [MAE^2 <= mean squared error] (so MAE <= RMSE), and [num_hours] is the number
    of forecast prices. *)
Theorem record_comparison_metrics_bounds (date : Z) (forecast actual : list Q)
  (source : string) (stored : list Comparison) (m : Comparison)
  (stored' : list Comparison) :
  record_comparison date forecast actual source stored = Ok (m, stored') ->
  cmp_date m = date /\ num_hours m = List.length forecast /\
  0 <= min_error m /\ min_error m <= mean_absolute_error m /\
  mean_absolute_error m <= max_error m /\
  mean_error m == actual_avg m - forecast_avg m /\
  mean_absolute_error m * mean_absolute_error m <= mean_squared_error m.
Proof.
  unfold record_comparison.
  destruct (comparison_metrics date forecast actual source) as [m0|e] eqn:Em; [|discriminate].
  cbn [bind]. intros Hok. injection Hok as <- _.
  destruct (comparison_metrics_ok_inv _ _ _ _ _ Em) as (x & f & y & a & -> & -> & Hlen).
  revert Em. unfold comparison_metrics.
  replace (List.length (x :: f) =? List.length (y :: a))%nat with true
    by (symmetry; apply Nat.eqb_eq; simpl; lia).
  cbn [negb combine map].
  set (es := map (fun '(ac, fc) => ac - fc) (combine a f)).
  rewrite !py_div_len_cons. cbn [bind].
  destruct (TunerFacts.py_min_max_bounds (Qabs (y - x)) (map Qabs es)) as (mn & mx & Emn & Emx & Hb).
  rewrite Emx, Emn. cbn [bind]. intros Hok. injection Hok as <-.
  cbn [cmp_date num_hours min_error max_error mean_absolute_error mean_error
       actual_avg forecast_avg mean_squared_error].
  assert (Hn : 0 < len_Q (Qabs (y - x) :: map Qabs es)) by apply TrackerProofs.len_Q_pos.
  split; [reflexivity|]. split; [reflexivity|].
  split.
  { (* the minimum is one of the absolute errors *)
    assert (Emn' : mn = fold_left (fun m y => if Qlt_bool y m then y else m)
                          (map Qabs es) (Qabs (y - x))).
    { change (Ok (fold_left (fun m y => if Qlt_bool y m then y else m)
                    (map Qabs es) (Qabs (y - x))) = Ok mn) in Emn. congruence. }
    rewrite Emn'. apply fold_min_keeps; [apply Qabs_nonneg|].
    apply Forall_forall. intros z Hz. apply in_map_iff in Hz as [w [<- _]]. apply Qabs_nonneg. }
  pose proof (TunerFacts.sum_Q_bounds mn mx _ Hb) as [Hlo Hhi].
  split; [apply Qle_shift_div_l; [exact Hn|exact Hlo]|].
  split; [apply Qle_shift_div_r; [exact Hn|exact Hhi]|].
  assert (Hlf : len_Q (y - x :: es) = len_Q (x :: f)).
  { unfold len_Q. f_equal. f_equal. simpl. unfold es. rewrite length_map, length_combine. lia. }
  assert (Hla : len_Q (x :: f) = len_Q (y :: a)).
  { unfold len_Q. simpl. rewrite Hlen. reflexivity. }
  split.
  - pose proof (sum_Q_diff (y :: a) (x :: f) ltac:(simpl; lia)) as D.
    cbn [combine map] in D. fold es in D.
    rewrite Hlf, Hla.
    assert (Hx : 0 < len_Q (y :: a)) by apply TrackerProofs.len_Q_pos.
    assert (E : sum_Q (y - x :: es) / len_Q (y :: a) ==
                (sum_Q (y :: a) - sum_Q (x :: f)) / len_Q (y :: a))
      by (unfold Qdiv; apply Qmult_comp; [exact D|apply Qeq_refl]).
    apply (Qeq_trans _ _ _ E).
    change (sum_Q (y :: a)) with (y + sum_Q a). change (sum_Q (x :: f)) with (x + sum_Q f).
    revert Hx. generalize (len_Q (y :: a)).
    intros n Hx. field. lra.
  - set (ab := map Qabs (y - x :: es)).
    set (sq := map (fun e => e * e) (y - x :: es)).
    assert (C : sum_Q ab * sum_Q ab <= len_Q (y - x :: es) * sum_Q sq).
    { pose proof (sum_Q_sq_le ab) as C. unfold ab in C at 3. rewrite len_Q_map in C.
      assert (E2 : len_Q (y - x :: es) * sum_Q (map (fun y => y * y) ab) ==
                   len_Q (y - x :: es) * sum_Q sq)
        by (apply Qmult_comp; [apply Qeq_refl|apply sum_Q_abs_sq]).
      revert C E2. generalize (sum_Q ab * sum_Q ab) (len_Q (y - x :: es) * sum_Q sq)
        (len_Q (y - x :: es) * sum_Q (map (fun y => y * y) ab)).
      intros u v w C E2. lra. }
    assert (Hn' : 0 < len_Q (y - x :: es)) by apply TrackerProofs.len_Q_pos.
    assert (G : sum_Q ab / len_Q ab * (sum_Q ab / len_Q ab) <=
                sum_Q sq / len_Q (y - x :: es)).
    { assert (Hab : len_Q ab = len_Q (y - x :: es)) by apply len_Q_map.
      rewrite Hab. revert C Hn'. generalize (len_Q (y - x :: es)) (sum_Q ab) (sum_Q sq).
      intros n s1 s2 C Hn'.
      apply Qle_shift_div_l; [exact Hn'|].
      setoid_replace (s1 / n * (s1 / n) * n) with (s1 * s1 / n) by (field; lra).
      apply Qle_shift_div_r; [exact Hn'|].
      setoid_replace (s2 * n) with (n * s2) by ring. exact C. }
    exact G.
Qed.

(** Witness: forecast 10, 12, 8 against actual 11, 9, 8. *)
Lemma record_comparison_metrics_bounds_witness :
  exists m stored',
    record_comparison 120 [10; 12; 8] [11; 9; 8] "guy_lipman" [] = Ok (m, stored') /\
    cmp_date m = 120%Z /\ num_hours m = List.length [10; 12; 8] /\
    0 <= min_error m /\ min_error m <= mean_absolute_error m /\
    mean_absolute_error m <= max_error m /\
    mean_error m == actual_avg m - forecast_avg m /\
    mean_absolute_error m * mean_absolute_error m <= mean_squared_error m.
Proof.
  do 2 eexists. split; [reflexivity|].
  eapply (record_comparison_metrics_bounds 120 [10; 12; 8] [11; 9; 8] "guy_lipman" []).
  reflexivity.
Defined.

(** [_save_comparison]: the stored list is sorted newest first and holds at
    most 90 comparisons; each is the new one or a stored one of another date;
    distinct dates stay distinct; the new comparison comes first when no stored
    one is newer; and with fewer than 90 stored, nothing of another date is
    dropped. *)
Theorem save_comparison_spec (m : Comparison) (stored : list Comparison) :
  let saved := save_comparison m stored in
  Sorted Z.ge (map cmp_date saved) /\ (List.length saved <= 90)%nat /\
  (forall c, In c saved -> (In c stored /\ cmp_date c <> cmp_date m) \/ c = m) /\
  (NoDup (map cmp_date stored) -> NoDup (map cmp_date saved)) /\
  (Forall (fun c => (cmp_date c <= cmp_date m)%Z) stored -> hd_error saved = Some m) /\
  ((List.length stored < 90)%nat ->
     In m saved /\ forall c, In c stored -> cmp_date c <> cmp_date m -> In c saved).
Proof.
  intros saved. subst saved.
  pose proof (save_comparison_firstn m stored) as Es.
  set (kept := filter (fun c => negb (cmp_date c =? cmp_date m)%Z) stored) in Es.
  set (sorted := sort_key_desc cmp_date (kept ++ [m])) in Es.
  assert (Hp : Permutation sorted (kept ++ [m])) by apply sort_key_desc_perm.
  assert (Hin : forall c, In c sorted -> (In c stored /\ cmp_date c <> cmp_date m) \/ c = m).
  { intros c Hc. apply (Permutation_in _ Hp) in Hc. apply in_app_or in Hc as [Hc|[<-|[]]].
    - left. apply filter_In in Hc as [Hc Hne]. apply negb_true_iff, Z.eqb_neq in Hne. tauto.
    - right. reflexivity. }
  rewrite Es. split; [|split; [|split; [|split; [|split]]]].
  - apply AnalyzerFacts.sorted_map_firstn. apply TrackerProofs.sort_key_desc_sorted.
  - rewrite length_firstn. lia.
  - intros c Hc. apply Hin, (in_firstn_in _ _ _ Hc).
  - intros Hnd. rewrite <- (firstn_skipn 90 sorted) in Hp.
    apply (NoDup_app_remove_r _ (map cmp_date (skipn 90 sorted))). rewrite <- map_app.
    apply (Permutation_NoDup (Permutation_map cmp_date (Permutation_sym Hp))).
    rewrite map_app. cbn [map]. apply NoDup_app.
    + apply NoDup_map_filter, Hnd.
    + repeat constructor. simpl. tauto.
    + intros z Hz [Ez|[]]. subst z. apply in_map_iff in Hz as [c [Ec Hc]].
      apply filter_In in Hc as [_ Hne]. apply negb_true_iff, Z.eqb_neq in Hne. contradiction.
  - intros H. rewrite <- Es. destruct (save_comparison_newest m stored H) as [rest [-> _]].
    reflexivity.
  - intros H.
    assert (Hl : (List.length sorted <= 90)%nat).
    { rewrite (Permutation_length Hp), length_app. unfold kept.
      pose proof (filter_length_le (fun c => negb (cmp_date c =? cmp_date m)%Z) stored).
      simpl. lia. }
    rewrite firstn_all2 by exact Hl. split.
    + apply (Permutation_in _ (Permutation_sym Hp)). apply in_or_app. right. left. reflexivity.
    + intros c Hc Hne. apply (Permutation_in _ (Permutation_sym Hp)). apply in_or_app. left.
      apply filter_In. split; [exact Hc|]. apply negb_true_iff, Z.eqb_neq, Hne.
Qed.

(** [record_comparison] then [get_recent_accuracy(1)]: when no stored
    comparison is newer than the recorded date, the one-day accuracy afterwards
    counts one comparison, reports its MAE and bias, and has no trend. *)
Theorem record_comparison_then_recent_accuracy (date : Z) (forecast actual : list Q)
  (source : string) (stored : list Comparison) (m : Comparison)
  (stored' : list Comparison) :
  record_comparison date forecast actual source stored = Ok (m, stored') ->
  Forall (fun c => (cmp_date c <= date)%Z) stored ->
  exists st, get_recent_accuracy stored' 1 = Ok st /\ num_comparisons st = 1%nat /\
    (exists x, recent_mae st = Some x /\ x == mean_absolute_error m) /\
    (exists b, systematic_bias st = Some b /\ b == mean_error m) /\
    trend st = "insufficient_data".
Proof.
  intros Hrec Hnew.
  assert (Hd : cmp_date m = date).
  { revert Hrec. unfold record_comparison.
    destruct (comparison_metrics date forecast actual source) as [m0|e] eqn:Em; [|discriminate].
    cbn [bind]. intros Hok. injection Hok as <- _.
    destruct (comparison_metrics_ok_inv _ _ _ _ _ Em) as (x & f & y & a & -> & -> & Hlen).
    revert Em. unfold comparison_metrics.
    replace (List.length (x :: f) =? List.length (y :: a))%nat with true
      by (symmetry; apply Nat.eqb_eq; simpl; lia).
    cbn [negb combine map]. rewrite !py_div_len_cons. cbn [bind].
    destruct (TunerFacts.py_min_max_bounds (Qabs (y - x))
      (map Qabs (map (fun '(ac, fc) => ac - fc) (combine a f)))) as (mn & mx & Emn & Emx & _).
    rewrite Emx, Emn. cbn [bind]. intros Hok. injection Hok as <-. reflexivity. }
  assert (Hs : stored' = save_comparison m stored).
  { revert Hrec. unfold record_comparison.
    destruct (comparison_metrics date forecast actual source); [|discriminate].
    cbn [bind]. intros Hok. injection Hok as <- <-. reflexivity. }
  subst stored' date.
  destruct (save_comparison_newest m stored Hnew) as [rest [-> Hr]].
  unfold get_recent_accuracy. cbn [sort_key_desc].
  rewrite insert_key_desc_max.
  2:{ apply Forall_forall. intros c Hc.
      apply (Permutation_in _ (sort_key_desc_perm cmp_date rest)) in Hc.
      rewrite Forall_forall in Hr. specialize (Hr c Hc). lia. }
  rewrite py_slice_0 by lia.
  change (firstn (Z.to_nat 1) (m :: sort_key_desc cmp_date rest)) with [m].
  cbv beta iota zeta. cbn [List.length Nat.leb bind map].
  rewrite !py_div_len_cons. cbn [bind].
  eexists. split; [reflexivity|]. cbn [num_comparisons recent_mae systematic_bias trend].
  split; [reflexivity|].
  unfold sum_Q, len_Q. cbn [fold_right List.length Z.of_nat].
  change (inject_Z 1) with 1.
  split; [eexists; split; [reflexivity|field]|].
  split; [eexists; split; [reflexivity|field]|reflexivity].
Qed.

(** Witness: recording day 120 over a stored day 119. *)
Lemma record_comparison_then_recent_accuracy_witness :
  exists m stored',
    record_comparison 120 [10; 12; 8] [11; 9; 8] "guy_lipman" [comparison_with 119 2] =
      Ok (m, stored') /\
    Forall (fun c => (cmp_date c <= 120)%Z) [comparison_with 119 2] /\
    exists st, get_recent_accuracy stored' 1 = Ok st /\ num_comparisons st = 1%nat /\
      (exists x, recent_mae st = Some x /\ x == mean_absolute_error m) /\
      (exists b, systematic_bias st = Some b /\ b == mean_error m) /\
      trend st = "insufficient_data".
Proof.
  do 2 eexists. split; [reflexivity|].
  split; [repeat constructor; simpl; lia|].
  apply (record_comparison_then_recent_accuracy 120 [10; 12; 8] [11; 9; 8] "guy_lipman"
           [comparison_with 119 2]); [reflexivity|repeat constructor; simpl; lia].
Defined.

(** [get_reliability_grade] and [should_trust_forecast]
    never raise; the grade is UNKNOWN exactly when fewer than 3 comparisons are
    counted; an UNKNOWN, EXCELLENT or GOOD grade goes with trusting the
    forecast, POOR with not trusting it, and FAIR with trusting it exactly when
    the MAE is below 4. *)
Theorem reliability_grade_trust (comparisons : list Comparison) (days : Z) :
  exists st g t,
    get_recent_accuracy comparisons days = Ok st /\
    get_reliability_grade comparisons days = Ok g /\
    should_trust_forecast comparisons days = Ok t /\
    (g = "UNKNOWN" <-> (num_comparisons st < 3)%nat) /\
    (g = "UNKNOWN" \/ g = "EXCELLENT" \/ g = "GOOD" -> t = true) /\
    (g = "POOR" -> t = false) /\
    (g = "FAIR" -> exists mae, recent_mae st = Some mae /\ (t = true <-> mae < 4)).
Proof.
  destruct (get_recent_accuracy_ok comparisons days) as [st [E Hn]].
  unfold get_reliability_grade, should_trust_forecast. rewrite E. cbn [bind].
  destruct (num_comparisons st <? 3)%nat eqn:E3.
  - apply Nat.ltb_lt in E3. exists st, "UNKNOWN", true.
    repeat split; try reflexivity; try (intros; assumption); try discriminate; lia.
  - apply Nat.ltb_ge in E3. destruct (recent_mae st) as [q|] eqn:Eq.
    2:{ specialize (Hn eq_refl). lia. }
    exists st.
    destruct (Qlt_bool q 2) eqn:E2; [|destruct (Qlt_bool q 3) eqn:E3'; [|destruct (Qlt_bool q 5) eqn:E5]].
    + apply Qlt_bool_true in E2. exists "EXCELLENT", (Qlt_bool q 4).
      assert (Qlt_bool q 4 = true) by (apply Qlt_bool_true; lra).
      repeat split; try reflexivity; try discriminate; try lia; intros; assumption.
    + apply Qlt_bool_true in E3'. exists "GOOD", (Qlt_bool q 4).
      assert (Qlt_bool q 4 = true) by (apply Qlt_bool_true; lra).
      repeat split; try reflexivity; try discriminate; try lia; intros; assumption.
    + exists "FAIR", (Qlt_bool q 4).
      repeat split; try reflexivity; try discriminate; try lia.
      * intros [H|[H|H]]; discriminate.
      * intros _. exists q. split; [exact Eq|]. apply Qlt_bool_true.
    + apply Qlt_bool_false in E5. exists "POOR", (Qlt_bool q 4).
      repeat split; try reflexivity; try discriminate; try lia.
      * intros [H|[H|H]]; discriminate.
      * intros _. apply Qlt_bool_false. lra.
Qed.

End TrackerFacts.

Module ConfidenceFacts.
Import ForecastEvolution.

Lemma time_score_bounds (d : Z) : (30 <= time_score d <= 100)%Z.
Proof.
  unfold time_score.
  destruct (d <=? 1)%Z eqn:E1; [lia|]. destruct (d =? 2)%Z eqn:E2; [lia|].
  destruct (d <=? 4)%Z eqn:E4; [lia|]. apply Z.leb_gt in E1, E4. lia.
Qed.

Lemma time_score_antitone (d d' : Z) : (d <= d')%Z -> (time_score d' <= time_score d)%Z.
Proof.
  intros H. unfold time_score.
  destruct (d <=? 1)%Z eqn:A1, (d' <=? 1)%Z eqn:B1; try (apply Z.leb_le in A1 || apply Z.leb_gt in A1);
    try (apply Z.leb_le in B1 || apply Z.leb_gt in B1);
  destruct (d =? 2)%Z eqn:A2, (d' =? 2)%Z eqn:B2; try (apply Z.eqb_eq in A2 || apply Z.eqb_neq in A2);
    try (apply Z.eqb_eq in B2 || apply Z.eqb_neq in B2);
  destruct (d <=? 4)%Z eqn:A4, (d' <=? 4)%Z eqn:B4; try (apply Z.leb_le in A4 || apply Z.leb_gt in A4);
    try (apply Z.leb_le in B4 || apply Z.leb_gt in B4); lia.
Qed.

Lemma Qmax_cases (a b : Q) : a <= Qmax a b /\ b <= Qmax a b /\ (Qmax a b == a \/ Qmax a b == b).
Proof.
  unfold Qmax. destruct (Qlt_bool a b) eqn:E.
  - apply Qlt_bool_true in E. lra.
  - apply Qlt_bool_false in E. lra.
Qed.

Lemma accuracy_score_bounds (mae : option Q) : 40 <= accuracy_score mae <= 100.
Proof.
  destruct mae as [m|]; simpl; [|lra].
  destruct (Qlt_bool 5 m) eqn:E5; [lra|]. destruct (Qlt_bool m 2) eqn:E2; [lra|].
  apply Qlt_bool_false in E5, E2.
  destruct (Qmax_cases 40 (100 - m * 12)) as [H1 [H2 [H3|H3]]]; lra.
Qed.

Lemma accuracy_score_antitone (m1 m2 : Q) :
  m1 <= m2 -> accuracy_score (Some m2) <= accuracy_score (Some m1).
Proof.
  intros H. cbn [accuracy_score].
  pose proof (Qmax_cases 40 (100 - m1 * 12)) as [A1 [A2 A3]].
  pose proof (Qmax_cases 40 (100 - m2 * 12)) as [B1 [B2 B3]].
  destruct (Qlt_bool 5 m2) eqn:E5; destruct (Qlt_bool m2 2) eqn:E2;
  destruct (Qlt_bool 5 m1) eqn:F5; destruct (Qlt_bool m1 2) eqn:F2;
  repeat match goal with
  | Hb : Qlt_bool _ _ = true |- _ => apply Qlt_bool_true in Hb
  | Hb : Qlt_bool _ _ = false |- _ => apply Qlt_bool_false in Hb
  end; try lra; destruct A3 as [A3|A3], B3 as [B3|B3]; lra.
Qed.

Definition blend (d : Z) (src : string) (mae : option Q) : Q :=
  (40 # 100) * inject_Z (time_score d) + (35 # 100) * inject_Z (source_score src)
  + (25 # 100) * accuracy_score mae.

Lemma calculate_confidence_blend (d : Z) (src : string) (mae : option Q) :
  calculate_confidence d src mae = Qfloor (blend d src mae).
Proof.
  unfold calculate_confidence. apply EvolutionProofs.py_int_Qfloor.
  pose proof (time_score_bounds d) as [T1 _]. pose proof (accuracy_score_bounds mae) as [A1 _].
  assert (S1 : 0 <= inject_Z (source_score src))
    by (unfold source_score; destruct (String.eqb _ _); unfold Qle; simpl; lia).
  assert (T2 : 0 <= inject_Z (time_score d)) by (change 0 with (inject_Z 0); rewrite <- Zle_Qle; lia).
  unfold blend. lra.
Qed.

(** [_calculate_confidence] stays in [[39, 100]] (the docstring's 0..100):
    a later target never gets a higher score, a larger historical MAE never
    gets a higher score and a missing one gets the lowest, and
    "octopus_actual" prices never get a lower score than another source. *)
Theorem calculate_confidence_range_mono (d : Z) (src : string) (mae : option Q) :
  (39 <= calculate_confidence d src mae <= 100)%Z /\
  (forall d', (d <= d')%Z -> (calculate_confidence d' src mae <= calculate_confidence d src mae)%Z) /\
  (forall m1 m2, m1 <= m2 ->
     (calculate_confidence d src (Some m2) <= calculate_confidence d src (Some m1))%Z) /\
  (calculate_confidence d src None <= calculate_confidence d src mae)%Z /\
  (calculate_confidence d src mae <= calculate_confidence d "octopus_actual" mae)%Z.
Proof.
  assert (Hsrc : forall s, 50 <= inject_Z (source_score s) <= 100).
  { intros s. unfold source_score. destruct (String.eqb _ _); unfold Qle; simpl; lia. }
  assert (Hts : forall x, 30 <= inject_Z (time_score x) <= 100).
  { intros x. pose proof (time_score_bounds x) as [T1 T2].
    rewrite Zle_Qle in T1, T2. exact (conj T1 T2). }
  split; [|split; [|split; [|split]]].
  - rewrite calculate_confidence_blend. unfold blend.
    pose proof (Hts d). pose proof (Hsrc src). pose proof (accuracy_score_bounds mae).
    split.
    + change 39%Z with (Qfloor (79 # 2)). apply Qfloor_resp_le. lra.
    + change 100%Z with (Qfloor 100). apply Qfloor_resp_le. lra.
  - intros d' H. rewrite !calculate_confidence_blend. unfold blend. apply Qfloor_resp_le.
    pose proof (time_score_antitone d d' H) as T. rewrite Zle_Qle in T. lra.
  - intros m1 m2 H. rewrite !calculate_confidence_blend. unfold blend. apply Qfloor_resp_le.
    pose proof (accuracy_score_antitone m1 m2 H). lra.
  - rewrite !calculate_confidence_blend. unfold blend. apply Qfloor_resp_le.
    pose proof (accuracy_score_bounds mae). cbn [accuracy_score]. lra.
  - rewrite !calculate_confidence_blend. unfold blend. apply Qfloor_resp_le.
    pose proof (Hsrc src). replace (source_score "octopus_actual") with 100%Z by reflexivity.
    change (inject_Z 100) with 100. lra.
Qed.

End ConfidenceFacts.
